(** * Recurrence expansion and conflict detection of the rooms booking bot

    A shallow embedding of [db/queries/bookings.py]: the occurrence expander
    [_expand_occurrences], the conflict detector [check_conflicts], the
    free-room finder [find_free_rooms], the schedule builder
    [get_room_schedule] and [cancel_booking], with the part of Python's
    [datetime] module they rely on, and of the code in [bot/handlers] that
    calls them: the steps of the booking wizard that choose the start time,
    the duration and the recurrence, and the week view of a room.

    Conventions of the embedding:
    - a [date] is its proleptic Gregorian ordinal ([date.toordinal()]), a
      [datetime] of the format [%Y-%m-%d %H:%M] is the number of minutes
      since midnight of ordinal 0; both are bounded as in Python
      ([date.min] to [date.max]), and arithmetic that leaves the bounds
      raises [OverflowError];
    - a stored row carries its timestamps already parsed (parsing the text
      of the columns is outside the embedding); a NULL or empty
      [recurrence_until] is [None]; the text of [start_dt] is kept beside
      its parsed value, for the query that orders by it;
    - a text that the program takes apart is the list of its code points;
      [recurrence_days] stays the raw text of the column, and [split],
      [strip], [isdigit] and [int] read it as CPython 3.11 does;
    - the store is passed explicitly: the [bookings] table with the two
      columns of [users] that the queries join in, and the [rooms] table,
      each as the list of its rows in table order; [ORDER BY] is a stable
      sort of that list, and compares two texts code point by code point;
    - the functions are [async] only to wait for the store; the embedding
      is sequential;
    - a handler takes the values it reads from the wizard's state as
      arguments; a date or time that a handler formats and the callee parses
      again is passed as its value, and [datetime.now()] is an argument. *)

From Stdlib Require Import ZArith List Bool String Ascii Lia.
From Stdlib Require Import Sorted Permutation.
Import ListNotations.
Open Scope Z_scope.

(** ** Outcomes of fallible code *)

Inductive exn : Type :=
| OverflowError
| ValueError.

(** [OutOfFuel] is the outcome of a loop model that was given too few
    iterations; it is shown below never to be the outcome of a function of
    the program. *)
Inductive result (A : Type) : Type :=
| Ok (a : A)
| Raise (e : exn)
| OutOfFuel.

Arguments Ok {A} a.
Arguments Raise {A} e.
Arguments OutOfFuel {A}.

Definition bind {A B : Type} (r : result A) (k : A -> result B) : result B :=
  match r with
  | Ok a => k a
  | Raise e => Raise e
  | OutOfFuel => OutOfFuel
  end.

Notation "x <- c ;; k" := (bind c (fun x => k))
  (at level 61, c at next level, right associativity).

(** ** The calendar of Python's [datetime] *)

Module Calendar.

Definition date : Type := Z.
Definition datetime : Type := Z.
(** A [timedelta], in minutes. *)
Definition timedelta : Type := Z.

(** [date.min.toordinal()] and [date.max.toordinal()] (9999-12-31). *)
Definition MINORD : Z := 1.
Definition MAXORD : Z := 3652059.

Definition MINUTES_PER_DAY : Z := 1440.

(** [datetime.min] and [datetime.max] at minute precision. *)
Definition MINDT : Z := MINORD * MINUTES_PER_DAY.
Definition MAXDT : Z := MAXORD * MINUTES_PER_DAY + 1439.

Definition valid_date (d : date) : Prop := MINORD <= d <= MAXORD.
Definition valid_datetime (t : datetime) : Prop := MINDT <= t <= MAXDT.

(** [dt.date()], [dt.time()] and [datetime.combine(d, t)]. *)
Definition date_of (t : datetime) : date := t / MINUTES_PER_DAY.
Definition time_of (t : datetime) : Z := t mod MINUTES_PER_DAY.
Definition combine (d : date) (tm : Z) : datetime := d * MINUTES_PER_DAY + tm.

(** [d + timedelta(days=n)]. *)
Definition date_add_days (d : date) (n : Z) : result date :=
  let o := d + n in
  if (MINORD <=? o) && (o <=? MAXORD) then Ok o else Raise OverflowError.

(** [t + delta] on datetimes. *)
Definition datetime_add (t : datetime) (delta : timedelta) : result datetime :=
  let r := t + delta in
  if (MINDT <=? r) && (r <=? MAXDT) then Ok r else Raise OverflowError.

(** [d.weekday()]: 0 is Monday, 6 is Sunday. *)
Definition weekday (d : date) : Z := (d + 6) mod 7.

Definition is_leap (year : Z) : bool :=
  (year mod 4 =? 0) && (negb (year mod 100 =? 0) || (year mod 400 =? 0)).

Definition DAYS_IN_MONTH (month : Z) : Z :=
  match month with
  | 1 => 31 | 2 => 28 | 3 => 31 | 4 => 30 | 5 => 31 | 6 => 30
  | 7 => 31 | 8 => 31 | 9 => 30 | 10 => 31 | 11 => 30 | 12 => 31
  | _ => -1
  end.

Definition DAYS_BEFORE_MONTH (month : Z) : Z :=
  match month with
  | 1 => 0 | 2 => 31 | 3 => 59 | 4 => 90 | 5 => 120 | 6 => 151
  | 7 => 181 | 8 => 212 | 9 => 243 | 10 => 273 | 11 => 304 | 12 => 334
  | _ => -1
  end.

Definition b2z (b : bool) : Z := if b then 1 else 0.

Definition days_before_year (year : Z) : Z :=
  let y := year - 1 in
  y * 365 + y / 4 - y / 100 + y / 400.

Definition days_before_month (year month : Z) : Z :=
  DAYS_BEFORE_MONTH month + b2z ((2 <? month) && is_leap year).

(** [date(year, month, day).toordinal()]. *)
Definition ymd2ord (year month day : Z) : date :=
  days_before_year year + days_before_month year month + day.

Definition DI400Y : Z := 146097.
Definition DI100Y : Z := 36524.
Definition DI4Y : Z := 1461.

(** [date.fromordinal(n)] as (year, month, day). *)
Definition ord2ymd (n : date) : Z * Z * Z :=
  let n := n - 1 in
  let n400 := n / DI400Y in
  let n := n mod DI400Y in
  let year := n400 * 400 + 1 in
  let n100 := n / DI100Y in
  let n := n mod DI100Y in
  let n4 := n / DI4Y in
  let n := n mod DI4Y in
  let n1 := n / 365 in
  let n := n mod 365 in
  let year := year + n100 * 100 + n4 * 4 + n1 in
  if (n1 =? 4) || (n100 =? 4) then (year - 1, 12, 31)
  else
    let leapyear := (n1 =? 3) && (negb (n4 =? 24) || (n100 =? 3)) in
    let month := Z.shiftr (n + 50) 5 in
    let preceding := DAYS_BEFORE_MONTH month + b2z ((2 <? month) && leapyear) in
    if n <? preceding then
      let month := month - 1 in
      let preceding :=
        preceding - (DAYS_IN_MONTH month + b2z ((month =? 2) && leapyear)) in
      (year, month, n - preceding + 1)
    else (year, month, n - preceding + 1).

Definition year_of (d : date) : Z := fst (fst (ord2ymd d)).
Definition month_of (d : date) : Z := snd (fst (ord2ymd d)).
(** [d.day]. *)
Definition day_of (d : date) : Z := snd (ord2ymd d).

(** The timestamp [year-month-day hour:minute]. *)
Definition mk_datetime (year month day hour minute : Z) : datetime :=
  combine (ymd2ord year month day) (hour * 60 + minute).

End Calendar.
Import Calendar.

(** ** The string operations used on [recurrence_days] *)

Module PyStr.

(** A [str] whose characters the program looks at is the list of its code
    points. *)
Definition text : Type := list Z.

(** The text of a literal in the ASCII range. *)
Definition of_string (s : string) : text :=
  map (fun c => Z.of_nat (nat_of_ascii c)) (list_ascii_of_string s).

Definition comma : Z := 44.

(** [s.split(",")]. *)
Fixpoint split_comma (s : text) : list text :=
  match s with
  | [] => [[]]
  | c :: rest =>
      if c =? comma then [] :: split_comma rest
      else match split_comma rest with
           | tok :: toks => (c :: tok) :: toks
           | [] => [[c]]
           end
  end.

Definition in_ranges (c : Z) (ranges : list (Z * Z)) : bool :=
  existsb (fun r => (fst r <=? c) && (c <=? snd r)) ranges.

(** The character data of CPython 3.11 (Unicode 14.0.0), as ranges of code
    points. [SPACE_RANGES]: the characters [str.isspace()], [str.strip()]
    and [int()] take as whitespace. *)
Definition SPACE_RANGES : list (Z * Z) :=
  [
   (9, 13); (28, 32); (133, 133); (160, 160); (5760, 5760); (8192, 8202);
   (8232, 8233); (8239, 8239); (8287, 8287); (12288, 12288)
  ].

(** The code point of the zero of each run of ten decimal digits; the digit
    at distance [k] from the zero has value [k]. *)
Definition DECIMAL_ZEROS : list Z :=
  [
   48; 1632; 1776; 1984; 2406; 2534; 2662; 2790; 2918; 3046; 3174; 3302;
   3430; 3558; 3664; 3792; 3872; 4160; 4240; 6112; 6160; 6470; 6608; 6784;
   6800; 6992; 7088; 7232; 7248; 42528; 43216; 43264; 43472; 43504; 43600;
   44016; 65296; 66720; 68912; 69734; 69872; 69942; 70096; 70384; 70736;
   70864; 71248; 71360; 71472; 71904; 72016; 72784; 73040; 73120; 92768;
   92864; 93008; 120782; 120792; 120802; 120812; 120822; 123200; 123632;
   125264; 130032
  ].

(** The characters that are digits for [str.isdigit()] without being
    decimal digits (superscripts, circled digits and the like). *)
Definition OTHER_DIGIT_RANGES : list (Z * Z) :=
  [
   (178, 179); (185, 185); (4969, 4977); (6618, 6618); (8304, 8304);
   (8308, 8313); (8320, 8329); (9312, 9320); (9332, 9340); (9352, 9360);
   (9450, 9450); (9461, 9469); (9471, 9471); (10102, 10110); (10112, 10120);
   (10122, 10130); (68160, 68163); (69216, 69224); (69714, 69722);
   (127232, 127242)
  ].

(** [c.isspace()]. *)
Definition isspace (c : Z) : bool := in_ranges c SPACE_RANGES.

(** The value of a decimal digit, [None] for another character. *)
Definition decimal (c : Z) : option Z :=
  match find (fun z => (z <=? c) && (c <=? z + 9)) DECIMAL_ZEROS with
  | Some z => Some (c - z)
  | None => None
  end.

(** [c.isdigit()]. *)
Definition isdigit_char (c : Z) : bool :=
  match decimal c with
  | Some _ => true
  | None => in_ranges c OTHER_DIGIT_RANGES
  end.

Fixpoint lstrip (s : text) : text :=
  match s with
  | [] => []
  | c :: rest => if isspace c then lstrip rest else s
  end.

Fixpoint rstrip (s : text) : text :=
  match s with
  | [] => []
  | c :: rest =>
      match rstrip rest with
      | [] => if isspace c then [] else [c]
      | r => c :: r
      end
  end.

(** [s.strip()]. *)
Definition strip (s : text) : text := rstrip (lstrip s).

(** [s.isdigit()]: non-empty and made of digits. *)
Definition isdigit (s : text) : bool :=
  match s with
  | [] => false
  | _ => forallb isdigit_char s
  end.

(** [int(s)], in the steps of CPython. First the text is brought into the
    ASCII range: a text that is in it already is taken as it is; in another
    text a character below 127 is kept, whitespace becomes a space, a
    decimal digit its ASCII digit, and at any other character the text ends
    with a question mark. *)
Fixpoint transform_chars (s : text) : text :=
  match s with
  | [] => []
  | c :: rest =>
      if c <? 127 then c :: transform_chars rest
      else if isspace c then 32 :: transform_chars rest
      else match decimal c with
           | Some d => 48 + d :: transform_chars rest
           | None => [63]
           end
  end.

Definition transform (s : text) : text :=
  if forallb (fun c => c <? 128) s then s else transform_chars s.

(** The whitespace that the number parser skips: tab, newline, vertical
    tab, form feed, carriage return and space. *)
Definition ascii_space (c : Z) : bool := (9 <=? c) && (c <=? 13) || (c =? 32).

Fixpoint skip_spaces (s : text) : text :=
  match s with
  | [] => []
  | c :: rest => if ascii_space c then skip_spaces rest else s
  end.

Definition plus_sign : Z := 43.
Definition minus_sign : Z := 45.
Definition underscore : Z := 95.

(** The optional sign: its value and the text after it. *)
Definition skip_sign (s : text) : Z * text :=
  match s with
  | c :: rest =>
      if c =? plus_sign then (1, rest)
      else if c =? minus_sign then (-1, rest)
      else (1, s)
  | [] => (1, s)
  end.

Definition starts_with (c : Z) (s : text) : bool :=
  match s with
  | d :: _ => d =? c
  | [] => false
  end.

(** The digits of the number, with single underscores between them: the
    value, the number of digits and the rest of the text, or [None] for two
    underscores in a row or an underscore at the end. *)
Fixpoint scan_digits (s : text) (prev : Z) (digits value : Z)
  : option (Z * Z * text) :=
  match s with
  | [] => if prev =? underscore then None else Some (value, digits, [])
  | c :: rest =>
      if (48 <=? c) && (c <=? 57) then
        scan_digits rest c (digits + 1) (value * 10 + (c - 48))
      else if c =? underscore then
        if prev =? underscore then None else scan_digits rest c digits value
      else if prev =? underscore then None
      else Some (value, digits, s)
  end.

(** [sys.get_int_max_str_digits()], as the interpreter starts. *)
Definition MAX_STR_DIGITS : Z := 4300.

(** Then the number is read in base 10: whitespace, a sign, the digits,
    whitespace, the end of the text; anything else is a [ValueError], and so
    is a number of more than [MAX_STR_DIGITS] digits. *)
Definition int (s : text) : result Z :=
  let s := skip_spaces (transform s) in
  let '(sign, s) := skip_sign s in
  if starts_with underscore s then Raise ValueError
  else
    match scan_digits s 0 0 0 with
    | None => Raise ValueError
    | Some (value, digits, rest) =>
        if digits =? 0 then Raise ValueError
        else if MAX_STR_DIGITS <? digits then Raise ValueError
        else match skip_spaces rest with
             | [] => Ok (sign * value)
             | _ :: _ => Raise ValueError
             end
    end.

(** [[int(d) for d in tokens]]. *)
Fixpoint ints (tokens : list text) : result (list Z) :=
  match tokens with
  | [] => Ok []
  | d :: rest =>
      n <- int d ;;
      ns <- ints rest ;;
      Ok (n :: ns)
  end.

(** The order in which the store compares two texts (byte by byte in
    UTF-8, which is the order of the code points; a text comes before its
    extensions). *)
Fixpoint leb (s t : text) : bool :=
  match s, t with
  | [], _ => true
  | _ :: _, [] => false
  | c :: s', d :: t' =>
      if c <? d then true else if d <? c then false else leb s' t'
  end.

End PyStr.

(** ** Rows *)

(** The columns [_expand_occurrences] reads through [booking[key]], of a
    stored row as of the [FakeRow] that [check_conflicts] builds. *)
Record row : Type := mk_row {
  start_dt : datetime;
  end_dt : datetime;
  recurrence_type : option string;
  recurrence_days : option PyStr.text;
  recurrence_until : option date
}.

Definition occurrence : Type := (datetime * datetime)%type.

(** ** [_expand_occurrences] *)

(** [[int(d) for d in days_raw.split(",") if d.strip().isdigit()]] with
    [days_raw] the column [recurrence_days], or the empty text when the
    column is NULL or empty; [int] is given the token
    as it is, not the stripped one, and raises [ValueError] on a token that
    it cannot read. *)
Definition day_nums (raw : option PyStr.text) : result (list Z) :=
  let days_raw := match raw with Some s => s | None => [] end in
  PyStr.ints
    (filter (fun d => PyStr.isdigit (PyStr.strip d)) (PyStr.split_comma days_raw)).

(** [x in day_nums]. *)
Definition mem (x : Z) (l : list Z) : bool := existsb (Z.eqb x) l.

(** The [include] flag of one loop iteration. *)
Definition include (rec_type : string) (nums : list Z) (cursor : date) : bool :=
  if String.eqb rec_type "daily" then true
  else if String.eqb rec_type "weekly" then mem (weekday cursor) nums
  else if String.eqb rec_type "monthly" then mem (day_of cursor) nums
  else false.

Section ExpandLoop.

Variables (start : datetime) (duration : timedelta).
Variables (rec_type : string) (nums : list Z).
Variables (window_start bound : date).

(** The body of the [while] loop up to the increment of [cursor]. *)
Definition expand_step (cursor : date) (results : list occurrence)
  : result (list occurrence) :=
  if window_start <=? cursor then
    if include rec_type nums cursor then
      let occ_start := combine cursor (time_of start) in
      occ_end <- datetime_add occ_start duration ;;
      Ok (results ++ [(occ_start, occ_end)])
    else Ok results
  else Ok results.

(** [while cursor <= min(until, window_end): ...; cursor += timedelta(days=1)] *)
Fixpoint expand_loop (fuel : nat) (cursor : date) (results : list occurrence)
  : result (list occurrence) :=
  match fuel with
  | O => OutOfFuel
  | S fuel' =>
      if cursor <=? bound then
        results' <- expand_step cursor results ;;
        cursor' <- date_add_days cursor 1 ;;
        expand_loop fuel' cursor' results'
      else Ok results
  end.

End ExpandLoop.

(** The loop body runs once for each date from [cursor] to [bound]; one more
    round sees the exit test fail. *)
Definition loop_fuel (cursor bound : date) : nat :=
  S (Z.to_nat (bound + 1 - cursor)).

Definition expand_occurrences (booking : row) (window_start window_end : date)
  : result (list occurrence) :=
  let start := start_dt booking in
  let end_ := end_dt booking in
  let duration := end_ - start in
  match recurrence_type booking with
  | None =>
      if (window_start <=? date_of start) && (date_of start <=? window_end)
      then Ok [(start, end_)]
      else Ok []
  | Some rec_type =>
      let until := match recurrence_until booking with
                   | Some u => u
                   | None => window_end
                   end in
      nums <- day_nums (recurrence_days booking) ;;
      let cursor := date_of start in
      let bound := Z.min until window_end in
      expand_loop start duration rec_type nums window_start bound
                  (loop_fuel cursor bound) cursor []
  end.

(** ** The store *)

(** A row of [bookings] as the queries of this module return it: the columns
    of the table with [username] and [full_name] of the booking's user
    joined in. [b_start_text] is the text of the column [start_dt], which
    [ORDER BY] compares; [b_start_dt] is what [_parse_dt] makes of it. *)
Record booking : Type := mk_booking {
  b_id : Z;
  b_room_id : Z;
  b_title : string;
  b_start_text : PyStr.text;
  b_start_dt : datetime;
  b_end_dt : datetime;
  b_recurrence_type : option string;
  b_recurrence_days : option PyStr.text;
  b_recurrence_until : option date;
  b_is_cancelled : bool;
  b_username : option string;
  b_full_name : string
}.

(** Item access of a stored row by the column names the expander uses. *)
Definition as_row (b : booking) : row :=
  mk_row (b_start_dt b) (b_end_dt b) (b_recurrence_type b)
         (b_recurrence_days b) (b_recurrence_until b).

Record room : Type := mk_room {
  r_id : Z;
  r_company_id : Z;
  r_name : string;
  r_is_active : bool
}.

(** The two tables, each in the order a scan of the table visits it. *)
Record database : Type := mk_database {
  bookings : list booking;
  rooms : list room
}.

(** ** Sorting as the program does it *)

Section StableSort.

Context {A : Type}.
Variable le : A -> A -> bool.

Fixpoint insert_sorted (x : A) (l : list A) : list A :=
  match l with
  | [] => [x]
  | y :: rest => if le x y then x :: l else y :: insert_sorted x rest
  end.

(** A stable sort: of two elements that compare equal, the one that comes
    first in the input comes first in the output. *)
Fixpoint stable_sort (l : list A) : list A :=
  match l with
  | [] => []
  | x :: rest => insert_sorted x (stable_sort rest)
  end.

End StableSort.

(** The comparison of [sort(key=...)] on a key with integer values. *)
Definition le_by {A : Type} (key : A -> Z) (x y : A) : bool := key x <=? key y.

(** The comparison of [ORDER BY] on a column of texts. *)
Definition le_text {A : Type} (key : A -> PyStr.text) (x y : A) : bool :=
  PyStr.leb (key x) (key y).

(** ** [get_room_bookings_raw] and [get_room_schedule] *)

(** [WHERE b.room_id = ? AND b.is_cancelled = 0]. *)
Definition active_in_room (room_id : Z) (b : booking) : bool :=
  (b_room_id b =? room_id) && negb (b_is_cancelled b).

(** [... ORDER BY b.start_dt]: the store compares the texts of the column;
    rows with equal texts stay in table order. *)
Definition get_room_bookings_raw (db : database) (room_id : Z) : list booking :=
  stable_sort (le_text b_start_text)
              (filter (active_in_room room_id) (bookings db)).

Record schedule_entry : Type := mk_entry {
  s_booking_id : Z;
  s_title : string;
  s_start_dt : datetime;
  s_end_dt : datetime;
  s_username : option string;
  s_full_name : string;
  s_recurrence_type : option string
}.

Definition entry_of (b : booking) (occ : occurrence) : schedule_entry :=
  mk_entry (b_id b) (b_title b) (fst occ) (snd occ)
           (b_username b) (b_full_name b) (b_recurrence_type b).

(** The inner [for occ_start, occ_end in ...: result.append({...})]. *)
Definition append_entries (b : booking) (occs : list occurrence)
           (entries : list schedule_entry) : list schedule_entry :=
  fold_left (fun acc occ => acc ++ [entry_of b occ]) occs entries.

(** The outer [for b in raw]. *)
Fixpoint collect_entries (window_start window_end : date) (raw : list booking)
         (entries : list schedule_entry) : result (list schedule_entry) :=
  match raw with
  | [] => Ok entries
  | b :: rest =>
      occs <- expand_occurrences (as_row b) window_start window_end ;;
      collect_entries window_start window_end rest (append_entries b occs entries)
  end.

Definition get_room_schedule (db : database) (room_id : Z)
           (window_start window_end : date) : result (list schedule_entry) :=
  let raw := get_room_bookings_raw db room_id in
  entries <- collect_entries window_start window_end raw [] ;;
  Ok (stable_sort (le_by s_start_dt) entries).

(** ** [check_conflicts] *)

Record conflict : Type := mk_conflict {
  c_booking_id : Z;
  c_title : string;
  c_start_dt : datetime;
  c_end_dt : datetime;
  c_username : option string;
  c_full_name : string
}.

Definition conflict_of (ex : booking) (e : occurrence) : conflict :=
  mk_conflict (b_id ex) (b_title ex) (fst e) (snd e)
              (b_username ex) (b_full_name ex).

(** [p_start < e_end and p_end > e_start]. *)
Definition overlaps (p e : occurrence) : bool :=
  (fst p <? snd e) && (fst e <? snd p).

(** [for e_start, e_end in ex_occurrences: if ...: conflicts.append({...})]. *)
Definition scan_existing (ex : booking) (p : occurrence)
           (ex_occurrences : list occurrence) (conflicts : list conflict)
  : list conflict :=
  fold_left (fun acc e => if overlaps p e then acc ++ [conflict_of ex e] else acc)
            ex_occurrences conflicts.

(** [for p_start, p_end in proposed_occurrences: ...]. *)
Definition scan_proposed (ex : booking)
           (proposed_occurrences ex_occurrences : list occurrence)
           (conflicts : list conflict) : list conflict :=
  fold_left (fun acc p => scan_existing ex p ex_occurrences acc)
            proposed_occurrences conflicts.

(** [exclude_booking_id and ex["id"] == exclude_booking_id]. *)
Definition is_excluded (exclude_booking_id : option Z) (ex : booking) : bool :=
  match exclude_booking_id with
  | Some x => negb (x =? 0) && (b_id ex =? x)
  | None => false
  end.

(** [for ex in existing: ...]. *)
Fixpoint scan_bookings (exclude_booking_id : option Z)
         (win_start win_end : date) (proposed_occurrences : list occurrence)
         (existing : list booking) (conflicts : list conflict)
  : result (list conflict) :=
  match existing with
  | [] => Ok conflicts
  | ex :: rest =>
      if is_excluded exclude_booking_id ex then
        scan_bookings exclude_booking_id win_start win_end
                      proposed_occurrences rest conflicts
      else
        ex_occurrences <- expand_occurrences (as_row ex) win_start win_end ;;
        scan_bookings exclude_booking_id win_start win_end
                      proposed_occurrences rest
                      (scan_proposed ex proposed_occurrences ex_occurrences conflicts)
  end.

(** The window of the check: from the date of the proposed start to
    [recurrence_until], or 366 days ahead when there is none. *)
Definition check_window (new_start : datetime) (recurrence_until : option date)
  : result (date * date) :=
  win_end <- match recurrence_until with
             | Some u => Ok u
             | None => date_add_days (date_of new_start) 366
             end ;;
  Ok (date_of new_start, win_end).

(** The rows of [SELECT ... WHERE b.room_id = ? AND b.is_cancelled = 0], in
    table order (the query has no ORDER BY). *)
Definition existing_bookings (db : database) (room_id : Z) : list booking :=
  filter (active_in_room room_id) (bookings db).

Definition check_conflicts (db : database) (room_id : Z)
           (start_dt end_dt : datetime)
           (recurrence_type : option string)
           (recurrence_days : option PyStr.text)
           (recurrence_until : option date)
           (exclude_booking_id : option Z) : result (list conflict) :=
  let new_start := start_dt in
  let proposed :=
    mk_row start_dt end_dt recurrence_type recurrence_days recurrence_until in
  win <- check_window new_start recurrence_until ;;
  let '(win_start, win_end) := win in
  proposed_occurrences <- expand_occurrences proposed win_start win_end ;;
  match proposed_occurrences with
  | [] => Ok []
  | _ :: _ =>
      let existing := existing_bookings db room_id in
      scan_bookings exclude_booking_id win_start win_end
                    proposed_occurrences existing []
  end.

(** ** [find_free_rooms] *)

(** [WHERE company_id = ? AND is_active = 1 ORDER BY name]; rooms of equal
    name stay in table order. *)
Definition active_rooms (db : database) (company_id : Z) : list room :=
  stable_sort (fun x y => String.leb (r_name x) (r_name y))
              (filter (fun r => (r_company_id r =? company_id) && r_is_active r)
                      (rooms db)).

(** [for room in all_rooms: ... if not conflicts: free_rooms.append(room)]. *)
Fixpoint scan_rooms (db : database) (start_dt end_dt : datetime)
         (all_rooms : list room) (free_rooms : list room) : result (list room) :=
  match all_rooms with
  | [] => Ok free_rooms
  | r :: rest =>
      conflicts <- check_conflicts db (r_id r) start_dt end_dt None None None None ;;
      match conflicts with
      | [] => scan_rooms db start_dt end_dt rest (free_rooms ++ [r])
      | _ :: _ => scan_rooms db start_dt end_dt rest free_rooms
      end
  end.

Definition find_free_rooms (db : database) (company_id : Z)
           (start_dt end_dt : datetime) : result (list room) :=
  let all_rooms := active_rooms db company_id in
  scan_rooms db start_dt end_dt all_rooms [].

(** ** A write to the store: [cancel_booking] *)

Definition set_cancelled (b : booking) : booking :=
  mk_booking (b_id b) (b_room_id b) (b_title b) (b_start_text b)
             (b_start_dt b) (b_end_dt b)
             (b_recurrence_type b) (b_recurrence_days b) (b_recurrence_until b)
             true (b_username b) (b_full_name b).

(** [UPDATE bookings SET is_cancelled = 1 WHERE id = ?]. *)
Definition cancel_booking (db : database) (booking_id : Z) : database :=
  mk_database
    (map (fun b => if b_id b =? booking_id then set_cancelled b else b) (bookings db))
    (rooms db).

(** ** The booking wizard of [bot/handlers/booking.py] *)










(** [selected.remove(day)]: drops the first occurrence. *)
Fixpoint remove_first (day : Z) (selected : list Z) : list Z :=
  match selected with
  | [] => []
  | x :: rest => if x =? day then rest else x :: remove_first day rest
  end.

(** The update of [selected_weekdays] in [cb_weekday_toggle]. *)
Definition weekday_toggle (day : Z) (selected : list Z) : list Z :=
  if mem day selected then remove_first day selected else selected ++ [day].

(** [_days_in_month] and the check of [date(year, month, day)]. *)
Definition days_in_month (year month : Z) : Z :=
  if (month =? 2) && is_leap year then 29 else DAYS_IN_MONTH month.

Definition check_date_fields (year month day : Z) : bool :=
  (1 <=? year) && (year <=? 9999) && (1 <=? month) && (month <=? 12)
  && (1 <=? day) && (day <=? days_in_month year month).

(** [until_date = start_date.replace(year=start_date.year + 1)] of
    [cb_until_1year], on the fields of [start_date]; [None] is the
    [ValueError] of a date that does not exist. *)
Definition until_1year (start_date : Z * Z * Z) : option (Z * Z * Z) :=
  let '(year, month, day) := start_date in
  if check_date_fields (year + 1) month day then Some (year + 1, month, day)
  else None.

(** [if room_id: ...] on a room id that may be missing. *)
Definition room_given (room_id : option Z) : option Z :=
  match room_id with
  | Some r => if r =? 0 then None else Some r
  | None => None
  end.

(** The loop of [_proceed_to_duration] over the preset durations: a preset
    is offered when the slot from [start_dt] of that length has no conflict
    in the room (every preset when no room is given). *)
Fixpoint available_durations (db : database) (room_id : option Z)
         (start_dt : datetime) (presets : list Z) (available_minutes : list Z)
  : result (list Z) :=
  match presets with
  | [] => Ok available_minutes
  | minutes :: rest =>
      end_dt <- datetime_add start_dt minutes ;;
      match room_given room_id with
      | Some r =>
          conflicts <- check_conflicts db r start_dt end_dt None None None None ;;
          match conflicts with
          | [] => available_durations db room_id start_dt rest
                                      (available_minutes ++ [minutes])
          | _ :: _ => available_durations db room_id start_dt rest available_minutes
          end
      | None => available_durations db room_id start_dt rest
                                    (available_minutes ++ [minutes])
      end
  end.

Definition PRESET_MINUTES : list Z := [30; 60; 90; 120].

Definition proceed_to_duration (db : database) (room_id : option Z)
           (start_dt : datetime) : result (list Z) :=
  available_durations db room_id start_dt PRESET_MINUTES [].

(** [cb_duration_slot] turns the chosen preset into the text of an end
    time, [(start_dt + timedelta(minutes=minutes)).strftime("%H:%M")], and
    [_apply_duration] reads that time on the booking date:
    [end_dt = f"{booking_date} {end_time_str}"]. *)
Definition duration_end_dt (start_dt : datetime) (minutes : Z) : result datetime :=
  end_dt <- datetime_add start_dt minutes ;;
  Ok (combine (date_of start_dt) (time_of end_dt)).

(** The sanity check of [_apply_duration], [if e <= s: ... return], which
    turns the slot down. *)
Definition end_not_after_start (s e : datetime) : bool := e <=? s.

(** How the body of a [for] loop inside a function leaves: on to the rest
    of the function ([Next], also after [break]), or out of the function
    with its value ([Return]). *)
Inductive control (A : Type) : Type :=
| Next (a : A)
| Return (a : A).

Arguments Next {A} a.
Arguments Return {A} a.

(** [range(lo, hi)]. *)
Definition range (lo hi : Z) : list Z :=
  map (fun i => lo + Z.of_nat i) (seq 0 (Z.to_nat (hi - lo))).

(** [len(l)]. *)
Definition len {A : Type} (l : list A) : Z := Z.of_nat (List.length l).

(** The inner loop [for m in (0, 30)] of [_next_half_hour_slots], for the
    hour [h]; a slot is the pair of its hour and minute, the text
    [f"{h:02d}:{m:02d}"]. *)
Fixpoint half_hours_of (db : database) (booking_date : date) (room_id n : Z)
         (start_h start_m h : Z) (ms : list Z) (free_slots : list (Z * Z))
  : result (control (list (Z * Z))) :=
  match ms with
  | [] => Ok (Next free_slots)
  | m :: rest =>
      if (h =? start_h) && (m <? start_m) then
        half_hours_of db booking_date room_id n start_h start_m h rest free_slots
      else
        let slot_start := combine booking_date (h * 60 + m) in
        let end_m := m + 30 in
        let end_h := h + end_m / 60 in
        let end_m := end_m mod 60 in
        if end_h >=? 24 then Ok (Next free_slots)
        else
          let slot_end := combine booking_date (end_h * 60 + end_m) in
          conflicts <- check_conflicts db room_id slot_start slot_end
                                       None None None None ;;
          let free_slots :=
            match conflicts with
            | [] => free_slots ++ [(h, m)]
            | _ :: _ => free_slots
            end in
          if len free_slots >=? n then Ok (Return free_slots)
          else half_hours_of db booking_date room_id n start_h start_m h rest
                             free_slots
  end.

(** The outer loop [for h in range(start_h, 24)]. *)
Fixpoint hours_from (db : database) (booking_date : date) (room_id n : Z)
         (start_h start_m : Z) (hs : list Z) (free_slots : list (Z * Z))
  : result (list (Z * Z)) :=
  match hs with
  | [] => Ok free_slots
  | h :: rest =>
      c <- half_hours_of db booking_date room_id n start_h start_m h [0; 30]
                         free_slots ;;
      match c with
      | Return free_slots => Ok free_slots
      | Next free_slots =>
          hours_from db booking_date room_id n start_h start_m rest free_slots
      end
  end.

(** [_next_half_hour_slots(booking_date, room_id, n)], with the value of
    [datetime.now()] as [now]. *)
Definition next_half_hour_slots (db : database) (now : datetime)
           (booking_date : date) (room_id n : Z) : result (list (Z * Z)) :=
  let today := date_of now in
  let '(start_h, start_m) :=
    if booking_date =? today then (time_of now / 60, time_of now mod 60)
    else (11, 0) in
  hours_from db booking_date room_id n start_h start_m (range start_h 24) [].

(** ** The week of [cb_room_schedule] in [bot/handlers/rooms.py] *)

(** [week_start = today - timedelta(days=today.weekday())
                  + timedelta(weeks=week_offset)] and
    [week_end = week_start + timedelta(days=6)]. *)
Definition schedule_week (today : date) (week_offset : Z) : result (date * date) :=
  monday <- date_add_days today (- weekday today) ;;
  week_start <- date_add_days monday (7 * week_offset) ;;
  week_end <- date_add_days week_start 6 ;;
  Ok (week_start, week_end).

(** ** The week view of [_build_schedule_text] in [bot/handlers/rooms.py] *)

(** [by_day.setdefault(d, []).append(slot)] on a dict, kept as the list of
    its items in insertion order. *)
Fixpoint setdefault_append (d : date) (slot : schedule_entry)
         (by_day : list (date * list schedule_entry))
  : list (date * list schedule_entry) :=
  match by_day with
  | [] => [(d, [slot])]
  | (k, v) :: rest =>
      if k =? d then (k, v ++ [slot]) :: rest
      else (k, v) :: setdefault_append d slot rest
  end.

(** [for slot in schedule: d = slot["start_dt"].date(); ...]. *)
Definition group_by_day (schedule : list schedule_entry)
  : list (date * list schedule_entry) :=
  fold_left (fun by_day slot =>
               setdefault_append (date_of (s_start_dt slot)) slot by_day)
            schedule [].

(** [by_day.get(current, [])]. *)
Fixpoint get_day (by_day : list (date * list schedule_entry)) (current : date)
  : list schedule_entry :=
  match by_day with
  | [] => []
  | (k, v) :: rest => if k =? current then v else get_day rest current
  end.

(** The loop [while current <= week_end: ...; current += timedelta(days=1)].
    A day of the text is kept as the date of its header and the slots that
    are listed under it (none for a day that is shown as free); the wording
    of the lines is left out. *)
Fixpoint week_loop (fuel : nat) (by_day : list (date * list schedule_entry))
         (week_end current : date) (days : list (date * list schedule_entry))
  : result (list (date * list schedule_entry)) :=
  match fuel with
  | O => OutOfFuel
  | S fuel' =>
      if current <=? week_end then
        let slots := get_day by_day current in
        current' <- date_add_days current 1 ;;
        week_loop fuel' by_day week_end current' (days ++ [(current, slots)])
      else Ok days
  end.

Definition build_schedule_days (week_start week_end : date)
           (schedule : list schedule_entry)
  : result (list (date * list schedule_entry)) :=
  week_loop (loop_fuel week_start week_end) (group_by_day schedule)
            week_end week_start [].

(** ** Vocabulary of the specification *)

(** The dates [lo], [lo + 1], ..., [hi] in ascending order. *)
Fixpoint dates_from (n : nat) (lo : date) : list date :=
  match n with
  | O => []
  | S k => lo :: dates_from k (lo + 1)
  end.

Definition dates_between (lo hi : date) : list date :=
  dates_from (Z.to_nat (hi + 1 - lo)) lo.

(** The recurrence kinds of the data model and their encoding in the
    [recurrence_type] column. *)
Inductive kind : Type := Daily | Weekly | Monthly.

Definition kind_name (k : kind) : string :=
  match k with
  | Daily => "daily"
  | Weekly => "weekly"
  | Monthly => "monthly"
  end.

(** The inclusion test of each kind, in the words of the specification. *)
Definition passes (k : kind) (days : list Z) (d : date) : bool :=
  match k with
  | Daily => true
  | Weekly => mem (weekday d) days
  | Monthly => mem (day_of d) days
  end.

(** The occurrence on a date of a slot that starts at [start] and lasts
    [duration]: the time of day of [start] on that date, for [duration]. *)
Definition occurrence_at (start : datetime) (duration : timedelta) (d : date)
  : occurrence :=
  let occ_start := combine d (time_of start) in
  (occ_start, occ_start + duration).

(** The occurrence of a definition on a date: the anchor's time of day on
    that date, lasting as long as the anchor. *)
Definition occurrence_on (b : row) : date -> occurrence :=
  occurrence_at (start_dt b) (end_dt b - start_dt b).

(** The dates the loop appends an occurrence for: in the window and
    included. *)
Definition selected (window_start : date) (rec_type : string) (nums : list Z)
           (d : date) : bool :=
  (window_start <=? d) && include rec_type nums d.

(** The end of the recurrence: [until], or the end of the window for a row
    without one. *)
Definition until_or (b : row) (window_end : date) : date :=
  match recurrence_until b with
  | Some u => u
  | None => window_end
  end.

(** A recurrence kind the expander does not know. *)
Definition unknown_kind (s : string) : Prop :=
  s <> "daily"%string /\ s <> "weekly"%string /\ s <> "monthly"%string.

(** No token of the comma-separated text passes the test of the
    expander, [d.strip().isdigit()]: none is made of digits between optional
    whitespace. *)
Definition no_integer_token (s : PyStr.text) : Prop :=
  forall tok, In tok (PyStr.split_comma s) -> PyStr.isdigit (PyStr.strip tok) = false.




(** The expander can read the days of the row: the row does not recur (its
    days are not read then), or [recurrence_days] is read without error. *)
Definition days_readable (b : row) : bool :=
  match recurrence_type b, day_nums (recurrence_days b) with
  | None, _ => true
  | Some _, Ok _ => true
  | Some _, _ => false
  end.

(** The days of a row whose [recurrence_days] can be read, none when it
    cannot. *)
Definition parsed_days (b : row) : list Z :=
  match day_nums (recurrence_days b) with
  | Ok nums => nums
  | _ => []
  end.

(** The text [YYYY-MM-DD HH:MM] of a timestamp, with every field padded
    with zeros. *)
Fixpoint pad_digits (width : nat) (n : Z) (acc : PyStr.text) : PyStr.text :=
  match width with
  | O => acc
  | S w => pad_digits w (n / 10) (48 + n mod 10 :: acc)
  end.

Definition format_dt (t : datetime) : PyStr.text :=
  let '(year, month, day) := ord2ymd (date_of t) in
  pad_digits 4 year [] ++ [45] ++ pad_digits 2 month [] ++ [45]
  ++ pad_digits 2 day [] ++ [32] ++ pad_digits 2 (time_of t / 60) []
  ++ [58] ++ pad_digits 2 (time_of t mod 60) [].

(** The occurrences of a definition in a window, empty when the expansion
    raises. *)
Definition occurrences_in (b : row) (window_start window_end : date)
  : list occurrence :=
  match expand_occurrences b window_start window_end with
  | Ok l => l
  | _ => []
  end.

(** The last date of the window of a check: [recurrence_until], or the date
    366 days after the proposed start. *)
Definition check_until (new_start : datetime) (recurrence_until : option date)
  : date :=
  match recurrence_until with
  | Some u => u
  | None => date_of new_start + 366
  end.

(** The rows the scan does not skip. *)
Definition considered (exclude_booking_id : option Z) (existing : list booking)
  : list booking :=
  filter (fun ex => negb (is_excluded exclude_booking_id ex)) existing.

(** The conflict records of one existing definition against the proposed
    occurrences: one for each overlapping pair. *)
Definition conflicts_with (proposed_occurrences : list occurrence)
           (win_start win_end : date) (ex : booking) : list conflict :=
  flat_map (fun p =>
              map (conflict_of ex)
                  (filter (overlaps p) (occurrences_in (as_row ex) win_start win_end)))
           proposed_occurrences.

(** A room is free for a slot when the detector returns no conflict for it. *)
Definition is_free (db : database) (start_dt end_dt : datetime) (r : room) : bool :=
  match check_conflicts db (r_id r) start_dt end_dt None None None None with
  | Ok [] => true
  | _ => false
  end.

(** The elements of a list with a given key. *)
Definition at_key {A : Type} (key : A -> Z) (k : Z) (x : A) : bool := key x =? k.

(** Equality of two texts, and the elements of a list with a given text. *)
Fixpoint text_eqb (s t : PyStr.text) : bool :=
  match s, t with
  | [], [] => true
  | c :: s', d :: t' => (c =? d) && text_eqb s' t'
  | _, _ => false
  end.

Definition at_text {A : Type} (key : A -> PyStr.text) (t : PyStr.text) (x : A)
  : bool :=
  text_eqb (key x) t.

(** Ordered by start, ties by definition id. *)
Definition conflict_le (x y : conflict) : Prop :=
  c_start_dt x < c_start_dt y \/
  (c_start_dt x = c_start_dt y /\ c_booking_id x <= c_booking_id y).

Definition entry_le (x y : schedule_entry) : Prop :=
  s_start_dt x < s_start_dt y \/
  (s_start_dt x = s_start_dt y /\ s_booking_id x <= s_booking_id y).

(** The entries of one definition in a window. *)
Definition entries_of (window_start window_end : date) (b : booking)
  : list schedule_entry :=
  map (entry_of b) (occurrences_in (as_row b) window_start window_end).

(** The calendar repeats every 400 years: a date 400 years later has the
    same month and day. *)
Definition shift_years (q : Z) (t : Z * Z * Z) : Z * Z * Z :=
  (fst (fst t) + 400 * q, snd (fst t), snd t).

(** Among the dates from January 1 to March 31 of year [y], those whose day
    of the month is 31 are January 31 and March 31. *)
Definition only_31s (y : Z) : bool :=
  forallb (fun d => Bool.eqb (day_of d =? 31)
                             ((d =? ymd2ord y 1 31) || (d =? ymd2ord y 3 31)))
          (dates_between (ymd2ord y 1 1) (ymd2ord y 3 31)).

Definition is_ymd (d : date) (year month day : Z) : bool :=
  (year_of d =? year) && (month_of d =? month) && (day_of d =? day).

Definition first_quarter_ok (y : Z) : bool :=
  only_31s y && is_ymd (ymd2ord y 1 31) y 1 31 && is_ymd (ymd2ord y 3 31) y 3 31.

(** A preset duration is offered: no room is chosen, or the slot of that
    length has no conflict in the room. *)
Definition duration_free (db : database) (room_id : option Z) (start_dt : datetime)
           (minutes : Z) : bool :=
  match room_given room_id with
  | Some r =>
      match check_conflicts db r start_dt (start_dt + minutes) None None None None with
      | Ok [] => true
      | _ => false
      end
  | None => true
  end.

(** The half hour that starts at [slot] (hour, minute) on [booking_date] has
    no conflict in the room. *)
Definition slot_free (db : database) (booking_date : date) (room_id : Z)
           (slot : Z * Z) : bool :=
  let start := combine booking_date (fst slot * 60 + snd slot) in
  match check_conflicts db room_id start (start + 30) None None None None with
  | Ok [] => true
  | _ => false
  end.

(** A half hour that the slot finder looks at: not before the starting
    minute within the starting hour, and over before midnight. *)
Definition slot_wanted (start_h start_m : Z) (slot : Z * Z) : bool :=
  negb ((fst slot =? start_h) && (snd slot <? start_m))
  && (fst slot * 60 + snd slot + 30 <? 1440).

(** The half hours from [start_h] to the end of the day that the slot finder
    looks at, in ascending order. *)
Definition slot_candidates (start_h start_m : Z) : list (Z * Z) :=
  filter (slot_wanted start_h start_m)
         (flat_map (fun h => [(h, 0); (h, 30)]) (range start_h 24)).

(** The entry starts on date [d]. *)
Definition starts_on (d : date) (e : schedule_entry) : bool :=
  date_of (s_start_dt e) =? d.

(** ** Sample data *)

(** A one-hour slot from 10:00 to 11:00 on date [d]. *)
Definition slot_10_to_11 (d : date) (rec_type : option string)
           (rec_days : option PyStr.text) (until : option date) : row :=
  mk_row (combine d 600) (combine d 660) rec_type rec_days until.

(** A daily slot from 9999-12-30 whose recurrence ends on the last day of
    the calendar. *)
Definition daily_to_the_end : row :=
  slot_10_to_11 (MAXORD - 1) (Some "daily"%string) None (Some MAXORD).

(** A slot from 9999-12-30 to the last day of the calendar with a recurrence
    type the expander does not know. *)
Definition yearly_at_the_end : row :=
  slot_10_to_11 (MAXORD - 1) (Some "yearly"%string) None (Some MAXORD).

(** A weekly slot from 9999-12-30 to the last day of the calendar with no
    weekday. *)
Definition weekly_no_days_at_the_end : row :=
  slot_10_to_11 (MAXORD - 1) (Some "weekly"%string) (Some []) (Some MAXORD).

(** A weekly slot whose [recurrence_days] is a file separator (code point
    28) followed by the digit two. *)
Definition weekly_unreadable_days : row :=
  slot_10_to_11 (ymd2ord 2024 1 1) (Some "weekly"%string) (Some [28; 50])
                (Some (ymd2ord 2024 1 14)).

(** A monthly slot on every 31st, anchored on 2024-01-15, until 2024-03-31. *)
Definition monthly_31 : row :=
  slot_10_to_11 (ymd2ord 2024 1 15) (Some "monthly"%string)
                (Some (PyStr.of_string "31")) (Some (ymd2ord 2024 3 31)).

(** A stored one-hour booking at 10:00 on date [d] in room 1. *)
Definition stored_slot (id : Z) (d : date) (rec_type : option string)
           (until : option date) : booking :=
  mk_booking id 1 "standup" (format_dt (combine d 600))
             (combine d 600) (combine d 660)
             rec_type None until false (Some "ann"%string) "Ann".

(** Room 1 with a booking on January 3 made before one on January 2. *)
Definition db_two_bookings : database :=
  mk_database [stored_slot 1 (ymd2ord 2024 1 3) None None;
               stored_slot 2 (ymd2ord 2024 1 2) None None]
              [mk_room 1 7 "Blue" true].

(** Room 1 with a booking on January 3 (id 1) and a daily booking from
    January 1 to January 5 made after it (id 2). *)
Definition db_daily_and_single : database :=
  mk_database [stored_slot 1 (ymd2ord 2024 1 3) None None;
               stored_slot 2 (ymd2ord 2024 1 1) (Some "daily"%string)
                           (Some (ymd2ord 2024 1 5))]
              [mk_room 1 7 "Blue" true].

(** Room 1 with two bookings on 2024-01-02: one at 9:00 whose start was
    stored as the wizard's search step leaves it, with the hour not padded,
    and one at 10:00 made after it. *)
Definition db_unpadded : database :=
  mk_database [mk_booking 1 1 "early" (PyStr.of_string "2024-01-02 9:00")
                          (mk_datetime 2024 1 2 9 0)
                          (mk_datetime 2024 1 2 9 30) None None None false
                          (Some "ann"%string) "Ann";
               mk_booking 2 1 "late" (PyStr.of_string "2024-01-02 10:00")
                          (mk_datetime 2024 1 2 10 0)
                          (mk_datetime 2024 1 2 11 0) None None None false
                          (Some "bob"%string) "Bob"]
              [mk_room 1 7 "Blue" true].

(** Company 7 with three rooms, of which room 2 is booked on 2024-01-02
    from 10:00 to 11:00. *)
Definition db_three_rooms : database :=
  mk_database [mk_booking 1 2 "review" (PyStr.of_string "2024-01-02 10:00")
                          (mk_datetime 2024 1 2 10 0)
                          (mk_datetime 2024 1 2 11 0) None None None false
                          (Some "bob"%string) "Bob"]
              [mk_room 3 7 "C" true; mk_room 1 7 "A" true; mk_room 2 7 "B" true].

(** * Properties *)

(** ** The result monad *)

Lemma bind_Ok_inv {A B : Type} (r : result A) (k : A -> result B) (b : B) :
  bind r k = Ok b -> exists a, r = Ok a /\ k a = Ok b.
Proof.
  destruct r as [a | e |]; simpl; intros H; try discriminate.
  exists a. split; [reflexivity | exact H].
Qed.

Lemma bind_not_OutOfFuel {A B : Type} (r : result A) (k : A -> result B) :
  r <> OutOfFuel -> (forall a, r = Ok a -> k a <> OutOfFuel) ->
  bind r k <> OutOfFuel.
Proof.
  destruct r as [a | e |]; simpl; intros Hr Hk.
  - apply Hk. reflexivity.
  - discriminate.
  - contradiction.
Qed.

(** ** Date arithmetic *)

Lemma date_add_days_Ok (d n o : date) :
  date_add_days d n = Ok o -> o = d + n /\ MINORD <= o <= MAXORD.
Proof.
  unfold date_add_days.
  destruct ((MINORD <=? d + n) && (d + n <=? MAXORD)) eqn:E; intros H; inversion H.
  apply andb_true_iff in E. destruct E as [E1 E2].
  apply Z.leb_le in E1. apply Z.leb_le in E2. subst. lia.
Qed.

Lemma date_add_days_in_range (d n : date) :
  MINORD <= d + n <= MAXORD -> date_add_days d n = Ok (d + n).
Proof.
  intros [H1 H2]. unfold date_add_days.
  apply Z.leb_le in H1. apply Z.leb_le in H2. rewrite H1, H2. reflexivity.
Qed.

Lemma date_add_days_not_OutOfFuel (d n : date) : date_add_days d n <> OutOfFuel.
Proof.
  unfold date_add_days.
  destruct ((MINORD <=? d + n) && (d + n <=? MAXORD)); discriminate.
Qed.

Lemma datetime_add_Ok (t delta r : datetime) :
  datetime_add t delta = Ok r -> r = t + delta /\ valid_datetime r.
Proof.
  unfold datetime_add, valid_datetime.
  destruct ((MINDT <=? t + delta) && (t + delta <=? MAXDT)) eqn:E; intros H; inversion H.
  apply andb_true_iff in E. destruct E as [E1 E2].
  apply Z.leb_le in E1. apply Z.leb_le in E2. subst. lia.
Qed.

Lemma datetime_add_in_range (t delta : datetime) :
  valid_datetime (t + delta) -> datetime_add t delta = Ok (t + delta).
Proof.
  intros [H1 H2]. unfold datetime_add.
  apply Z.leb_le in H1. apply Z.leb_le in H2. rewrite H1, H2. reflexivity.
Qed.

Lemma datetime_add_not_OutOfFuel (t delta : datetime) :
  datetime_add t delta <> OutOfFuel.
Proof.
  unfold datetime_add.
  destruct ((MINDT <=? t + delta) && (t + delta <=? MAXDT)); discriminate.
Qed.

Lemma date_of_combine (d tm : Z) :
  0 <= tm < MINUTES_PER_DAY -> date_of (combine d tm) = d.
Proof.
  intros H. unfold date_of, combine, MINUTES_PER_DAY in *.
  rewrite Z.div_add_l by lia. rewrite Z.div_small by lia. lia.
Qed.

Lemma time_of_range (t : datetime) : 0 <= time_of t < MINUTES_PER_DAY.
Proof. unfold time_of, MINUTES_PER_DAY. apply Z.mod_pos_bound. lia. Qed.

Lemma time_of_combine (d tm : Z) :
  0 <= tm < MINUTES_PER_DAY -> time_of (combine d tm) = tm.
Proof.
  intros H. unfold time_of, combine, MINUTES_PER_DAY in *.
  rewrite Z.add_comm, Z.mod_add by lia. apply Z.mod_small. lia.
Qed.

Lemma valid_datetime_date (t : datetime) : valid_datetime t -> valid_date (date_of t).
Proof.
  unfold valid_datetime, valid_date, date_of, MINDT, MAXDT, MINORD, MAXORD,
    MINUTES_PER_DAY.
  intros [H1 H2]. split.
  - apply Z.div_le_lower_bound; lia.
  - assert (t / 1440 < 3652060) by (apply Z.div_lt_upper_bound; lia). lia.
Qed.

(** ** The dates of a range *)

Lemma dates_between_empty (lo hi : date) : hi < lo -> dates_between lo hi = [].
Proof.
  intros H. unfold dates_between.
  replace (Z.to_nat (hi + 1 - lo)) with O by lia. reflexivity.
Qed.

Lemma dates_between_cons (lo hi : date) :
  lo <= hi -> dates_between lo hi = lo :: dates_between (lo + 1) hi.
Proof.
  intros H. unfold dates_between.
  replace (Z.to_nat (hi + 1 - lo)) with (S (Z.to_nat (hi + 1 - (lo + 1)))) by lia.
  reflexivity.
Qed.

Lemma In_dates_from (n : nat) (lo d : date) :
  In d (dates_from n lo) <-> lo <= d < lo + Z.of_nat n.
Proof.
  revert lo. induction n as [| n IH]; intros lo; simpl.
  - lia.
  - rewrite IH. lia.
Qed.

Lemma In_dates_between (lo hi d : date) :
  In d (dates_between lo hi) <-> lo <= d <= hi.
Proof. unfold dates_between. rewrite In_dates_from. lia. Qed.

Lemma dates_from_app (n m : nat) (lo : date) :
  dates_from (n + m) lo = dates_from n lo ++ dates_from m (lo + Z.of_nat n).
Proof.
  revert lo. induction n as [| n IH]; intros lo.
  - simpl. f_equal. lia.
  - cbn [Nat.add dates_from app]. rewrite IH. do 3 f_equal. lia.
Qed.

Lemma dates_between_split (lo mid hi : date) :
  lo <= mid -> mid <= hi + 1 ->
  dates_between lo hi = dates_between lo (mid - 1) ++ dates_between mid hi.
Proof.
  intros H1 H2. unfold dates_between.
  replace (Z.to_nat (hi + 1 - lo))
    with (Z.to_nat (mid - 1 + 1 - lo) + Z.to_nat (hi + 1 - mid))%nat by lia.
  rewrite dates_from_app. do 2 f_equal. lia.
Qed.

Lemma dates_from_sorted (n : nat) (lo : date) :
  StronglySorted Z.lt (dates_from n lo).
Proof.
  revert lo. induction n as [| n IH]; intros lo; simpl; constructor.
  - apply IH.
  - apply Forall_forall. intros d Hd. apply In_dates_from in Hd. lia.
Qed.

Lemma dates_between_sorted (lo hi : date) :
  StronglySorted Z.lt (dates_between lo hi).
Proof. apply dates_from_sorted. Qed.

(** ** The expansion loop *)

Section LoopFacts.

Variables (start : datetime) (duration : timedelta).
Variables (rec_type : string) (nums : list Z).
Variables (window_start bound : date).

Local Abbreviation sel := (selected window_start rec_type nums).
Local Abbreviation occ := (occurrence_at start duration).
Local Abbreviation step := (expand_step start duration rec_type nums window_start).
Local Abbreviation loop := (expand_loop start duration rec_type nums window_start bound).

Lemma expand_step_Ok (c : date) (acc l : list occurrence) :
  step c acc = Ok l -> l = acc ++ map occ (filter sel [c]).
Proof.
  unfold expand_step, selected, occurrence_at. simpl.
  destruct (window_start <=? c); simpl.
  - destruct (include rec_type nums c); simpl.
    + intros H. apply bind_Ok_inv in H. destruct H as [e [He Hl]].
      apply datetime_add_Ok in He. destruct He as [He _].
      inversion Hl. subst. reflexivity.
    + intros H. inversion H. rewrite app_nil_r. reflexivity.
  - intros H. inversion H. rewrite app_nil_r. reflexivity.
Qed.

Lemma expand_step_success (c : date) (acc : list occurrence) :
  (sel c = true -> valid_datetime (snd (occ c))) ->
  step c acc = Ok (acc ++ map occ (filter sel [c])).
Proof.
  unfold expand_step, selected, occurrence_at. simpl.
  destruct (window_start <=? c); simpl.
  - destruct (include rec_type nums c); simpl.
    + intros H. rewrite datetime_add_in_range by (apply H; reflexivity).
      reflexivity.
    + intros _. rewrite app_nil_r. reflexivity.
  - intros _. rewrite app_nil_r. reflexivity.
Qed.

Lemma expand_step_not_OutOfFuel (c : date) (acc : list occurrence) :
  step c acc <> OutOfFuel.
Proof.
  unfold expand_step.
  destruct (window_start <=? c); [| discriminate].
  destruct (include rec_type nums c); [| discriminate].
  apply bind_not_OutOfFuel.
  - apply datetime_add_not_OutOfFuel.
  - discriminate.
Qed.

(** The one error of the loop body is that of [occ_start + duration]. *)
Lemma expand_step_Raise (c : date) (acc : list occurrence) (e : exn) :
  step c acc = Raise e -> e = OverflowError.
Proof.
  unfold expand_step.
  destruct (window_start <=? c); [| discriminate].
  destruct (include rec_type nums c); [| discriminate].
  unfold datetime_add.
  destruct ((MINDT <=? combine c (time_of start) + duration)
            && (combine c (time_of start) + duration <=? MAXDT));
    cbn [bind]; intros H; inversion H; reflexivity.
Qed.

Lemma filter_dates_cons (c : date) :
  c <= bound ->
  map occ (filter sel (dates_between c bound))
  = map occ (filter sel [c]) ++ map occ (filter sel (dates_between (c + 1) bound)).
Proof.
  intros E. rewrite (dates_between_cons c bound) by exact E.
  change (c :: dates_between (c + 1) bound)
    with ([c] ++ dates_between (c + 1) bound).
  rewrite filter_app, map_app. reflexivity.
Qed.

(** Whatever the loop returns is the accumulator followed by the occurrences
    of the selected dates from the cursor to the bound. *)
Lemma expand_loop_Ok (fuel : nat) :
  forall (c : date) (acc l : list occurrence),
    loop fuel c acc = Ok l ->
    l = acc ++ map occ (filter sel (dates_between c bound)).
Proof.
  induction fuel as [| fuel IH]; intros c acc l; cbn [expand_loop].
  - discriminate.
  - destruct (c <=? bound) eqn:E.
    + apply Z.leb_le in E. intros H.
      apply bind_Ok_inv in H. destruct H as [acc' [Hs H]].
      apply bind_Ok_inv in H. destruct H as [c' [Hc H]].
      apply date_add_days_Ok in Hc. destruct Hc as [Hc _]. subst c'.
      apply IH in H. apply expand_step_Ok in Hs. subst acc'.
      rewrite (filter_dates_cons c E), app_assoc. exact H.
    + apply Z.leb_gt in E. intros H. inversion H.
      rewrite dates_between_empty by lia. simpl. rewrite app_nil_r. reflexivity.
Qed.

(** The loop never runs out of the fuel [loop_fuel] gives it. *)
Lemma expand_loop_not_OutOfFuel (fuel : nat) :
  forall (c : date) (acc : list occurrence),
    (Z.to_nat (bound + 1 - c) < fuel)%nat ->
    loop fuel c acc <> OutOfFuel.
Proof.
  induction fuel as [| fuel IH]; intros c acc Hf; [lia |].
  cbn [expand_loop]. destruct (c <=? bound) eqn:E; [| discriminate].
  apply Z.leb_le in E.
  apply bind_not_OutOfFuel; [apply expand_step_not_OutOfFuel |].
  intros acc' _.
  apply bind_not_OutOfFuel; [apply date_add_days_not_OutOfFuel |].
  intros c' Hc. apply date_add_days_Ok in Hc. destruct Hc as [Hc _]. subst c'.
  apply IH. lia.
Qed.

(** The loop returns when the increment of the cursor stays in the calendar
    and every occurrence it builds ends at a representable time. *)
Lemma expand_loop_success (fuel : nat) :
  forall (c : date) (acc : list occurrence),
    (Z.to_nat (bound + 1 - c) < fuel)%nat ->
    (c <= bound -> 0 <= c /\ bound < MAXORD) ->
    (forall d, c <= d <= bound -> sel d = true -> valid_datetime (snd (occ d))) ->
    loop fuel c acc = Ok (acc ++ map occ (filter sel (dates_between c bound))).
Proof.
  induction fuel as [| fuel IH]; intros c acc Hf Hb Hv; [lia |].
  cbn [expand_loop]. destruct (c <=? bound) eqn:E.
  - apply Z.leb_le in E. destruct (Hb E) as [Hc Hm].
    rewrite expand_step_success by (apply Hv; lia). cbn [bind].
    rewrite date_add_days_in_range by (unfold MINORD; lia). cbn [bind].
    rewrite IH.
    + rewrite (filter_dates_cons c E), app_assoc. reflexivity.
    + lia.
    + intros _. split; [lia | exact Hm].
    + intros d Hd. apply Hv. lia.
  - apply Z.leb_gt in E.
    rewrite dates_between_empty by lia. simpl. rewrite app_nil_r. reflexivity.
Qed.

(** The loop raises when it has to step past the last date of the
    calendar. *)
Lemma expand_loop_overflow (fuel : nat) :
  forall (c : date) (acc : list occurrence),
    (Z.to_nat (bound + 1 - c) < fuel)%nat ->
    0 <= c <= bound -> MAXORD <= bound ->
    loop fuel c acc = Raise OverflowError.
Proof.
  induction fuel as [| fuel IH]; intros c acc Hf Hc Hb; [lia |].
  cbn [expand_loop]. destruct (c <=? bound) eqn:E; [| apply Z.leb_gt in E; lia].
  destruct (step c acc) as [acc' | e |] eqn:Hs; cbn [bind].
  - unfold date_add_days.
    destruct ((MINORD <=? c + 1) && (c + 1 <=? MAXORD)) eqn:Hr; cbn [bind].
    + apply IH; [lia | | exact Hb].
      apply andb_true_iff in Hr. destruct Hr as [_ Hr]. apply Z.leb_le in Hr. lia.
    + reflexivity.
  - rewrite (expand_step_Raise c acc e Hs). reflexivity.
  - exfalso. exact (expand_step_not_OutOfFuel c acc Hs).
Qed.

End LoopFacts.

(** ** The days of a row *)

(** [int] returns a number or raises [ValueError]. *)
Lemma int_outcome (s : PyStr.text) :
  (exists n, PyStr.int s = Ok n) \/ PyStr.int s = Raise ValueError.
Proof.
  unfold PyStr.int.
  destruct (PyStr.skip_sign (PyStr.skip_spaces (PyStr.transform s))) as [sign r].
  destruct (PyStr.starts_with PyStr.underscore r); [right; reflexivity |].
  destruct (PyStr.scan_digits r 0 0 0) as [[[value digits] rest] |];
    [| right; reflexivity].
  destruct (digits =? 0); [right; reflexivity |].
  destruct (PyStr.MAX_STR_DIGITS <? digits); [right; reflexivity |].
  destruct (PyStr.skip_spaces rest);
    [left; eexists; reflexivity | right; reflexivity].
Qed.

Lemma ints_outcome (tokens : list PyStr.text) :
  (exists ns, PyStr.ints tokens = Ok ns) \/ PyStr.ints tokens = Raise ValueError.
Proof.
  induction tokens as [| d rest IH]; cbn [PyStr.ints].
  - left. eexists. reflexivity.
  - destruct (int_outcome d) as [[n Hn] | Hn]; rewrite Hn; cbn [bind].
    + destruct IH as [[ns Hns] | Hns]; rewrite Hns; cbn [bind].
      * left. eexists. reflexivity.
      * right. reflexivity.
    + right. reflexivity.
Qed.

(** Reading [recurrence_days] gives the days or raises [ValueError]. *)
Lemma day_nums_outcome (raw : option PyStr.text) :
  (exists nums, day_nums raw = Ok nums) \/ day_nums raw = Raise ValueError.
Proof. unfold day_nums. apply ints_outcome. Qed.

Lemma day_nums_not_OutOfFuel (raw : option PyStr.text) : day_nums raw <> OutOfFuel.
Proof.
  destruct (day_nums_outcome raw) as [[nums H] | H]; rewrite H; discriminate.
Qed.

Lemma parsed_days_Ok (b : row) (nums : list Z) :
  day_nums (recurrence_days b) = Ok nums -> parsed_days b = nums.
Proof. intros H. unfold parsed_days. rewrite H. reflexivity. Qed.

(** ** The expander *)

Lemma include_kind (k : kind) (nums : list Z) (d : date) :
  include (kind_name k) nums d = passes k nums d.
Proof. destruct k; reflexivity. Qed.

Lemma include_unknown (s : string) (nums : list Z) (d : date) :
  unknown_kind s -> include s nums d = false.
Proof.
  intros [H1 [H2 H3]]. unfold include.
  apply String.eqb_neq in H1. apply String.eqb_neq in H2. apply String.eqb_neq in H3.
  rewrite H1, H2, H3. reflexivity.
Qed.

Lemma mem_In (x : Z) (l : list Z) : mem x l = true <-> In x l.
Proof.
  unfold mem. rewrite existsb_exists. split.
  - intros [y [Hy E]]. apply Z.eqb_eq in E. subst. exact Hy.
  - intros H. exists x. split; [exact H | apply Z.eqb_refl].
Qed.

Lemma filter_none {A : Type} (f : A -> bool) (l : list A) :
  (forall x, In x l -> f x = false) -> filter f l = [].
Proof.
  induction l as [| x l IH]; intros H; simpl; [reflexivity |].
  rewrite (H x) by (left; reflexivity).
  apply IH. intros y Hy. apply H. right. exact Hy.
Qed.

(** Dates before the window are visited by the loop and skipped. *)
Lemma filter_window (rec_type : string) (nums : list Z) (ws c hi : date) :
  filter (selected ws rec_type nums) (dates_between c hi)
  = filter (include rec_type nums) (dates_between (Z.max c ws) hi).
Proof.
  assert (Hin : forall lo, ws <= lo ->
            filter (selected ws rec_type nums) (dates_between lo hi)
            = filter (include rec_type nums) (dates_between lo hi)).
  { intros lo Hlo. apply filter_ext_in.
    intros d Hd. apply In_dates_between in Hd. unfold selected.
    replace (ws <=? d) with true by (symmetry; apply Z.leb_le; lia).
    reflexivity. }
  assert (Hout : forall lo up, up < ws ->
            filter (selected ws rec_type nums) (dates_between lo up) = []).
  { intros lo up Hup. apply filter_none.
    intros d Hd. apply In_dates_between in Hd. unfold selected.
    replace (ws <=? d) with false by (symmetry; apply Z.leb_gt; lia).
    reflexivity. }
  destruct (Z.le_gt_cases ws c) as [Hle | Hgt].
  - rewrite Z.max_l by lia. apply Hin. exact Hle.
  - rewrite Z.max_r by lia.
    destruct (Z.le_gt_cases ws (hi + 1)) as [Hw | Hw].
    + rewrite (dates_between_split c ws hi) by lia.
      rewrite filter_app, Hout by lia. simpl. apply Hin. lia.
    + rewrite (dates_between_empty ws hi) by lia. simpl. apply Hout. lia.
Qed.

Lemma expand_occurrences_not_OutOfFuel (b : row) (ws we : date) :
  expand_occurrences b ws we <> OutOfFuel.
Proof.
  unfold expand_occurrences.
  destruct (recurrence_type b) as [rec_type |].
  - apply bind_not_OutOfFuel; [apply day_nums_not_OutOfFuel |].
    intros nums _. apply expand_loop_not_OutOfFuel. unfold loop_fuel. lia.
  - destruct ((ws <=? date_of (start_dt b)) && (date_of (start_dt b) <=? we));
      discriminate.
Qed.

(** A recurring row whose [recurrence_days] cannot be read makes the
    expander raise [ValueError], before the loop. *)
Lemma expand_recurring_ValueError (b : row) (rec_type : string) (ws we : date) :
  recurrence_type b = Some rec_type ->
  day_nums (recurrence_days b) = Raise ValueError ->
  expand_occurrences b ws we = Raise ValueError.
Proof.
  intros Hk Hn. unfold expand_occurrences. rewrite Hk, Hn. reflexivity.
Qed.

(** The expander returns for a recurring row only when it could read the
    days. *)
Lemma expand_recurring_days (b : row) (rec_type : string) (ws we : date)
      (l : list occurrence) :
  recurrence_type b = Some rec_type ->
  expand_occurrences b ws we = Ok l ->
  day_nums (recurrence_days b) = Ok (parsed_days b).
Proof.
  intros Hk H. unfold expand_occurrences in H. rewrite Hk in H.
  apply bind_Ok_inv in H. destruct H as [nums [Hn _]].
  rewrite (parsed_days_Ok b nums Hn). exact Hn.
Qed.

(** What the expander returns for a row with a recurrence type, whichever
    the type. *)
Lemma expand_recurring_Ok (b : row) (rec_type : string) (ws we : date)
      (l : list occurrence) :
  recurrence_type b = Some rec_type ->
  expand_occurrences b ws we = Ok l ->
  l = map (occurrence_on b)
          (filter (include rec_type (parsed_days b))
                  (dates_between (Z.max (date_of (start_dt b)) ws)
                                 (Z.min (until_or b we) we))).
Proof.
  intros Hk H. unfold expand_occurrences in H. rewrite Hk in H.
  apply bind_Ok_inv in H. destruct H as [nums [Hn H]].
  rewrite (parsed_days_Ok b nums Hn).
  apply expand_loop_Ok in H. simpl in H.
  rewrite filter_window in H. exact H.
Qed.

Lemma expand_recurring_success (b : row) (rec_type : string) (nums : list Z)
      (ws we : date) :
  recurrence_type b = Some rec_type ->
  day_nums (recurrence_days b) = Ok nums ->
  (date_of (start_dt b) <= Z.min (until_or b we) we ->
   0 <= date_of (start_dt b) /\ Z.min (until_or b we) we < MAXORD) ->
  (forall d,
      Z.max (date_of (start_dt b)) ws <= d <= Z.min (until_or b we) we ->
      include rec_type nums d = true ->
      valid_datetime (snd (occurrence_on b d))) ->
  expand_occurrences b ws we
  = Ok (map (occurrence_on b)
            (filter (include rec_type nums)
                    (dates_between (Z.max (date_of (start_dt b)) ws)
                                   (Z.min (until_or b we) we)))).
Proof.
  intros Hk Hn Hb Hv. unfold expand_occurrences. rewrite Hk, Hn. cbn [bind].
  fold (until_or b we).
  rewrite expand_loop_success.
  - simpl. rewrite filter_window. reflexivity.
  - unfold loop_fuel. lia.
  - exact Hb.
  - intros d Hd Hsel. apply andb_true_iff in Hsel. destruct Hsel as [Hw Hi].
    apply Z.leb_le in Hw. apply Hv; [lia | exact Hi].
Qed.

(** A recurring row whose loop has to reach the last date of the calendar
    makes the expander raise. *)
Lemma expand_recurring_overflow (b : row) (rec_type : string) (nums : list Z)
      (ws we : date) :
  recurrence_type b = Some rec_type ->
  day_nums (recurrence_days b) = Ok nums ->
  valid_datetime (start_dt b) ->
  MAXORD <= Z.min (until_or b we) we ->
  expand_occurrences b ws we = Raise OverflowError.
Proof.
  intros Hk Hn Hs Hb. unfold expand_occurrences. rewrite Hk, Hn. cbn [bind].
  fold (until_or b we).
  apply valid_datetime_date in Hs. unfold valid_date, MINORD in Hs.
  apply expand_loop_overflow.
  - unfold loop_fuel. lia.
  - lia.
  - exact Hb.
Qed.

(** The starts of the occurrences of ascending dates ascend. *)
Lemma occurrences_sorted (b : row) (ds : list date) :
  StronglySorted Z.lt ds ->
  StronglySorted (fun x y : occurrence => fst x < fst y) (map (occurrence_on b) ds).
Proof.
  induction 1 as [| d ds Hs IH Hd]; simpl; constructor.
  - exact IH.
  - apply Forall_forall. intros o Ho. apply in_map_iff in Ho.
    destruct Ho as [d' [Ho Hd']]. subst o.
    rewrite Forall_forall in Hd. specialize (Hd d' Hd').
    unfold occurrence_on, occurrence_at, combine, MINUTES_PER_DAY. simpl. lia.
Qed.

Lemma filter_sorted {A : Type} (R : A -> A -> Prop) (f : A -> bool) (l : list A) :
  StronglySorted R l -> StronglySorted R (filter f l).
Proof.
  induction 1 as [| x l Hs IH Hx]; simpl; [constructor |].
  destruct (f x); [| exact IH].
  constructor; [exact IH |].
  apply Forall_forall. intros y Hy. apply filter_In in Hy.
  rewrite Forall_forall in Hx. apply Hx. tauto.
Qed.

Lemma occurrence_on_shape (b : row) (d : date) :
  date_of (fst (occurrence_on b d)) = d /\
  time_of (fst (occurrence_on b d)) = time_of (start_dt b) /\
  snd (occurrence_on b d) = fst (occurrence_on b d) + (end_dt b - start_dt b).
Proof.
  unfold occurrence_on. simpl.
  rewrite date_of_combine, time_of_combine by apply time_of_range.
  repeat split; reflexivity.
Qed.

(** ** The conditions under which the expander returns *)

Section LoopConditions.

Variables (start : datetime) (duration : timedelta).
Variables (rec_type : string) (nums : list Z).
Variables (window_start bound : date).

Local Abbreviation sel := (selected window_start rec_type nums).
Local Abbreviation occ := (occurrence_at start duration).
Local Abbreviation step := (expand_step start duration rec_type nums window_start).
Local Abbreviation loop := (expand_loop start duration rec_type nums window_start bound).

Lemma expand_step_Ok_valid (c : date) (acc l : list occurrence) :
  step c acc = Ok l -> sel c = true -> valid_datetime (snd (occ c)).
Proof.
  unfold expand_step, selected, occurrence_at. simpl.
  destruct (window_start <=? c); simpl; [| discriminate].
  destruct (include rec_type nums c); simpl; [| discriminate].
  intros H _. apply bind_Ok_inv in H. destruct H as [e [He _]].
  apply datetime_add_Ok in He. destruct He as [He Hv]. subst e. exact Hv.
Qed.

Lemma expand_loop_Ok_inv (fuel : nat) :
  forall (c : date) (acc l : list occurrence),
    loop fuel c acc = Ok l ->
    (c <= bound -> 0 <= c /\ bound < MAXORD) /\
    (forall d, c <= d <= bound -> sel d = true -> valid_datetime (snd (occ d))).
Proof.
  induction fuel as [| fuel IH]; intros c acc l; cbn [expand_loop].
  - discriminate.
  - destruct (c <=? bound) eqn:E.
    + apply Z.leb_le in E. intros H.
      apply bind_Ok_inv in H. destruct H as [acc' [Hs H]].
      apply bind_Ok_inv in H. destruct H as [c' [Hc H]].
      apply date_add_days_Ok in Hc. destruct Hc as [Hc Hr]. subst c'.
      apply IH in H. destruct H as [Hb Hv]. unfold MINORD in Hr.
      split.
      * intros _. split; [lia |].
        destruct (Z.eq_dec c bound) as [Eq | Ne]; [lia |].
        apply Hb. lia.
      * intros d Hd Hsel.
        destruct (Z.eq_dec d c) as [Eq | Ne].
        -- subst d. exact (expand_step_Ok_valid c acc acc' Hs Hsel).
        -- apply Hv; [lia | exact Hsel].
    + apply Z.leb_gt in E. intros _. split; intros; lia.
Qed.

End LoopConditions.

Lemma expand_recurring_Ok_inv (b : row) (rec_type : string) (ws we : date)
      (l : list occurrence) :
  recurrence_type b = Some rec_type ->
  expand_occurrences b ws we = Ok l ->
  (date_of (start_dt b) <= Z.min (until_or b we) we ->
   0 <= date_of (start_dt b) /\ Z.min (until_or b we) we < MAXORD) /\
  (forall d,
      Z.max (date_of (start_dt b)) ws <= d <= Z.min (until_or b we) we ->
      include rec_type (parsed_days b) d = true ->
      valid_datetime (snd (occurrence_on b d))).
Proof.
  intros Hk H. unfold expand_occurrences in H. rewrite Hk in H.
  apply bind_Ok_inv in H. destruct H as [nums [Hn H]].
  rewrite (parsed_days_Ok b nums Hn).
  fold (until_or b we) in H.
  apply expand_loop_Ok_inv in H. destruct H as [Hb Hv].
  split; [exact Hb |].
  intros d Hd Hi. apply Hv; [lia |].
  unfold selected. rewrite Hi.
  replace (ws <=? d) with true by (symmetry; apply Z.leb_le; lia). reflexivity.
Qed.

(** ** Non-recurring definitions *)

(** C5. A row without recurrence type expands to its own slot when the date
    of its start lies in the window, and to nothing otherwise. *)
Theorem expand_non_recurring (b : row) (ws we : date) :
  recurrence_type b = None ->
  ws <= we ->
  (ws <= date_of (start_dt b) <= we ->
   expand_occurrences b ws we = Ok [(start_dt b, end_dt b)]) /\
  (~ ws <= date_of (start_dt b) <= we ->
   expand_occurrences b ws we = Ok []).
Proof.
  intros Hk _. unfold expand_occurrences. rewrite Hk. split; intros H.
  - destruct H as [H1 H2]. apply Z.leb_le in H1. apply Z.leb_le in H2.
    rewrite H1, H2. reflexivity.
  - destruct ((ws <=? date_of (start_dt b)) && (date_of (start_dt b) <=? we)) eqn:E;
      [| reflexivity].
    exfalso. apply H. apply andb_true_iff in E. destruct E as [E1 E2].
    apply Z.leb_le in E1. apply Z.leb_le in E2. lia.
Qed.

Lemma expand_non_recurring_witness :
  let b := slot_10_to_11 (ymd2ord 2024 1 15) None None None in
  recurrence_type b = None /\
  ymd2ord 2024 1 1 <= ymd2ord 2024 1 31 /\
  expand_occurrences b (ymd2ord 2024 1 1) (ymd2ord 2024 1 31)
  = Ok [(start_dt b, end_dt b)] /\
  ymd2ord 2024 2 1 <= ymd2ord 2024 2 29 /\
  expand_occurrences b (ymd2ord 2024 2 1) (ymd2ord 2024 2 29) = Ok [].
Proof.
  intros b.
  assert (Hk : recurrence_type b = None) by reflexivity.
  assert (Hjan : ymd2ord 2024 1 1 <= ymd2ord 2024 1 31) by (vm_compute; discriminate).
  assert (Hfeb : ymd2ord 2024 2 1 <= ymd2ord 2024 2 29) by (vm_compute; discriminate).
  split; [exact Hk | split; [exact Hjan | split; [| split; [exact Hfeb |]]]].
  - apply (proj1 (expand_non_recurring b _ _ Hk Hjan)).
    vm_compute. split; discriminate.
  - apply (proj2 (expand_non_recurring b _ _ Hk Hfeb)).
    vm_compute. intros [H _]. apply H. reflexivity.
Defined.

(** ** Recurring definitions *)

(** C2, as the code has it. For a daily, weekly or monthly row and a window
    with [ws <= we], let [lo = max(anchor date, ws)] and
    [hi = min(until, we)]. The expander first reads [recurrence_days]: when a
    token passes the digit test and [int] cannot read it, the call raises
    [ValueError]. When the days are read and the loop has to step past the
    last date of the calendar ([hi] is that date, at or after the anchor
    date), the call raises [OverflowError]. When the days are read, the loop
    can step past [hi] (it is before the last date of the calendar, or the
    anchor date is after it) and every occurrence ends at a representable
    time, the expander returns one occurrence for each date from [lo] to [hi]
    that passes the test of the kind, in ascending order of the dates; the
    occurrence of a date starts on that date at the anchor's time of day and
    lasts as long as the anchor; the starts ascend. *)
Theorem expand_recurring (b : row) (k : kind) (ws we : date) :
  recurrence_type b = Some (kind_name k) ->
  ws <= we ->
  valid_datetime (start_dt b) ->
  let lo := Z.max (date_of (start_dt b)) ws in
  let hi := Z.min (until_or b we) we in
  (day_nums (recurrence_days b) = Raise ValueError ->
   expand_occurrences b ws we = Raise ValueError) /\
  (forall days,
      day_nums (recurrence_days b) = Ok days ->
      MAXORD <= hi ->
      expand_occurrences b ws we = Raise OverflowError) /\
  (forall days,
      day_nums (recurrence_days b) = Ok days ->
      (date_of (start_dt b) <= hi -> hi < MAXORD) ->
      (forall d, lo <= d <= hi -> passes k days d = true ->
                 valid_datetime (snd (occurrence_on b d))) ->
      let expected :=
        map (occurrence_on b) (filter (passes k days) (dates_between lo hi)) in
      expand_occurrences b ws we = Ok expected /\
      (forall d,
          date_of (fst (occurrence_on b d)) = d /\
          time_of (fst (occurrence_on b d)) = time_of (start_dt b) /\
          snd (occurrence_on b d)
          = fst (occurrence_on b d) + (end_dt b - start_dt b)) /\
      StronglySorted (fun x y : occurrence => fst x < fst y) expected).
Proof.
  intros Hk _ Hs lo hi. split; [| split].
  - intros Hn. exact (expand_recurring_ValueError b _ ws we Hk Hn).
  - intros days Hn Hm.
    exact (expand_recurring_overflow b _ days ws we Hk Hn Hs Hm).
  - intros days Hn Hb Hv expected. split; [| split].
    + rewrite (expand_recurring_success b (kind_name k) days ws we Hk Hn).
      * unfold expected, lo, hi. f_equal. f_equal.
        apply filter_ext. intros d. apply include_kind.
      * intros H. split; [| exact (Hb H)].
        apply valid_datetime_date in Hs. unfold valid_date, MINORD in Hs. lia.
      * intros d Hd Hi. rewrite include_kind in Hi. apply Hv; assumption.
    + apply occurrence_on_shape.
    + apply occurrences_sorted, filter_sorted, dates_between_sorted.
Qed.

Lemma expand_recurring_witness :
  let b := slot_10_to_11 (ymd2ord 2024 1 1) (Some "weekly"%string)
                         (Some (PyStr.of_string "0,2"))
                         (Some (ymd2ord 2024 1 14)) in
  let ws := ymd2ord 2024 1 1 in
  let we := ymd2ord 2024 1 31 in
  recurrence_type b = Some (kind_name Weekly) /\
  ws <= we /\
  valid_datetime (start_dt b) /\
  day_nums (recurrence_days b) = Ok [0; 2] /\
  (date_of (start_dt b) <= Z.min (until_or b we) we ->
   Z.min (until_or b we) we < MAXORD) /\
  (forall d,
      Z.max (date_of (start_dt b)) ws <= d <= Z.min (until_or b we) we ->
      passes Weekly [0; 2] d = true ->
      valid_datetime (snd (occurrence_on b d))) /\
  expand_occurrences b ws we
  = Ok [(mk_datetime 2024 1 1 10 0, mk_datetime 2024 1 1 11 0);
        (mk_datetime 2024 1 3 10 0, mk_datetime 2024 1 3 11 0);
        (mk_datetime 2024 1 8 10 0, mk_datetime 2024 1 8 11 0);
        (mk_datetime 2024 1 10 10 0, mk_datetime 2024 1 10 11 0)].
Proof.
  intros b ws we.
  assert (Hk : recurrence_type b = Some (kind_name Weekly)) by reflexivity.
  assert (Hw : ws <= we) by (vm_compute; discriminate).
  assert (Hs : valid_datetime (start_dt b)) by (vm_compute; split; discriminate).
  assert (Hn : day_nums (recurrence_days b) = Ok [0; 2]) by (vm_compute; reflexivity).
  assert (Hb : date_of (start_dt b) <= Z.min (until_or b we) we ->
               Z.min (until_or b we) we < MAXORD)
    by (intros _; vm_compute; reflexivity).
  assert (Hv : forall d,
             Z.max (date_of (start_dt b)) ws <= d <= Z.min (until_or b we) we ->
             passes Weekly [0; 2] d = true ->
             valid_datetime (snd (occurrence_on b d))).
  { intros d Hd _. change (738886 <= d <= 738899) in Hd.
    change (snd (occurrence_on b d)) with (d * 1440 + 600 + 60).
    unfold valid_datetime, MINDT, MAXDT, MINORD, MAXORD, MINUTES_PER_DAY. lia. }
  split; [exact Hk | split; [exact Hw | split; [exact Hs | split; [exact Hn |]]]].
  split; [exact Hb | split; [exact Hv |]].
  rewrite (proj1 (proj2 (proj2 (expand_recurring b Weekly ws we Hk Hw Hs))
                        [0; 2] Hn Hb Hv)).
  vm_compute. reflexivity.
Defined.

(** The weekly selection of the specification: two Mondays and two
    Wednesdays in fourteen days. *)
Example weekly_selection_run :
  expand_occurrences
    (slot_10_to_11 (ymd2ord 2024 1 1) (Some "weekly"%string)
                   (Some (PyStr.of_string "0,2")) (Some (ymd2ord 2024 1 14)))
    (ymd2ord 2024 1 1) (ymd2ord 2024 1 14)
  = Ok [(mk_datetime 2024 1 1 10 0, mk_datetime 2024 1 1 11 0);
        (mk_datetime 2024 1 3 10 0, mk_datetime 2024 1 3 11 0);
        (mk_datetime 2024 1 8 10 0, mk_datetime 2024 1 8 11 0);
        (mk_datetime 2024 1 10 10 0, mk_datetime 2024 1 10 11 0)].
Proof. vm_compute. reflexivity. Qed.

(** How [recurrence_days] is read. The token of the Arabic-Indic digit three
    is a number for [isdigit] and for [int]; the token of a file separator
    before the digit two passes [strip().isdigit()], and [int], which is
    given the token unstripped, raises [ValueError]; so does the token of a
    superscript two, a digit that is not decimal. *)
Example day_nums_run :
  day_nums (Some (PyStr.of_string "0, 2 ,x,,4")) = Ok [0; 2; 4] /\
  day_nums (Some [1635]) = Ok [3] /\
  day_nums (Some [28; 50]) = Raise ValueError /\
  day_nums (Some [178]) = Raise ValueError /\
  expand_occurrences weekly_unreadable_days (ymd2ord 2024 1 1) (ymd2ord 2024 1 14)
  = Raise ValueError.
Proof. vm_compute. repeat split. Qed.

(** C2 as stated fails at the end of the calendar: for a daily row from
    9999-12-30 until 9999-12-31 the loop appends the occurrences of both
    dates and then raises on [cursor += timedelta(days=1)]. *)
Lemma expand_recurring_counterexample :
  let b := daily_to_the_end in
  recurrence_type b = Some (kind_name Daily) /\
  MAXORD - 1 <= MAXORD /\
  start_dt b < end_dt b /\
  recurrence_until b = Some MAXORD /\
  date_of (start_dt b) < MAXORD /\
  expand_occurrences b (MAXORD - 1) MAXORD = Raise OverflowError /\
  expand_occurrences b (MAXORD - 1) MAXORD
  <> Ok (map (occurrence_on b)
             (filter (passes Daily (parsed_days b))
                     (dates_between (Z.max (date_of (start_dt b)) (MAXORD - 1))
                                    (Z.min (until_or b MAXORD) MAXORD)))).
Proof.
  repeat split; try (vm_compute; reflexivity).
  - vm_compute. discriminate.
  - vm_compute. discriminate.
Qed.

(** ** Defensive cases *)

Lemma days_readable_recurring (b : row) (rec_type : string) :
  recurrence_type b = Some rec_type ->
  days_readable b = true ->
  day_nums (recurrence_days b) = Ok (parsed_days b).
Proof.
  unfold days_readable, parsed_days. intros Hk. rewrite Hk.
  destruct (day_nums (recurrence_days b)); [reflexivity | discriminate | discriminate].
Qed.

Lemma days_unreadable (b : row) (ws we : date) :
  days_readable b = false ->
  expand_occurrences b ws we = Raise ValueError.
Proof.
  unfold days_readable, expand_occurrences.
  destruct (recurrence_type b) as [rec_type |]; [| discriminate].
  destruct (day_nums_outcome (recurrence_days b)) as [[nums H] | H]; rewrite H;
    [discriminate | reflexivity].
Qed.

Lemma expand_empty_range (b : row) (rec_type : string) (ws we : date) :
  recurrence_type b = Some rec_type ->
  days_readable b = true ->
  (date_of (start_dt b) <= Z.min (until_or b we) we ->
   0 <= date_of (start_dt b) /\ Z.min (until_or b we) we < MAXORD) ->
  Z.min (until_or b we) we < Z.max (date_of (start_dt b)) ws ->
  expand_occurrences b ws we = Ok [].
Proof.
  intros Hk Hr Hb He.
  rewrite (expand_recurring_success b rec_type (parsed_days b) ws we Hk
             (days_readable_recurring b rec_type Hk Hr) Hb).
  - rewrite dates_between_empty by exact He. reflexivity.
  - intros d Hd. lia.
Qed.

Lemma expand_nothing_included (b : row) (rec_type : string) (ws we : date) :
  recurrence_type b = Some rec_type ->
  (forall d, include rec_type (parsed_days b) d = false) ->
  (forall l, expand_occurrences b ws we = Ok l -> l = []) /\
  (days_readable b = true ->
   valid_datetime (start_dt b) ->
   (date_of (start_dt b) <= Z.min (until_or b we) we ->
    Z.min (until_or b we) we < MAXORD) ->
   expand_occurrences b ws we = Ok []).
Proof.
  intros Hk Hi. split.
  - intros l H. apply (expand_recurring_Ok b rec_type ws we l Hk) in H.
    rewrite filter_none in H by (intros d _; apply Hi). exact H.
  - intros Hr Hs Hb.
    rewrite (expand_recurring_success b rec_type (parsed_days b) ws we Hk
               (days_readable_recurring b rec_type Hk Hr)).
    + rewrite filter_none by (intros d _; apply Hi). reflexivity.
    + intros H. split; [| exact (Hb H)].
      apply valid_datetime_date in Hs. unfold valid_date, MINORD in Hs. lia.
    + intros d _ Hd. rewrite Hi in Hd. discriminate.
Qed.

(** C6, as the code has it. A recurring row whose [recurrence_days] cannot be
    read makes the expander raise [ValueError] in each of the three cases.
    For the other rows the expander returns the empty list (a) when the
    window starts after it ends, and (b) when the row recurs and its [until]
    is before the anchor date; (c) for a row with an unknown recurrence type
    it never returns an occurrence, it returns the empty list whenever the
    loop can step past its last date [min(until, we)], that is when that date
    is before the last date of the calendar or before the anchor date, and it
    raises [OverflowError] when that date is the last date of the calendar. *)
Theorem expand_defensive :
  (forall (b : row) (ws we : date),
      valid_datetime (start_dt b) -> valid_date ws -> we < ws ->
      (days_readable b = true -> expand_occurrences b ws we = Ok []) /\
      (days_readable b = false -> expand_occurrences b ws we = Raise ValueError)) /\
  (forall (b : row) (rec_type : string) (u ws we : date),
      recurrence_type b = Some rec_type ->
      recurrence_until b = Some u ->
      u < date_of (start_dt b) ->
      (days_readable b = true -> expand_occurrences b ws we = Ok []) /\
      (days_readable b = false -> expand_occurrences b ws we = Raise ValueError)) /\
  (forall (b : row) (rec_type : string) (ws we : date),
      recurrence_type b = Some rec_type ->
      unknown_kind rec_type ->
      (forall l, expand_occurrences b ws we = Ok l -> l = []) /\
      (days_readable b = false -> expand_occurrences b ws we = Raise ValueError) /\
      (days_readable b = true ->
       valid_datetime (start_dt b) ->
       MAXORD <= Z.min (until_or b we) we ->
       expand_occurrences b ws we = Raise OverflowError) /\
      (days_readable b = true ->
       valid_datetime (start_dt b) ->
       (date_of (start_dt b) <= Z.min (until_or b we) we ->
        Z.min (until_or b we) we < MAXORD) ->
       expand_occurrences b ws we = Ok [])).
Proof.
  split; [| split].
  - intros b ws we Hs Hws Hw. split.
    + intros Hr. destruct (recurrence_type b) as [rec_type |] eqn:Hk.
      * apply (expand_empty_range b rec_type ws we Hk Hr).
        -- intros _. apply valid_datetime_date in Hs.
           unfold valid_date, MINORD in *. lia.
        -- lia.
      * unfold expand_occurrences. rewrite Hk.
        destruct ((ws <=? date_of (start_dt b)) && (date_of (start_dt b) <=? we))
          eqn:E; [| reflexivity].
        apply andb_true_iff in E. destruct E as [E1 E2].
        apply Z.leb_le in E1. apply Z.leb_le in E2. lia.
    + intros Hr. exact (days_unreadable b ws we Hr).
  - intros b rec_type u ws we Hk Hu Hlt.
    assert (Hun : until_or b we = u) by (unfold until_or; rewrite Hu; reflexivity).
    split.
    + intros Hr. apply (expand_empty_range b rec_type ws we Hk Hr); rewrite Hun; lia.
    + intros Hr. exact (days_unreadable b ws we Hr).
  - intros b rec_type ws we Hk Hun.
    assert (Hi : forall d, include rec_type (parsed_days b) d = false)
      by (intros d; apply include_unknown; exact Hun).
    split; [| split; [| split]].
    + exact (proj1 (expand_nothing_included b rec_type ws we Hk Hi)).
    + intros Hr. exact (days_unreadable b ws we Hr).
    + intros Hr Hs Hm.
      exact (expand_recurring_overflow b rec_type (parsed_days b) ws we Hk
               (days_readable_recurring b rec_type Hk Hr) Hs Hm).
    + exact (proj2 (expand_nothing_included b rec_type ws we Hk Hi)).
Qed.

Lemma expand_defensive_witness :
  let daily until :=
    slot_10_to_11 (ymd2ord 2024 1 15) (Some "daily"%string) None (Some until) in
  let yearly :=
    slot_10_to_11 (ymd2ord 2024 1 15) (Some "yearly"%string) None
                  (Some (ymd2ord 2024 1 20)) in
  (ymd2ord 2024 1 1 < ymd2ord 2024 1 31 /\
   days_readable (daily (ymd2ord 2024 1 20)) = true /\
   expand_occurrences (daily (ymd2ord 2024 1 20))
                      (ymd2ord 2024 1 31) (ymd2ord 2024 1 1) = Ok []) /\
  (ymd2ord 2024 1 10 < date_of (start_dt (daily (ymd2ord 2024 1 10))) /\
   expand_occurrences (daily (ymd2ord 2024 1 10))
                      (ymd2ord 2024 1 1) (ymd2ord 2024 1 31) = Ok []) /\
  (unknown_kind "yearly" /\
   days_readable yearly = true /\
   expand_occurrences yearly (ymd2ord 2024 1 1) (ymd2ord 2024 1 31) = Ok []) /\
  (days_readable weekly_unreadable_days = false /\
   expand_occurrences weekly_unreadable_days (ymd2ord 2024 1 31) (ymd2ord 2024 1 1)
   = Raise ValueError).
Proof.
  intros daily yearly.
  destruct expand_defensive as [Ha [Hb Hc]].
  assert (H1 : ymd2ord 2024 1 1 < ymd2ord 2024 1 31) by (vm_compute; reflexivity).
  assert (H2 : ymd2ord 2024 1 10 < date_of (start_dt (daily (ymd2ord 2024 1 10))))
    by (vm_compute; reflexivity).
  assert (H3 : unknown_kind "yearly")
    by (unfold unknown_kind; repeat split; discriminate).
  assert (H4 : days_readable (daily (ymd2ord 2024 1 20)) = true) by reflexivity.
  assert (H5 : days_readable yearly = true) by reflexivity.
  assert (H6 : days_readable weekly_unreadable_days = false)
    by (vm_compute; reflexivity).
  split; [split; [exact H1 | split; [exact H4 |]] |
          split; [split; [exact H2 |] |
                  split; [split; [exact H3 | split; [exact H5 |]] |
                          split; [exact H6 |]]]].
  - apply Ha; [vm_compute; split; discriminate
              | vm_compute; split; discriminate | exact H1 | exact H4].
  - apply (Hb _ "daily"%string (ymd2ord 2024 1 10));
      [reflexivity | reflexivity | exact H2 | reflexivity].
  - apply (Hc _ "yearly"%string); [reflexivity | exact H3 | exact H5 | |].
    + vm_compute. split; discriminate.
    + intros _. vm_compute. reflexivity.
  - apply Ha; [vm_compute; split; discriminate
              | vm_compute; split; discriminate | exact H1 | exact H6].
Defined.

(** C6 as stated fails for an unknown recurrence type at the end of the
    calendar: for a row from 9999-12-30 until 9999-12-31 nothing is included,
    and the increment of the cursor raises. *)
Lemma expand_defensive_counterexample :
  let b := yearly_at_the_end in
  recurrence_type b = Some "yearly"%string /\
  unknown_kind "yearly" /\
  start_dt b < end_dt b /\
  recurrence_until b = Some MAXORD /\
  date_of (start_dt b) < MAXORD /\
  expand_occurrences b (MAXORD - 1) MAXORD = Raise OverflowError.
Proof.
  repeat split; try discriminate; vm_compute; reflexivity.
Qed.

(** ** Rows without days *)

Lemma no_integer_token_empty : no_integer_token [].
Proof.
  intros tok [H | []]. subst tok. reflexivity.
Qed.

Lemma day_nums_no_token (s : PyStr.text) :
  no_integer_token s -> day_nums (Some s) = Ok [].
Proof.
  intros H. unfold day_nums. rewrite filter_none; [reflexivity | exact H].
Qed.

(** C10, as the code has it. For a weekly or monthly row whose
    [recurrence_days] is NULL, empty or without a token that passes the
    expander's test [strip().isdigit()] among its comma-separated tokens, the
    expander reads no day and never returns an occurrence; it returns the
    empty list whenever the loop can step past its last date
    [min(until, we)], and raises [OverflowError] when that date is the last
    date of the calendar. *)
Theorem expand_without_days (b : row) (k : kind) (ws we : date) :
  recurrence_type b = Some (kind_name k) ->
  k = Weekly \/ k = Monthly ->
  recurrence_days b = None \/
  recurrence_days b = Some [] \/
  (exists s, recurrence_days b = Some s /\ no_integer_token s) ->
  day_nums (recurrence_days b) = Ok [] /\
  (forall l, expand_occurrences b ws we = Ok l -> l = []) /\
  (valid_datetime (start_dt b) ->
   MAXORD <= Z.min (until_or b we) we ->
   expand_occurrences b ws we = Raise OverflowError) /\
  (valid_datetime (start_dt b) ->
   (date_of (start_dt b) <= Z.min (until_or b we) we ->
    Z.min (until_or b we) we < MAXORD) ->
   expand_occurrences b ws we = Ok []).
Proof.
  intros Hk Hwm Hdays.
  assert (Hn : day_nums (recurrence_days b) = Ok []).
  { destruct Hdays as [H | [H | [s [H Hs]]]]; rewrite H.
    - reflexivity.
    - reflexivity.
    - apply day_nums_no_token. exact Hs. }
  assert (Hr : days_readable b = true)
    by (unfold days_readable; rewrite Hk, Hn; reflexivity).
  assert (Hi : forall d, include (kind_name k) (parsed_days b) d = false).
  { intros d. rewrite (parsed_days_Ok b [] Hn), include_kind.
    destruct Hwm; subst k; reflexivity. }
  split; [exact Hn | split; [| split]].
  - exact (proj1 (expand_nothing_included b (kind_name k) ws we Hk Hi)).
  - intros Hs Hm.
    exact (expand_recurring_overflow b (kind_name k) [] ws we Hk Hn Hs Hm).
  - exact (proj2 (expand_nothing_included b (kind_name k) ws we Hk Hi) Hr).
Qed.

Lemma expand_without_days_witness :
  let b := slot_10_to_11 (ymd2ord 2024 1 15) (Some "monthly"%string)
                         (Some (PyStr.of_string "x, ,1a,-2"))
                         (Some (ymd2ord 2024 6 30)) in
  recurrence_type b = Some (kind_name Monthly) /\
  (exists s, recurrence_days b = Some s /\ no_integer_token s) /\
  expand_occurrences b (ymd2ord 2024 1 1) (ymd2ord 2024 12 31) = Ok [].
Proof.
  intros b.
  assert (Hk : recurrence_type b = Some (kind_name Monthly)) by reflexivity.
  assert (Hd : exists s, recurrence_days b = Some s /\ no_integer_token s).
  { exists (PyStr.of_string "x, ,1a,-2"). split; [reflexivity |].
    intros tok Ht. vm_compute in Ht.
    destruct Ht as [Ht | [Ht | [Ht | [Ht | []]]]]; subst tok; reflexivity. }
  split; [exact Hk | split; [exact Hd |]].
  apply (proj2 (proj2 (proj2
           (expand_without_days b Monthly (ymd2ord 2024 1 1) (ymd2ord 2024 12 31)
              Hk (or_intror eq_refl) (or_intror (or_intror Hd)))))).
  - vm_compute. split; discriminate.
  - intros _. vm_compute. reflexivity.
Defined.

(** C10 as stated fails at the end of the calendar: a weekly row without
    days from 9999-12-30 until 9999-12-31 raises on the increment of the
    cursor. *)
Lemma expand_without_days_counterexample :
  let b := weekly_no_days_at_the_end in
  recurrence_type b = Some (kind_name Weekly) /\
  recurrence_days b = Some [] /\
  start_dt b < end_dt b /\
  recurrence_until b = Some MAXORD /\
  date_of (start_dt b) < MAXORD /\
  expand_occurrences b (MAXORD - 1) MAXORD = Raise OverflowError.
Proof.
  repeat split; vm_compute; reflexivity.
Qed.

(** ** The 400-year cycle of the calendar *)

Lemma ord2ymd_period (n q : Z) :
  ord2ymd (n + DI400Y * q) = shift_years q (ord2ymd n).
Proof.
  unfold ord2ymd, shift_years.
  replace (n + DI400Y * q - 1) with (n - 1 + q * DI400Y) by lia.
  rewrite Z.div_add by (unfold DI400Y; lia).
  rewrite Z.mod_add by (unfold DI400Y; lia).
  cbv zeta.
  set (r := (n - 1) mod DI400Y).
  destruct ((_ =? 4) || (_ =? 4)); cbn [fst snd].
  - f_equal. f_equal. lia.
  - destruct (_ <? _); cbn [fst snd]; f_equal; f_equal; lia.
Qed.

Lemma is_leap_period (y q : Z) : is_leap (y + 400 * q) = is_leap y.
Proof.
  unfold is_leap.
  replace ((y + 400 * q) mod 4) with (y mod 4)
    by (replace (y + 400 * q) with (y + (100 * q) * 4) by lia;
        symmetry; apply Z.mod_add; lia).
  replace ((y + 400 * q) mod 100) with (y mod 100)
    by (replace (y + 400 * q) with (y + (4 * q) * 100) by lia;
        symmetry; apply Z.mod_add; lia).
  replace ((y + 400 * q) mod 400) with (y mod 400)
    by (replace (y + 400 * q) with (y + q * 400) by lia;
        symmetry; apply Z.mod_add; lia).
  reflexivity.
Qed.

Lemma days_before_year_period (y q : Z) :
  days_before_year (y + 400 * q) = days_before_year y + DI400Y * q.
Proof.
  unfold days_before_year, DI400Y. cbv zeta.
  replace (y + 400 * q - 1) with (y - 1 + 400 * q) by lia.
  replace ((y - 1 + 400 * q) / 4) with ((y - 1) / 4 + 100 * q)
    by (replace (y - 1 + 400 * q) with (y - 1 + (100 * q) * 4) by lia;
        symmetry; apply Z.div_add; lia).
  replace ((y - 1 + 400 * q) / 100) with ((y - 1) / 100 + 4 * q)
    by (replace (y - 1 + 400 * q) with (y - 1 + (4 * q) * 100) by lia;
        symmetry; apply Z.div_add; lia).
  replace ((y - 1 + 400 * q) / 400) with ((y - 1) / 400 + q)
    by (replace (y - 1 + 400 * q) with (y - 1 + q * 400) by lia;
        symmetry; apply Z.div_add; lia).
  lia.
Qed.

Lemma ymd2ord_period (y m d q : Z) :
  ymd2ord (y + 400 * q) m d = ymd2ord y m d + DI400Y * q.
Proof.
  unfold ymd2ord, days_before_month.
  rewrite days_before_year_period, is_leap_period. lia.
Qed.

Lemma ymd2ord_january (y d : Z) : ymd2ord y 1 d = ymd2ord y 1 1 + (d - 1).
Proof. unfold ymd2ord, days_before_month. simpl. lia. Qed.

Lemma ymd2ord_march_31 (y : Z) :
  ymd2ord y 1 1 + 89 <= ymd2ord y 3 31 <= ymd2ord y 1 1 + 90.
Proof.
  unfold ymd2ord, days_before_month. simpl.
  destruct (is_leap y); simpl; lia.
Qed.

Lemma days_before_year_bounds (y : Z) :
  1 <= y <= 9999 -> 0 <= days_before_year y <= 3651793.
Proof.
  intros H. unfold days_before_year. cbv zeta.
  assert (0 <= (y - 1) / 4 < 2500)
    by (split; [apply Z.div_pos; lia | apply Z.div_lt_upper_bound; lia]).
  assert (0 <= (y - 1) / 400 < 25)
    by (split; [apply Z.div_pos; lia | apply Z.div_lt_upper_bound; lia]).
  assert ((y - 1) / 400 <= (y - 1) / 100).
  { replace 400 with (100 * 4) by lia.
    rewrite <- Z.div_div by lia.
    apply Z.div_le_upper_bound; [lia |].
    assert (0 <= (y - 1) / 100) by (apply Z.div_pos; lia). lia. }
  assert (0 <= (y - 1) / 100) by (apply Z.div_pos; lia).
  assert ((y - 1) / 100 <= (y - 1) / 4).
  { replace 100 with (4 * 25) by lia.
    rewrite <- Z.div_div by lia.
    apply Z.div_le_upper_bound; lia. }
  lia.
Qed.

Lemma first_quarter_cycle : forallb first_quarter_ok (dates_between 1 400) = true.
Proof. vm_compute. reflexivity. Qed.

Lemma first_quarter_base (y0 : Z) :
  1 <= y0 <= 400 -> first_quarter_ok y0 = true.
Proof.
  intros H. pose proof first_quarter_cycle as Hc.
  rewrite forallb_forall in Hc. apply Hc. apply In_dates_between. exact H.
Qed.

Lemma is_ymd_true (d : date) (year month day : Z) :
  is_ymd d year month day = true -> ord2ymd d = (year, month, day).
Proof.
  unfold is_ymd, year_of, month_of, day_of.
  destruct (ord2ymd d) as [[a b] c]. cbn [fst snd]. intros H.
  apply andb_true_iff in H. destruct H as [H H3].
  apply andb_true_iff in H. destruct H as [H1 H2].
  apply Z.eqb_eq in H1. apply Z.eqb_eq in H2. apply Z.eqb_eq in H3.
  congruence.
Qed.

Lemma only_31s_true (y d : Z) :
  only_31s y = true ->
  ymd2ord y 1 1 <= d <= ymd2ord y 3 31 ->
  (day_of d =? 31) = ((d =? ymd2ord y 1 31) || (d =? ymd2ord y 3 31)).
Proof.
  unfold only_31s. intros H Hd. rewrite forallb_forall in H.
  apply eqb_prop. apply H. apply In_dates_between. exact Hd.
Qed.

Lemma first_quarter_ok_elim (y0 : Z) :
  first_quarter_ok y0 = true ->
  (forall d, ymd2ord y0 1 1 <= d <= ymd2ord y0 3 31 ->
             (day_of d =? 31) = ((d =? ymd2ord y0 1 31) || (d =? ymd2ord y0 3 31))) /\
  ord2ymd (ymd2ord y0 1 31) = (y0, 1, 31) /\
  ord2ymd (ymd2ord y0 3 31) = (y0, 3, 31).
Proof.
  unfold first_quarter_ok. intros Hc.
  apply andb_prop in Hc. destruct Hc as [Hc Hm].
  apply andb_prop in Hc. destruct Hc as [Hc Hj].
  split; [| split].
  - intros d. apply only_31s_true. exact Hc.
  - apply is_ymd_true. exact Hj.
  - apply is_ymd_true. exact Hm.
Qed.

(** The facts of [first_quarter_ok] in every year of the calendar. *)
Lemma first_quarter (y : Z) :
  1 <= y ->
  (forall d, ymd2ord y 1 1 <= d <= ymd2ord y 3 31 ->
             (day_of d =? 31) = ((d =? ymd2ord y 1 31) || (d =? ymd2ord y 3 31))) /\
  ord2ymd (ymd2ord y 1 31) = (y, 1, 31) /\
  ord2ymd (ymd2ord y 3 31) = (y, 3, 31).
Proof.
  intros Hy.
  pose (q := (y - 1) / 400). pose (y0 := (y - 1) mod 400 + 1).
  assert (Hy0 : 1 <= y0 <= 400)
    by (unfold y0; pose proof (Z.mod_pos_bound (y - 1) 400); lia).
  assert (Hyq : y = y0 + 400 * q)
    by (unfold y0, q; pose proof (Z.div_mod (y - 1) 400); lia).
  destruct (first_quarter_ok_elim y0 (first_quarter_base y0 Hy0)) as [Hd [Hj Hm]].
  clearbody q y0. subst y. rewrite !ymd2ord_period.
  split; [| split].
  - intros d Hr.
    replace d with (d - DI400Y * q + DI400Y * q) at 1 by lia.
    unfold day_of in *. rewrite ord2ymd_period. unfold shift_years. cbn [snd].
    rewrite Hd by lia. f_equal.
    + destruct (Z.eqb_spec (d - DI400Y * q) (ymd2ord y0 1 31));
        destruct (Z.eqb_spec d (ymd2ord y0 1 31 + DI400Y * q)); lia || reflexivity.
    + destruct (Z.eqb_spec (d - DI400Y * q) (ymd2ord y0 3 31));
        destruct (Z.eqb_spec d (ymd2ord y0 3 31 + DI400Y * q)); lia || reflexivity.
  - rewrite ord2ymd_period, Hj. reflexivity.
  - rewrite ord2ymd_period, Hm. reflexivity.
Qed.

(** ** Monthly definitions on the 31st *)

Lemma mem_31 (x : Z) : mem x [31] = (x =? 31).
Proof. unfold mem. simpl. apply orb_false_r. Qed.

Lemma dates_between_single (d : date) : dates_between d d = [d].
Proof.
  rewrite dates_between_cons by lia.
  rewrite dates_between_empty by lia. reflexivity.
Qed.

(** From any day of January to March 31, the dates that fall on a 31st. *)
Lemma first_quarter_31s (y d0 : Z) :
  1 <= y -> 1 <= d0 <= 31 ->
  filter (passes Monthly [31]) (dates_between (ymd2ord y 1 d0) (ymd2ord y 3 31))
  = [ymd2ord y 1 31; ymd2ord y 3 31].
Proof.
  intros Hy Hd0.
  destruct (first_quarter y Hy) as [Hd _].
  pose proof (ymd2ord_january y d0) as Ha.
  pose proof (ymd2ord_january y 31) as Hj.
  pose proof (ymd2ord_march_31 y) as Hm.
  set (jan1 := ymd2ord y 1 1) in *.
  set (jan31 := ymd2ord y 1 31) in *.
  set (mar31 := ymd2ord y 3 31) in *.
  set (a := ymd2ord y 1 d0) in *.
  assert (Hnone : forall lo hi,
             jan1 <= lo -> hi <= mar31 ->
             ~ (lo <= jan31 <= hi) -> ~ (lo <= mar31 <= hi) ->
             filter (passes Monthly [31]) (dates_between lo hi) = []).
  { intros lo hi H1 H2 H3 H4. apply filter_none.
    intros d Hin. apply In_dates_between in Hin.
    unfold passes. rewrite mem_31. rewrite Hd by lia.
    destruct (Z.eqb_spec d jan31); [lia |].
    destruct (Z.eqb_spec d mar31); [lia |]. reflexivity. }
  assert (Hone : forall d, d = jan31 \/ d = mar31 ->
             filter (passes Monthly [31]) [d] = [d]).
  { intros d Hdd. cbn [filter]. unfold passes. rewrite mem_31. rewrite Hd by lia.
    destruct (Z.eqb_spec d jan31); [reflexivity |].
    destruct (Z.eqb_spec d mar31); [reflexivity | lia]. }
  rewrite (dates_between_split a jan31 mar31) by lia.
  rewrite (dates_between_split jan31 (jan31 + 1) mar31) by lia.
  rewrite (dates_between_split (jan31 + 1) mar31 mar31) by lia.
  replace (jan31 + 1 - 1) with jan31 by lia.
  rewrite !dates_between_single, !filter_app.
  rewrite (Hnone a (jan31 - 1)) by lia.
  rewrite (Hnone (jan31 + 1) (mar31 - 1)) by lia.
  rewrite !Hone by tauto. reflexivity.
Qed.

Lemma ymd2ord_march_31_in_calendar (y : Z) :
  1 <= y <= 9999 -> 1 <= ymd2ord y 1 1 /\ ymd2ord y 3 31 < MAXORD.
Proof.
  intros H. pose proof (days_before_year_bounds y H) as Hb.
  pose proof (ymd2ord_march_31 y) as Hm.
  assert (Hj : ymd2ord y 1 1 = days_before_year y + 1)
    by (unfold ymd2ord, days_before_month; simpl; lia).
  unfold MAXORD. lia.
Qed.

(** An occurrence on a date before the last one of the calendar, of an
    anchor that ends after it starts and lasts a day at most, ends at a
    representable time. *)
Lemma occurrence_end_valid (b : row) (d : date) :
  start_dt b < end_dt b ->
  end_dt b - start_dt b <= MINUTES_PER_DAY ->
  MINORD <= d < MAXORD ->
  valid_datetime (snd (occurrence_on b d)).
Proof.
  intros Hpos Hday Hd.
  pose proof (time_of_range (start_dt b)) as Ht.
  unfold occurrence_on, occurrence_at, combine, valid_datetime, MINDT, MAXDT,
    MINORD, MAXORD, MINUTES_PER_DAY in *.
  cbn [snd]. lia.
Qed.

Lemma mem_only_31 (days : list Z) (x : Z) :
  (forall d, In d days <-> d = 31) -> mem x days = mem x [31].
Proof.
  intros H. destruct (mem x [31]) eqn:E.
  - apply mem_In. apply H. apply mem_In in E. destruct E as [E | []].
    symmetry. exact E.
  - destruct (mem x days) eqn:E'; [| reflexivity].
    apply mem_In in E'. apply H in E'. subst x. discriminate E.
Qed.

(** C9. (1) A monthly row whose days are read as the set {31}, anchored on a
    day of January of a year [y] and recurring until March 31 of [y], whose
    anchor ends after it starts and lasts a day at most, expands over the
    window from its anchor date to March 31 to its occurrences of January 31
    and March 31, and to none in February. (2) At a date whose day of the month is not among the
    days, the body of the loop of a monthly row adds no occurrence and raises
    no error. (3) Whatever a monthly row expands to, each occurrence lies on
    a date whose day of the month is among the days that were read, so a day
    that a month does not have yields no occurrence in that month. *)
Theorem monthly_short_month_skip :
  (forall (b : row) (days : list Z) (y d0 : Z),
      1 <= y <= 9999 -> 1 <= d0 <= 31 ->
      recurrence_type b = Some "monthly"%string ->
      day_nums (recurrence_days b) = Ok days ->
      (forall d, In d days <-> d = 31) ->
      date_of (start_dt b) = ymd2ord y 1 d0 ->
      recurrence_until b = Some (ymd2ord y 3 31) ->
      start_dt b < end_dt b ->
      end_dt b - start_dt b <= MINUTES_PER_DAY ->
      expand_occurrences b (date_of (start_dt b)) (ymd2ord y 3 31)
      = Ok [occurrence_on b (ymd2ord y 1 31); occurrence_on b (ymd2ord y 3 31)] /\
      ord2ymd (date_of (fst (occurrence_on b (ymd2ord y 1 31)))) = (y, 1, 31) /\
      ord2ymd (date_of (fst (occurrence_on b (ymd2ord y 3 31)))) = (y, 3, 31)) /\
  (forall (start : datetime) (duration : timedelta) (nums : list Z)
          (ws cursor : date) (results : list occurrence),
      mem (day_of cursor) nums = false ->
      expand_step start duration "monthly" nums ws cursor results = Ok results) /\
  (forall (b : row) (ws we : date) (l : list occurrence),
      recurrence_type b = Some "monthly"%string ->
      expand_occurrences b ws we = Ok l ->
      exists days,
        day_nums (recurrence_days b) = Ok days /\
        forall o, In o l -> In (day_of (date_of (fst o))) days).
Proof.
  split; [| split].
  - intros b days y d0 Hy Hd0 Hk Hdays H31 Ha Hu Hpos Hday.
    destruct (first_quarter y (proj1 Hy)) as [_ [Hj Hm]].
    destruct (ymd2ord_march_31_in_calendar y Hy) as [Hlo Hhi].
    pose proof (ymd2ord_january y d0) as Hjan.
    pose proof (ymd2ord_january y 31) as Hjan31.
    pose proof (ymd2ord_march_31 y) as Hmar.
    assert (Hun : until_or b (ymd2ord y 3 31) = ymd2ord y 3 31)
      by (unfold until_or; rewrite Hu; reflexivity).
    split; [| split].
    + rewrite (expand_recurring_success b "monthly" days _ _ Hk Hdays).
      * rewrite Hun, Ha, Z.max_id, Z.min_id.
        rewrite (filter_ext (include "monthly" days) (passes Monthly [31]))
          by (intros d; apply (mem_only_31 days (day_of d) H31)).
        rewrite (first_quarter_31s y d0 (proj1 Hy) Hd0). reflexivity.
      * rewrite Hun, Ha, Z.min_id. intros _. lia.
      * rewrite Hun, Ha, Z.max_id, Z.min_id. intros d Hd _.
        apply (occurrence_end_valid b d Hpos Hday). unfold MINORD. lia.
    + destruct (occurrence_on_shape b (ymd2ord y 1 31)) as [E _]. rewrite E. exact Hj.
    + destruct (occurrence_on_shape b (ymd2ord y 3 31)) as [E _]. rewrite E. exact Hm.
  - intros start duration nums ws cursor results Hmem.
    unfold expand_step. cbn [include String.eqb Ascii.eqb Bool.eqb].
    rewrite Hmem. destruct (ws <=? cursor); reflexivity.
  - intros b ws we l Hk H.
    exists (parsed_days b). split.
    + exact (expand_recurring_days b "monthly" ws we l Hk H).
    + intros o Ho.
      apply (expand_recurring_Ok b "monthly" ws we l Hk) in H. subst l.
      apply in_map_iff in Ho. destruct Ho as [d [Ho Hd]]. subst o.
      apply filter_In in Hd. destruct Hd as [_ Hd].
      destruct (occurrence_on_shape b d) as [E _]. rewrite E.
      apply mem_In. exact Hd.
Qed.

Lemma monthly_short_month_skip_witness :
  (1 <= 2024 <= 9999 /\ 1 <= 15 <= 31 /\
   recurrence_type monthly_31 = Some "monthly"%string /\
   day_nums (recurrence_days monthly_31) = Ok [31] /\
   (forall d, In d [31] <-> d = 31) /\
   date_of (start_dt monthly_31) = ymd2ord 2024 1 15 /\
   recurrence_until monthly_31 = Some (ymd2ord 2024 3 31) /\
   start_dt monthly_31 < end_dt monthly_31 /\
   end_dt monthly_31 - start_dt monthly_31 <= MINUTES_PER_DAY) /\
  expand_occurrences monthly_31 (date_of (start_dt monthly_31)) (ymd2ord 2024 3 31)
  = Ok [(mk_datetime 2024 1 31 10 0, mk_datetime 2024 1 31 11 0);
        (mk_datetime 2024 3 31 10 0, mk_datetime 2024 3 31 11 0)] /\
  mem (day_of (ymd2ord 2024 2 29)) [31] = false /\
  expand_step (start_dt monthly_31) 60 "monthly" [31] (ymd2ord 2024 1 15)
              (ymd2ord 2024 2 29) []
  = Ok [].
Proof.
  assert (H : 1 <= 2024 <= 9999 /\ 1 <= 15 <= 31 /\
   recurrence_type monthly_31 = Some "monthly"%string /\
   day_nums (recurrence_days monthly_31) = Ok [31] /\
   (forall d, In d [31] <-> d = 31) /\
   date_of (start_dt monthly_31) = ymd2ord 2024 1 15 /\
   recurrence_until monthly_31 = Some (ymd2ord 2024 3 31) /\
   start_dt monthly_31 < end_dt monthly_31 /\
   end_dt monthly_31 - start_dt monthly_31 <= MINUTES_PER_DAY).
  { split; [lia | split; [lia |]].
    split; [reflexivity | split; [reflexivity | split]].
    - intros d. simpl. intuition.
    - repeat split; try reflexivity; vm_compute; discriminate. }
  assert (Hfeb : mem (day_of (ymd2ord 2024 2 29)) [31] = false)
    by (vm_compute; reflexivity).
  split; [exact H | split; [| split; [exact Hfeb |]]].
  - destruct H as [H1 [H2 [H3 [H4 [H4' [H5 [H6 [H7 H8]]]]]]]].
    exact (proj1 (proj1 monthly_short_month_skip monthly_31 [31] 2024 15
                        H1 H2 H3 H4 H4' H5 H6 H7 H8)).
  - exact (proj1 (proj2 monthly_short_month_skip) _ 60 [31] _ _ [] Hfeb).
Defined.

(** ** The conflict detector *)

Lemma overlaps_spec (p e : occurrence) :
  overlaps p e = true <-> fst p < snd e /\ fst e < snd p.
Proof.
  unfold overlaps. rewrite andb_true_iff, !Z.ltb_lt. reflexivity.
Qed.

Lemma overlaps_sym (p e : occurrence) : overlaps p e = overlaps e p.
Proof. unfold overlaps. apply andb_comm. Qed.

Lemma overlaps_touching (p e : occurrence) :
  snd p = fst e \/ snd e = fst p -> overlaps p e = false.
Proof.
  intros H. unfold overlaps. apply andb_false_iff.
  rewrite !Z.ltb_ge. destruct H as [H | H]; rewrite H; [right | left]; lia.
Qed.

Lemma scan_existing_spec (ex : booking) (p : occurrence)
      (ex_occurrences : list occurrence) (conflicts : list conflict) :
  scan_existing ex p ex_occurrences conflicts
  = conflicts ++ map (conflict_of ex) (filter (overlaps p) ex_occurrences).
Proof.
  unfold scan_existing. revert conflicts.
  induction ex_occurrences as [| e rest IH]; intros conflicts; simpl.
  - rewrite app_nil_r. reflexivity.
  - rewrite IH. destruct (overlaps p e); simpl.
    + rewrite <- app_assoc. reflexivity.
    + reflexivity.
Qed.

Lemma scan_proposed_spec (ex : booking)
      (proposed_occurrences ex_occurrences : list occurrence)
      (conflicts : list conflict) :
  scan_proposed ex proposed_occurrences ex_occurrences conflicts
  = conflicts
    ++ flat_map (fun p => map (conflict_of ex) (filter (overlaps p) ex_occurrences))
                proposed_occurrences.
Proof.
  unfold scan_proposed. revert conflicts.
  induction proposed_occurrences as [| p rest IH]; intros conflicts; simpl.
  - rewrite app_nil_r. reflexivity.
  - rewrite IH, scan_existing_spec, <- app_assoc. reflexivity.
Qed.

Lemma scan_bookings_Ok (exclude_booking_id : option Z) (ws we : date)
      (proposed_occurrences : list occurrence) (existing : list booking) :
  forall (conflicts l : list conflict),
    scan_bookings exclude_booking_id ws we proposed_occurrences existing conflicts
    = Ok l ->
    l = conflicts
        ++ flat_map (conflicts_with proposed_occurrences ws we)
                    (considered exclude_booking_id existing) /\
    (forall ex, In ex (considered exclude_booking_id existing) ->
                expand_occurrences (as_row ex) ws we
                = Ok (occurrences_in (as_row ex) ws we)).
Proof.
  induction existing as [| ex rest IH]; intros conflicts l H; simpl in *.
  - inversion H. rewrite app_nil_r. split; [reflexivity | intros ex []].
  - unfold considered in *. simpl.
    destruct (is_excluded exclude_booking_id ex); simpl.
    + apply IH. exact H.
    + apply bind_Ok_inv in H. destruct H as [eocc [He H]].
      apply IH in H. destruct H as [Hl Hall].
      assert (Hocc : occurrences_in (as_row ex) ws we = eocc)
        by (unfold occurrences_in; rewrite He; reflexivity).
      split.
      * rewrite Hl, scan_proposed_spec, <- app_assoc.
        unfold conflicts_with at 2. rewrite Hocc. reflexivity.
      * intros ex' [E | Hin].
        -- subst ex'. rewrite Hocc. exact He.
        -- apply Hall. exact Hin.
Qed.

Lemma scan_bookings_success (exclude_booking_id : option Z) (ws we : date)
      (proposed_occurrences : list occurrence) (existing : list booking) :
  forall (conflicts : list conflict),
    (forall ex, In ex (considered exclude_booking_id existing) ->
                exists l, expand_occurrences (as_row ex) ws we = Ok l) ->
    scan_bookings exclude_booking_id ws we proposed_occurrences existing conflicts
    = Ok (conflicts
          ++ flat_map (conflicts_with proposed_occurrences ws we)
                      (considered exclude_booking_id existing)).
Proof.
  induction existing as [| ex rest IH]; intros conflicts Hall; simpl.
  - rewrite app_nil_r. reflexivity.
  - unfold considered in *. simpl in *.
    destruct (is_excluded exclude_booking_id ex); simpl in *.
    + apply IH. exact Hall.
    + destruct (Hall ex (or_introl eq_refl)) as [eocc He].
      rewrite He. simpl. rewrite IH by (intros ex' Hin; apply Hall; right; exact Hin).
      rewrite scan_proposed_spec, <- app_assoc.
      unfold conflicts_with at 2. unfold occurrences_in. rewrite He. reflexivity.
Qed.

Lemma flat_map_nil {A B : Type} (f : A -> list B) (l : list A) :
  (forall x, In x l -> f x = []) -> flat_map f l = [].
Proof.
  induction l as [| x l IH]; intros H; simpl; [reflexivity |].
  rewrite (H x) by (left; reflexivity). simpl.
  apply IH. intros y Hy. apply H. right. exact Hy.
Qed.

(** What a call that returns has computed. *)
Lemma check_conflicts_Ok (db : database) (room_id : Z) (start end_ : datetime)
      (rec_type : option string)
      (rec_days : option PyStr.text) (until : option date)
      (exclude_booking_id : option Z) (l : list conflict) :
  check_conflicts db room_id start end_ rec_type rec_days until exclude_booking_id
  = Ok l ->
  exists (ws we : date) (proposed_occurrences : list occurrence),
    check_window start until = Ok (ws, we) /\
    expand_occurrences (mk_row start end_ rec_type rec_days until) ws we
    = Ok proposed_occurrences /\
    l = flat_map (conflicts_with proposed_occurrences ws we)
                 (considered exclude_booking_id (existing_bookings db room_id)) /\
    (proposed_occurrences <> [] ->
     forall ex,
       In ex (considered exclude_booking_id (existing_bookings db room_id)) ->
       expand_occurrences (as_row ex) ws we = Ok (occurrences_in (as_row ex) ws we)).
Proof.
  unfold check_conflicts. intros H.
  apply bind_Ok_inv in H. destruct H as [[ws we] [Hw H]].
  apply bind_Ok_inv in H. destruct H as [pocc [Hp H]].
  exists ws, we, pocc. split; [exact Hw | split; [exact Hp |]].
  destruct pocc as [| p pocc].
  - inversion H. split.
    + symmetry. apply flat_map_nil. intros ex _. reflexivity.
    + intros Hne. contradiction.
  - apply scan_bookings_Ok in H. destruct H as [Hl Hall].
    split; [exact Hl | intros _; exact Hall].
Qed.

Lemma expand_occurrences_sorted (b : row) (ws we : date) (l : list occurrence) :
  expand_occurrences b ws we = Ok l ->
  StronglySorted (fun x y : occurrence => fst x < fst y) l.
Proof.
  intros H. destruct (recurrence_type b) as [rec_type |] eqn:Hk.
  - apply (expand_recurring_Ok b rec_type ws we l Hk) in H. subst l.
    apply occurrences_sorted, filter_sorted, dates_between_sorted.
  - unfold expand_occurrences in H. rewrite Hk in H.
    destruct ((ws <=? date_of (start_dt b)) && (date_of (start_dt b) <=? we));
      inversion H; repeat constructor.
Qed.

Lemma expand_occurrences_in_window (b : row) (ws we : date) (l : list occurrence) :
  expand_occurrences b ws we = Ok l ->
  forall o, In o l -> ws <= date_of (fst o) <= we.
Proof.
  intros H o Ho. destruct (recurrence_type b) as [rec_type |] eqn:Hk.
  - apply (expand_recurring_Ok b rec_type ws we l Hk) in H. subst l.
    apply in_map_iff in Ho. destruct Ho as [d [Ho Hd]]. subst o.
    apply filter_In in Hd. destruct Hd as [Hd _].
    apply In_dates_between in Hd.
    destruct (occurrence_on_shape b d) as [E _]. rewrite E. lia.
  - unfold expand_occurrences in H. rewrite Hk in H.
    destruct ((ws <=? date_of (start_dt b)) && (date_of (start_dt b) <=? we)) eqn:E;
      inversion H; subst l.
    + destruct Ho as [Ho | []]. subst o. simpl.
      apply andb_true_iff in E. destruct E as [E1 E2].
      apply Z.leb_le in E1. apply Z.leb_le in E2. lia.
    + destruct Ho.
Qed.

Lemma occurrences_in_sorted (b : row) (ws we : date) :
  StronglySorted (fun x y : occurrence => fst x < fst y) (occurrences_in b ws we).
Proof.
  unfold occurrences_in.
  destruct (expand_occurrences b ws we) as [l | e |] eqn:H; try constructor.
  apply (expand_occurrences_sorted b ws we l H).
Qed.

Lemma occurrences_in_window (b : row) (ws we : date) (o : occurrence) :
  In o (occurrences_in b ws we) -> ws <= date_of (fst o) <= we.
Proof.
  unfold occurrences_in.
  destruct (expand_occurrences b ws we) as [l | e |] eqn:H; try (intros []).
  apply (expand_occurrences_in_window b ws we l H).
Qed.

Lemma In_conflicts_with (pocc : list occurrence) (ws we : date) (ex : booking)
      (c : conflict) :
  In c (conflicts_with pocc ws we ex) <->
  exists p e, In p pocc /\ In e (occurrences_in (as_row ex) ws we) /\
              overlaps p e = true /\ c = conflict_of ex e.
Proof.
  unfold conflicts_with. rewrite in_flat_map. split.
  - intros [p [Hp Hc]]. apply in_map_iff in Hc. destruct Hc as [e [Hc He]].
    apply filter_In in He. destruct He as [He Ho].
    exists p, e. auto.
  - intros [p [e [Hp [He [Ho Hc]]]]]. exists p. split; [exact Hp |].
    apply in_map_iff. exists e. split; [auto |].
    apply filter_In. auto.
Qed.

Lemma is_excluded_spec (exclude_booking_id : option Z) (ex : booking) :
  is_excluded exclude_booking_id ex = true <->
  exists x, exclude_booking_id = Some x /\ x <> 0 /\ b_id ex = x.
Proof.
  unfold is_excluded. destruct exclude_booking_id as [x |].
  - rewrite andb_true_iff, negb_true_iff, Z.eqb_neq, Z.eqb_eq. split.
    + intros [H1 H2]. exists x. auto.
    + intros [y [E [H1 H2]]]. inversion E. subst y. auto.
  - split; [discriminate | intros [x [E _]]; discriminate].
Qed.

(** C1. When a call of [check_conflicts] returns a list, the list is, for
    each existing row of the room that is neither cancelled nor excluded (in
    the order of the table), for each proposed occurrence, for each
    occurrence of the row in the window, one record if the two overlap and
    none otherwise; two occurrences overlap when each starts before the
    other ends, so occurrences that touch do not; the record carries the id
    of the existing row and the start and end of its occurrence. A row is
    excluded when the excluded id is given, is not 0 and is the row's id. *)
Theorem check_conflicts_records (db : database) (room_id : Z)
        (start end_ : datetime) (rec_type : option string)
      (rec_days : option PyStr.text)
        (until : option date) (exclude_booking_id : option Z)
        (l : list conflict) :
  check_conflicts db room_id start end_ rec_type rec_days until exclude_booking_id
  = Ok l ->
  exists (ws we : date) (proposed_occurrences : list occurrence),
    check_window start until = Ok (ws, we) /\
    expand_occurrences (mk_row start end_ rec_type rec_days until) ws we
    = Ok proposed_occurrences /\
    (proposed_occurrences <> [] ->
     forall ex,
       In ex (considered exclude_booking_id (existing_bookings db room_id)) ->
       expand_occurrences (as_row ex) ws we = Ok (occurrences_in (as_row ex) ws we)) /\
    l = flat_map
          (fun ex =>
             flat_map
               (fun p =>
                  map (conflict_of ex)
                      (filter (overlaps p) (occurrences_in (as_row ex) ws we)))
               proposed_occurrences)
          (filter (fun ex => negb (is_excluded exclude_booking_id ex))
                  (filter (fun ex => (b_room_id ex =? room_id)
                                     && negb (b_is_cancelled ex))
                          (bookings db))) /\
    (forall p e, overlaps p e = true <-> fst p < snd e /\ fst e < snd p) /\
    (forall p e, snd p = fst e \/ snd e = fst p -> overlaps p e = false) /\
    (forall ex e, c_booking_id (conflict_of ex e) = b_id ex /\
                  c_start_dt (conflict_of ex e) = fst e /\
                  c_end_dt (conflict_of ex e) = snd e) /\
    (forall ex, is_excluded exclude_booking_id ex = true <->
                exists x, exclude_booking_id = Some x /\ x <> 0 /\ b_id ex = x).
Proof.
  intros H. apply check_conflicts_Ok in H.
  destruct H as [ws [we [pocc [Hw [Hp [Hl Hall]]]]]].
  exists ws, we, pocc.
  split; [exact Hw | split; [exact Hp | split; [exact Hall | split; [exact Hl |]]]].
  split; [exact overlaps_spec | split; [exact overlaps_touching | split]].
  - intros ex e. repeat split.
  - intros ex. apply is_excluded_spec.
Qed.

Lemma check_conflicts_records_witness :
  let start := mk_datetime 2024 1 2 10 30 in
  let end_ := mk_datetime 2024 1 2 11 30 in
  let existing := mk_datetime 2024 1 2 10 0 in
  let l := [mk_conflict 1 "review" existing (mk_datetime 2024 1 2 11 0)
                        (Some "bob"%string) "Bob"] in
  check_conflicts db_three_rooms 2 start end_ None None None None = Ok l /\
  exists (ws we : date) (proposed_occurrences : list occurrence),
    check_window start None = Ok (ws, we) /\
    expand_occurrences (mk_row start end_ None None None) ws we
    = Ok proposed_occurrences /\
    l = flat_map
          (fun ex =>
             flat_map
               (fun p =>
                  map (conflict_of ex)
                      (filter (overlaps p) (occurrences_in (as_row ex) ws we)))
               proposed_occurrences)
          (filter (fun ex => negb (is_excluded None ex))
                  (filter (fun ex => (b_room_id ex =? 2) && negb (b_is_cancelled ex))
                          (bookings db_three_rooms))).
Proof.
  intros start end_ existing l.
  assert (H : check_conflicts db_three_rooms 2 start end_ None None None None = Ok l)
    by (vm_compute; reflexivity).
  split; [exact H |].
  destruct (check_conflicts_records _ _ _ _ _ _ _ _ _ H)
    as [ws [we [pocc [Hw [Hp [_ [Hl _]]]]]]].
  exists ws, we, pocc. auto.
Defined.

(** The conflict scenario of the specification: a candidate that starts when
    the existing booking ends has no conflict. *)
Example check_conflicts_touching_run :
  check_conflicts db_three_rooms 2 (mk_datetime 2024 1 2 11 0)
                  (mk_datetime 2024 1 2 12 0) None None None None = Ok [].
Proof. vm_compute. reflexivity. Qed.

Lemma check_window_Ok (start : datetime) (until : option date) :
  (until = None -> valid_date (check_until start until)) ->
  check_window start until = Ok (date_of start, check_until start until).
Proof.
  intros Hv. unfold check_window, check_until in *.
  destruct until as [u |]; [reflexivity |].
  rewrite date_add_days_in_range by (apply Hv; reflexivity). reflexivity.
Qed.

Lemma check_window_Ok_inv (start : datetime) (until : option date) (ws we : date) :
  check_window start until = Ok (ws, we) ->
  ws = date_of start /\
  we = check_until start until /\
  (until = None -> valid_date (check_until start until)).
Proof.
  unfold check_until.
  intros Hw. unfold check_window in Hw.
  destruct until as [u |]; simpl in Hw.
  - inversion Hw. split; [reflexivity | split; [reflexivity | discriminate]].
  - apply bind_Ok_inv in Hw. destruct Hw as [w [Ha Hw]].
    apply date_add_days_Ok in Ha. destruct Ha as [Ha Hr].
    inversion Hw. subst.
    split; [reflexivity | split; [reflexivity | intros _; exact Hr]].
Qed.

Lemma check_window_overflow (start : datetime) :
  ~ valid_date (check_until start None) ->
  check_window start None = Raise OverflowError.
Proof.
  intros Hv. unfold check_until in Hv. unfold check_window, date_add_days.
  cbv zeta.
  destruct ((MINORD <=? date_of start + 366) && (date_of start + 366 <=? MAXORD))
    eqn:E; [| reflexivity].
  exfalso. apply Hv. apply andb_true_iff in E. destruct E as [E1 E2].
  apply Z.leb_le in E1. apply Z.leb_le in E2. split; assumption.
Qed.

(** A proposed row without [recurrence_until] has no occurrence in the 366
    days from its start only when these days are in the calendar. *)
Lemma proposed_empty_window (start end_ : datetime) (rec_type : option string)
      (rec_days : option PyStr.text) :
  expand_occurrences (mk_row start end_ rec_type rec_days None)
                     (date_of start) (check_until start None) = Ok [] ->
  valid_date (check_until start None).
Proof.
  unfold check_until. intros H. destruct rec_type as [rt |].
  - apply (expand_recurring_Ok_inv _ rt) in H; [| reflexivity].
    destruct H as [H _]. unfold until_or in H. cbn in H.
    rewrite Z.min_id in H. unfold valid_date, MINORD. lia.
  - unfold expand_occurrences in H. cbn in H.
    replace (date_of start <=? date_of start) with true in H
      by (symmetry; apply Z.leb_le; lia).
    replace (date_of start <=? date_of start + 366) with true in H
      by (symmetry; apply Z.leb_le; lia).
    discriminate.
Qed.

(** C7, as the code has it. The window of the check starts at the date of
    the proposed start and ends at [check_until]: at [recurrence_until] when
    there is one, and otherwise 366 days after the start date. (1) With no
    [recurrence_until], when the date 366 days after the start is past the
    end of the calendar the window cannot be computed and the call raises
    [OverflowError]. (2) When the proposed row has no occurrence in the
    window, the call returns the empty list, whatever the store, the room and
    the excluded id. (3) A call that returns has computed the window, has
    expanded the proposed row over it, and returns the conflicts of these
    occurrences with the occurrences in the same window of the rows it
    considers; every record lies in the window. (4) Once the window is
    computed, an error of the expansion of the proposed row is the error of
    the call, and (5) when that expansion has an occurrence the call is the
    scan of the room's rows over the window. *)
Theorem check_conflicts_window (db : database) (room_id : Z)
        (start end_ : datetime) (rec_type : option string)
        (rec_days : option PyStr.text) (until : option date)
        (exclude_booking_id : option Z) :
  let ws := date_of start in
  let we := check_until start until in
  let proposed := mk_row start end_ rec_type rec_days until in
  let call := check_conflicts db room_id start end_ rec_type rec_days until
                              exclude_booking_id in
  (until = None -> ~ valid_date we -> call = Raise OverflowError) /\
  (expand_occurrences proposed ws we = Ok [] -> call = Ok []) /\
  (forall l,
      call = Ok l ->
      (until = None -> valid_date we) /\
      exists proposed_occurrences,
        expand_occurrences proposed ws we = Ok proposed_occurrences /\
        l = flat_map (conflicts_with proposed_occurrences ws we)
                     (considered exclude_booking_id (existing_bookings db room_id)) /\
        forall c, In c l -> ws <= date_of (c_start_dt c) <= we) /\
  ((until = None -> valid_date we) ->
   forall e, expand_occurrences proposed ws we = Raise e -> call = Raise e) /\
  ((until = None -> valid_date we) ->
   forall p rest,
     expand_occurrences proposed ws we = Ok (p :: rest) ->
     call = scan_bookings exclude_booking_id ws we (p :: rest)
                          (existing_bookings db room_id) []).
Proof.
  intros ws we proposed call.
  split; [| split; [| split; [| split]]].
  - intros Hu Hv. subst until. unfold call, check_conflicts.
    rewrite (check_window_overflow start Hv). reflexivity.
  - intros Hp.
    assert (Hv : until = None -> valid_date we).
    { intros Hu. subst until. exact (proposed_empty_window _ _ _ _ Hp). }
    unfold call, check_conflicts. rewrite (check_window_Ok start until Hv).
    cbn [bind]. fold ws we proposed. rewrite Hp. reflexivity.
  - intros l H. apply check_conflicts_Ok in H.
    destruct H as [ws' [we' [pocc [Hw [Hp [Hl _]]]]]].
    apply check_window_Ok_inv in Hw. destruct Hw as [E1 [E2 Hv]].
    fold ws in E1. fold we in E2. subst ws' we'.
    split; [exact Hv |].
    exists pocc. split; [exact Hp | split; [exact Hl |]].
    intros c Hc. subst l.
    apply in_flat_map in Hc. destruct Hc as [ex [_ Hc]].
    apply In_conflicts_with in Hc. destruct Hc as [p [e [_ [He [_ Hc]]]]].
    subst c. simpl. apply occurrences_in_window in He. exact He.
  - intros Hv e Hp. unfold call, check_conflicts.
    rewrite (check_window_Ok start until Hv). cbn [bind].
    fold ws we proposed. rewrite Hp. reflexivity.
  - intros Hv p rest Hp. unfold call, check_conflicts.
    rewrite (check_window_Ok start until Hv). cbn [bind].
    fold ws we proposed. rewrite Hp. reflexivity.
Qed.

Lemma check_conflicts_window_witness :
  let start := combine (ymd2ord 2024 1 15) 600 in
  let end_ := combine (ymd2ord 2024 1 15) 660 in
  let until := Some (ymd2ord 2024 1 10) in
  let late := mk_datetime 9999 1 1 10 0 in
  let early := mk_datetime 2024 1 2 10 30 in
  let review := mk_conflict 1 "review" (mk_datetime 2024 1 2 10 0)
                            (mk_datetime 2024 1 2 11 0) (Some "bob"%string) "Bob" in
  (expand_occurrences (mk_row start end_ (Some "daily"%string) None until)
                      (ymd2ord 2024 1 15) (ymd2ord 2024 1 10) = Ok [] /\
   check_conflicts db_three_rooms 2 start end_ (Some "daily"%string) None until None
   = Ok []) /\
  (~ valid_date (check_until late None) /\
   check_conflicts db_three_rooms 2 late (late + 60) None None None None
   = Raise OverflowError) /\
  (check_conflicts db_three_rooms 2 early (early + 60) None None None None
   = Ok [review] /\
   date_of early <= date_of (c_start_dt review) <= check_until early None).
Proof.
  intros start end_ until late early review.
  assert (H1 : expand_occurrences (mk_row start end_ (Some "daily"%string) None until)
                                  (ymd2ord 2024 1 15) (ymd2ord 2024 1 10) = Ok [])
    by (vm_compute; reflexivity).
  assert (H2 : ~ valid_date (check_until late None)).
  { vm_compute. intros [_ H]. apply H. reflexivity. }
  assert (H3 : check_conflicts db_three_rooms 2 early (early + 60) None None None None
               = Ok [review])
    by (vm_compute; reflexivity).
  split; [split; [exact H1 |] | split; [split; [exact H2 |] | split; [exact H3 |]]].
  - exact (proj1 (proj2 (check_conflicts_window db_three_rooms 2 start end_
                           (Some "daily"%string) None until None)) H1).
  - exact (proj1 (check_conflicts_window db_three_rooms 2 late (late + 60)
                    None None None None) eq_refl H2).
  - destruct (proj1 (proj2 (proj2 (check_conflicts_window db_three_rooms 2
                                     early (early + 60) None None None None)))
                    _ H3) as [_ [pocc [_ [_ Hc]]]].
    exact (Hc _ (or_introl eq_refl)).
Defined.

(** The window in use: a daily candidate until 2024-01-05 meets the booking
    of January 3 and then the daily booking of the room on each of its five
    days, and nothing after. *)
Example check_conflicts_window_run :
  check_conflicts db_daily_and_single 1 (mk_datetime 2024 1 1 10 30)
                  (mk_datetime 2024 1 1 11 30) (Some "daily"%string) None
                  (Some (ymd2ord 2024 1 5)) None
  = Ok (mk_conflict 1 "standup" (mk_datetime 2024 1 3 10 0)
                    (mk_datetime 2024 1 3 11 0) (Some "ann"%string) "Ann"
        :: map (fun d => mk_conflict 2 "standup" (combine d 600) (combine d 660)
                                     (Some "ann"%string) "Ann")
               (dates_between (ymd2ord 2024 1 1) (ymd2ord 2024 1 5))).
Proof. vm_compute. reflexivity. Qed.

(** C7 as stated fails for a candidate without [recurrence_until] that
    starts less than 366 days before the end of the calendar: the end of the
    window is not a date, and the call raises instead of returning. *)
Lemma check_conflicts_window_counterexample :
  let start := mk_datetime 9999 1 1 10 0 in
  let end_ := mk_datetime 9999 1 1 11 0 in
  valid_datetime start /\ valid_datetime end_ /\ start < end_ /\
  MAXORD < check_until start None /\
  check_window start None = Raise OverflowError /\
  expand_occurrences (mk_row start end_ None None None)
                     (date_of start) (date_of start) = Ok [(start, end_)] /\
  check_conflicts db_three_rooms 2 start end_ None None None None
  = Raise OverflowError.
Proof.
  repeat split; try discriminate; vm_compute; reflexivity.
Qed.

(** *** The order of the records *)

Lemma map_conflict_sorted (ex : booking) (l : list occurrence) :
  StronglySorted (fun x y : occurrence => fst x < fst y) l ->
  StronglySorted (fun x y => c_start_dt x < c_start_dt y) (map (conflict_of ex) l).
Proof.
  induction 1 as [| o l Hs IH Ho]; simpl; constructor.
  - exact IH.
  - apply Forall_forall. intros c Hc. apply in_map_iff in Hc.
    destruct Hc as [o' [Hc Ho']]. subst c. simpl.
    rewrite Forall_forall in Ho. apply Ho. exact Ho'.
Qed.

(** C3, as the code has it. The records of a call that returns come in the
    order of the scan: the existing rows in table order; for one row, the
    proposed occurrences in ascending order of their starts; for one
    proposed occurrence, the overlapping occurrences of the row in ascending
    order of their starts. *)
Theorem check_conflicts_order (db : database) (room_id : Z)
        (start end_ : datetime) (rec_type : option string)
      (rec_days : option PyStr.text)
        (until : option date) (exclude_booking_id : option Z)
        (l : list conflict) :
  check_conflicts db room_id start end_ rec_type rec_days until exclude_booking_id
  = Ok l ->
  l <> [] ->
  exists (ws we : date) (proposed_occurrences : list occurrence),
    check_window start until = Ok (ws, we) /\
    expand_occurrences (mk_row start end_ rec_type rec_days until) ws we
    = Ok proposed_occurrences /\
    l = flat_map
          (fun ex =>
             flat_map
               (fun p =>
                  map (conflict_of ex)
                      (filter (overlaps p) (occurrences_in (as_row ex) ws we)))
               proposed_occurrences)
          (considered exclude_booking_id (existing_bookings db room_id)) /\
    StronglySorted (fun x y : occurrence => fst x < fst y) proposed_occurrences /\
    (forall ex p,
        StronglySorted
          (fun x y => c_start_dt x < c_start_dt y)
          (map (conflict_of ex)
               (filter (overlaps p) (occurrences_in (as_row ex) ws we)))).
Proof.
  intros H _. apply check_conflicts_Ok in H.
  destruct H as [ws [we [pocc [Hw [Hp [Hl _]]]]]].
  exists ws, we, pocc.
  split; [exact Hw | split; [exact Hp | split; [exact Hl | split]]].
  - apply (expand_occurrences_sorted _ _ _ _ Hp).
  - intros ex p. apply map_conflict_sorted, filter_sorted, occurrences_in_sorted.
Qed.

Lemma check_conflicts_order_witness :
  let start := combine (ymd2ord 2024 1 1) 600 in
  let end_ := combine (ymd2ord 2024 1 1) 660 in
  let until := Some (ymd2ord 2024 1 5) in
  let l := [conflict_of (stored_slot 1 (ymd2ord 2024 1 3) None None)
                        (mk_datetime 2024 1 3 10 0, mk_datetime 2024 1 3 11 0);
            conflict_of (stored_slot 2 (ymd2ord 2024 1 2) None None)
                        (mk_datetime 2024 1 2 10 0, mk_datetime 2024 1 2 11 0)] in
  check_conflicts db_two_bookings 1 start end_ (Some "daily"%string) None until None
  = Ok l /\
  l <> [] /\
  exists (ws we : date) (proposed_occurrences : list occurrence),
    l = flat_map
          (fun ex =>
             flat_map
               (fun p =>
                  map (conflict_of ex)
                      (filter (overlaps p) (occurrences_in (as_row ex) ws we)))
               proposed_occurrences)
          (considered None (existing_bookings db_two_bookings 1)) /\
    StronglySorted (fun x y : occurrence => fst x < fst y) proposed_occurrences.
Proof.
  intros start end_ until l.
  assert (H : check_conflicts db_two_bookings 1 start end_ (Some "daily"%string)
                              None until None = Ok l)
    by (vm_compute; reflexivity).
  assert (Hne : l <> []) by discriminate.
  split; [exact H | split; [exact Hne |]].
  destruct (check_conflicts_order _ _ _ _ _ _ _ _ _ H Hne)
    as [ws [we [pocc [_ [_ [Hl [Hs _]]]]]]].
  exists ws, we, pocc. auto.
Defined.

(** C3 as stated fails: against a daily candidate, a booking on January 3
    that was stored before a booking on January 2 is reported first. *)
Lemma check_conflicts_order_counterexample :
  let l := [conflict_of (stored_slot 1 (ymd2ord 2024 1 3) None None)
                        (mk_datetime 2024 1 3 10 0, mk_datetime 2024 1 3 11 0);
            conflict_of (stored_slot 2 (ymd2ord 2024 1 2) None None)
                        (mk_datetime 2024 1 2 10 0, mk_datetime 2024 1 2 11 0)] in
  check_conflicts db_two_bookings 1
                  (combine (ymd2ord 2024 1 1) 600) (combine (ymd2ord 2024 1 1) 660)
                  (Some "daily"%string) None (Some (ymd2ord 2024 1 5)) None
  = Ok l /\
  l <> [] /\
  ~ Sorted conflict_le l.
Proof.
  intros l. split; [vm_compute; reflexivity | split; [discriminate |]].
  intros H. inversion H as [| c rest _ Hd]. subst.
  inversion Hd as [| c' rest' Hle]. subst.
  vm_compute in Hle. destruct Hle as [Hle | [Hle _]]; discriminate.
Qed.

Lemma scan_bookings_not_OutOfFuel (exclude_booking_id : option Z) (ws we : date)
      (proposed_occurrences : list occurrence) (existing : list booking) :
  forall conflicts,
    scan_bookings exclude_booking_id ws we proposed_occurrences existing conflicts
    <> OutOfFuel.
Proof.
  induction existing as [| ex rest IH]; intros conflicts; simpl.
  - discriminate.
  - destruct (is_excluded exclude_booking_id ex); [apply IH |].
    apply bind_not_OutOfFuel.
    + apply expand_occurrences_not_OutOfFuel.
    + intros occs _. apply IH.
Qed.

(** The detector returns or raises: its model never runs out of fuel. *)
Lemma check_conflicts_not_OutOfFuel (db : database) (room_id : Z)
      (start end_ : datetime) (rec_type : option string)
      (rec_days : option PyStr.text)
      (until : option date) (exclude_booking_id : option Z) :
  check_conflicts db room_id start end_ rec_type rec_days until exclude_booking_id
  <> OutOfFuel.
Proof.
  unfold check_conflicts. apply bind_not_OutOfFuel.
  - unfold check_window. apply bind_not_OutOfFuel.
    + destruct until; [discriminate | apply date_add_days_not_OutOfFuel].
    + discriminate.
  - intros [ws we] _. apply bind_not_OutOfFuel.
    + apply expand_occurrences_not_OutOfFuel.
    + intros [| p pocc] _; [discriminate | apply scan_bookings_not_OutOfFuel].
Qed.

(** ** The free-room finder *)

Lemma scan_rooms_success (db : database) (start end_ : datetime)
      (all_rooms : list room) :
  forall free_rooms,
    (forall r, In r all_rooms ->
               exists c, check_conflicts db (r_id r) start end_
                                         None None None None = Ok c) ->
    scan_rooms db start end_ all_rooms free_rooms
    = Ok (free_rooms ++ filter (is_free db start end_) all_rooms).
Proof.
  induction all_rooms as [| r rest IH]; intros free_rooms Hall; simpl.
  - rewrite app_nil_r. reflexivity.
  - destruct (Hall r (or_introl eq_refl)) as [c Hc].
    unfold is_free at 1. rewrite Hc. simpl.
    destruct c as [| c0 c]; rewrite IH by (intros r' Hr; apply Hall; right; exact Hr).
    + rewrite <- app_assoc. reflexivity.
    + reflexivity.
Qed.

Lemma scan_rooms_Ok (db : database) (start end_ : datetime)
      (all_rooms : list room) :
  forall free_rooms l,
    scan_rooms db start end_ all_rooms free_rooms = Ok l ->
    forall r, In r all_rooms ->
              exists c, check_conflicts db (r_id r) start end_
                                        None None None None = Ok c.
Proof.
  induction all_rooms as [| r rest IH]; intros free_rooms l H r' Hr; simpl in *.
  - destruct Hr.
  - apply bind_Ok_inv in H. destruct H as [c [Hc H]].
    destruct Hr as [E | Hr].
    + subst r'. exists c. exact Hc.
    + destruct c as [| c0 c]; apply (IH _ _ H r' Hr).
Qed.

Lemma find_free_rooms_not_OutOfFuel (db : database) (company_id : Z)
      (start end_ : datetime) :
  find_free_rooms db company_id start end_ <> OutOfFuel.
Proof.
  unfold find_free_rooms. generalize (@nil room).
  induction (active_rooms db company_id) as [| r rest IH]; intros free; simpl.
  - discriminate.
  - apply bind_not_OutOfFuel.
    + apply check_conflicts_not_OutOfFuel.
    + intros [| c cs] _; apply IH.
Qed.

(** C8, as the code has it. When the detector completes for every active
    room of the company, the finder returns the rooms for which it returned
    the empty list, in the order of the input sequence; when the finder
    returns, the detector has completed for every room. *)
Theorem find_free_rooms_filter (db : database) (company_id : Z)
        (start end_ : datetime) :
  let all_rooms := active_rooms db company_id in
  let detector r :=
    check_conflicts db (r_id r) start end_ None None None None in
  ((forall r, In r all_rooms -> exists c, detector r = Ok c) ->
   find_free_rooms db company_id start end_
   = Ok (filter (fun r => match detector r with Ok [] => true | _ => false end)
                all_rooms)) /\
  (forall l,
      find_free_rooms db company_id start end_ = Ok l ->
      (forall r, In r all_rooms -> exists c, detector r = Ok c) /\
      l = filter (fun r => match detector r with Ok [] => true | _ => false end)
                 all_rooms /\
      (forall r, In r l <-> In r all_rooms /\ detector r = Ok [])).
Proof.
  intros all_rooms detector. subst all_rooms detector. cbv beta. split.
  - intros Hall. unfold find_free_rooms.
    apply (scan_rooms_success db start end_ _ [] Hall).
  - intros l H. unfold find_free_rooms in H.
    pose proof (scan_rooms_Ok db start end_ _ _ _ H) as Hall.
    pose proof (scan_rooms_success db start end_ _ [] Hall) as Hs.
    rewrite Hs in H. inversion H as [Hl]. simpl.
    split; [exact Hall | split; [reflexivity |]].
    intros r. unfold is_free. rewrite filter_In.
    split; intros [Hr Hf]; split; try exact Hr.
    + destruct (check_conflicts db (r_id r) start end_ None None None None)
        as [[| c0 c] | e |]; try discriminate. reflexivity.
    + rewrite Hf. reflexivity.
Qed.

Lemma find_free_rooms_filter_witness :
  let start := mk_datetime 2024 1 2 10 30 in
  let end_ := mk_datetime 2024 1 2 11 30 in
  (forall r, In r (active_rooms db_three_rooms 7) ->
             exists c, check_conflicts db_three_rooms (r_id r) start end_
                                       None None None None = Ok c) /\
  find_free_rooms db_three_rooms 7 start end_
  = Ok [mk_room 1 7 "A" true; mk_room 3 7 "C" true].
Proof.
  intros start end_.
  assert (Hall : forall r, In r (active_rooms db_three_rooms 7) ->
             exists c, check_conflicts db_three_rooms (r_id r) start end_
                                       None None None None = Ok c).
  { intros r Hr. vm_compute in Hr.
    destruct Hr as [E | [E | [E | []]]]; subst r; eexists; vm_compute; reflexivity. }
  split; [exact Hall |].
  rewrite (proj1 (find_free_rooms_filter db_three_rooms 7 start end_) Hall).
  vm_compute. reflexivity.
Defined.

(** C8 as stated fails for a slot in the last year of the calendar: the
    detector raises when it adds 366 days to the date, and so does the
    finder. *)
Lemma find_free_rooms_filter_counterexample :
  let start := mk_datetime 9999 6 1 11 0 in
  let end_ := mk_datetime 9999 6 1 12 0 in
  find_free_rooms db_three_rooms 7 start end_ = Raise OverflowError /\
  find_free_rooms db_three_rooms 7 start end_
  <> Ok (filter (fun r =>
                   match check_conflicts db_three_rooms (r_id r) start end_
                                         None None None None with
                   | Ok [] => true
                   | _ => false
                   end)
                (active_rooms db_three_rooms 7)).
Proof.
  split; vm_compute; [reflexivity | discriminate].
Qed.

(** ** Stable sorting by a key *)

Section SortFacts.

Context {A : Type}.
Variable key : A -> Z.

Local Abbreviation le := (le_by key).

Lemma insert_sorted_perm (x : A) (l : list A) :
  Permutation (insert_sorted le x l) (x :: l).
Proof.
  induction l as [| y l IH]; simpl.
  - apply Permutation_refl.
  - destruct (le x y).
    + apply Permutation_refl.
    + apply perm_trans with (y :: x :: l).
      * apply perm_skip. exact IH.
      * apply perm_swap.
Qed.

Lemma stable_sort_perm (l : list A) : Permutation (stable_sort le l) l.
Proof.
  induction l as [| x l IH]; simpl.
  - apply perm_nil.
  - apply perm_trans with (x :: stable_sort le l).
    + apply insert_sorted_perm.
    + apply perm_skip. exact IH.
Qed.

Lemma insert_sorted_sorted (x : A) (l : list A) :
  StronglySorted (fun a b => key a <= key b) l ->
  StronglySorted (fun a b => key a <= key b) (insert_sorted le x l).
Proof.
  induction 1 as [| y l Hs IH Hy]; simpl.
  - repeat constructor.
  - unfold le_by at 1. destruct (Z.leb_spec (key x) (key y)) as [Hle | Hgt].
    + constructor; [constructor; assumption |].
      constructor; [exact Hle |].
      rewrite Forall_forall in *. intros z Hz. specialize (Hy z Hz). lia.
    + constructor; [exact IH |].
      rewrite Forall_forall in *. intros z Hz.
      apply (Permutation_in _ (insert_sorted_perm x l)) in Hz.
      destruct Hz as [E | Hz]; [subst z; lia | exact (Hy z Hz)].
Qed.

Lemma stable_sort_sorted (l : list A) :
  StronglySorted (fun a b => key a <= key b) (stable_sort le l).
Proof.
  induction l as [| x l IH]; simpl.
  - constructor.
  - apply insert_sorted_sorted. exact IH.
Qed.

(** Insertion does not move an element past another of the same key. *)
Lemma insert_sorted_at_key (k : Z) (x : A) (l : list A) :
  filter (at_key key k) (insert_sorted le x l) = filter (at_key key k) (x :: l).
Proof.
  induction l as [| y l IH]; [reflexivity |].
  cbn [insert_sorted]. unfold le_by at 1.
  destruct (Z.leb_spec (key x) (key y)) as [Hle | Hgt]; [reflexivity |].
  cbn [filter] in *. rewrite IH. unfold at_key.
  destruct (Z.eqb_spec (key x) k); destruct (Z.eqb_spec (key y) k);
    try reflexivity. lia.
Qed.

(** Stability: the elements of one key keep their order. *)
Lemma stable_sort_at_key (k : Z) (l : list A) :
  filter (at_key key k) (stable_sort le l) = filter (at_key key k) l.
Proof.
  induction l as [| x l IH]; [reflexivity |].
  cbn [stable_sort]. rewrite insert_sorted_at_key.
  cbn [filter]. rewrite IH. reflexivity.
Qed.

End SortFacts.

(** ** Stable sorting by a text *)

Lemma leb_refl (s : PyStr.text) : PyStr.leb s s = true.
Proof.
  induction s as [| c s IH]; cbn [PyStr.leb]; [reflexivity |].
  rewrite Z.ltb_irrefl. exact IH.
Qed.

Lemma leb_total (s t : PyStr.text) : PyStr.leb s t = false -> PyStr.leb t s = true.
Proof.
  revert t. induction s as [| c s IH]; intros [| d t]; cbn [PyStr.leb];
    try discriminate; try reflexivity.
  destruct (Z.ltb_spec c d); [discriminate |].
  destruct (Z.ltb_spec d c); [reflexivity |].
  apply IH.
Qed.

Lemma leb_trans (s t u : PyStr.text) :
  PyStr.leb s t = true -> PyStr.leb t u = true -> PyStr.leb s u = true.
Proof.
  revert t u. induction s as [| c s IH]; intros [| d t] [| e u]; cbn [PyStr.leb];
    try discriminate; try reflexivity.
  destruct (Z.ltb_spec c d), (Z.ltb_spec d c), (Z.ltb_spec d e), (Z.ltb_spec e d),
    (Z.ltb_spec c e), (Z.ltb_spec e c);
    try lia; try discriminate; try reflexivity.
  apply IH.
Qed.

Lemma text_eqb_eq (s t : PyStr.text) : text_eqb s t = true <-> s = t.
Proof.
  revert t. induction s as [| c s IH]; intros [| d t]; cbn [text_eqb];
    try (split; [discriminate | discriminate]); [split; reflexivity |].
  rewrite andb_true_iff, Z.eqb_eq, IH. split.
  - intros [E1 E2]. subst. reflexivity.
  - intros E. inversion E. split; reflexivity.
Qed.

Section SortOrder.

Context {A : Type}.
Variable le : A -> A -> bool.

Lemma insert_sorted_Permutation (x : A) (l : list A) :
  Permutation (insert_sorted le x l) (x :: l).
Proof.
  induction l as [| y l IH]; simpl.
  - apply Permutation_refl.
  - destruct (le x y).
    + apply Permutation_refl.
    + apply perm_trans with (y :: x :: l).
      * apply perm_skip. exact IH.
      * apply perm_swap.
Qed.

Lemma stable_sort_Permutation (l : list A) : Permutation (stable_sort le l) l.
Proof.
  induction l as [| x l IH]; simpl.
  - apply perm_nil.
  - apply perm_trans with (x :: stable_sort le l).
    + apply insert_sorted_Permutation.
    + apply perm_skip. exact IH.
Qed.

Hypothesis le_total : forall x y, le x y = false -> le y x = true.
Hypothesis le_trans : forall x y z, le x y = true -> le y z = true -> le x z = true.

Lemma insert_sorted_ascending (x : A) (l : list A) :
  StronglySorted (fun a b => le a b = true) l ->
  StronglySorted (fun a b => le a b = true) (insert_sorted le x l).
Proof.
  induction 1 as [| y l Hs IH Hy]; simpl.
  - repeat constructor.
  - destruct (le x y) eqn:E.
    + constructor; [constructor; assumption |].
      constructor; [exact E |].
      rewrite Forall_forall in *. intros z Hz.
      exact (le_trans x y z E (Hy z Hz)).
    + constructor; [exact IH |].
      rewrite Forall_forall in *. intros z Hz.
      apply (Permutation_in _ (insert_sorted_Permutation x l)) in Hz.
      destruct Hz as [Ez | Hz]; [subst z; exact (le_total x y E) | exact (Hy z Hz)].
Qed.

Lemma stable_sort_ascending (l : list A) :
  StronglySorted (fun a b => le a b = true) (stable_sort le l).
Proof.
  induction l as [| x l IH]; simpl.
  - constructor.
  - apply insert_sorted_ascending. exact IH.
Qed.

Lemma insert_sorted_head (x : A) (l : list A) :
  Forall (fun z => le x z = true) l -> insert_sorted le x l = x :: l.
Proof.
  intros H. destruct l as [| y l]; [reflexivity |].
  cbn [insert_sorted]. inversion H as [| ? ? Hy _]. subst.
  rewrite Hy. reflexivity.
Qed.

Lemma insert_sorted_filter_ascending (p : A -> bool) (x : A) (l : list A) :
  StronglySorted (fun a b => le a b = true) l ->
  filter p (insert_sorted le x l)
  = if p x then insert_sorted le x (filter p l) else filter p l.
Proof.
  induction 1 as [| y l Hs IH Hy].
  - cbn [insert_sorted filter]. destruct (p x); reflexivity.
  - cbn [insert_sorted]. destruct (le x y) eqn:E.
    + cbn [filter]. destruct (p x) eqn:Hx; [| reflexivity].
      symmetry. apply insert_sorted_head.
      apply Forall_forall. intros z Hz.
      assert (Hin : In z (y :: l)).
      { destruct (p y); [destruct Hz as [Ez | Hz]; [left; exact Ez | right] | right];
          apply filter_In in Hz; tauto. }
      destruct Hin as [Ez | Hin]; [subst z; exact E |].
      rewrite Forall_forall in Hy. exact (le_trans x y z E (Hy z Hin)).
    + cbn [filter]. rewrite IH.
      destruct (p x); destruct (p y); try reflexivity.
      cbn [insert_sorted]. rewrite E. reflexivity.
Qed.

(** Sorting and then dropping elements is dropping them and then sorting. *)
Lemma stable_sort_filter_ascending (p : A -> bool) (l : list A) :
  filter p (stable_sort le l) = stable_sort le (filter p l).
Proof.
  induction l as [| x l IH]; [reflexivity |].
  cbn [stable_sort filter].
  rewrite insert_sorted_filter_ascending by apply stable_sort_ascending.
  rewrite IH. destruct (p x); reflexivity.
Qed.

(** Stability: elements that the order does not tell apart keep their
    order. *)
Variable same : A -> bool.
Hypothesis le_same : forall x y, same x = true -> same y = true -> le x y = true.

Lemma insert_sorted_same (x : A) (l : list A) :
  filter same (insert_sorted le x l) = filter same (x :: l).
Proof.
  induction l as [| y l IH]; [reflexivity |].
  cbn [insert_sorted]. destruct (le x y) eqn:E; [reflexivity |].
  cbn [filter] in *. rewrite IH.
  destruct (same x) eqn:Ex; destruct (same y) eqn:Ey; try reflexivity.
  rewrite (le_same x y Ex Ey) in E. discriminate.
Qed.

Lemma stable_sort_same (l : list A) :
  filter same (stable_sort le l) = filter same l.
Proof.
  induction l as [| x l IH]; [reflexivity |].
  cbn [stable_sort]. rewrite insert_sorted_same.
  cbn [filter]. rewrite IH. reflexivity.
Qed.

End SortOrder.

Section TextSortFacts.

Context {A : Type}.
Variable key : A -> PyStr.text.

Lemma stable_sort_text_sorted (l : list A) :
  StronglySorted (fun a b => PyStr.leb (key a) (key b) = true)
                 (stable_sort (le_text key) l).
Proof.
  apply (stable_sort_ascending (le_text key)); unfold le_text.
  - intros x y. apply leb_total.
  - intros x y z. apply leb_trans.
Qed.

Lemma stable_sort_text_filter (p : A -> bool) (l : list A) :
  filter p (stable_sort (le_text key) l) = stable_sort (le_text key) (filter p l).
Proof.
  apply (stable_sort_filter_ascending (le_text key)); unfold le_text.
  - intros x y. apply leb_total.
  - intros x y z. apply leb_trans.
Qed.

Lemma stable_sort_at_text (t : PyStr.text) (l : list A) :
  filter (at_text key t) (stable_sort (le_text key) l) = filter (at_text key t) l.
Proof.
  apply stable_sort_same. unfold at_text, le_text. intros x y Hx Hy.
  apply text_eqb_eq in Hx. apply text_eqb_eq in Hy. rewrite Hx, Hy.
  apply leb_refl.
Qed.

End TextSortFacts.

(** ** The schedule builder *)

Lemma append_entries_spec (b : booking) (occs : list occurrence)
      (entries : list schedule_entry) :
  append_entries b occs entries = entries ++ map (entry_of b) occs.
Proof.
  unfold append_entries. revert entries.
  induction occs as [| o occs IH]; intros entries; simpl.
  - rewrite app_nil_r. reflexivity.
  - rewrite IH, <- app_assoc. reflexivity.
Qed.

Lemma collect_entries_Ok (ws we : date) (raw : list booking) :
  forall entries l,
    collect_entries ws we raw entries = Ok l ->
    l = entries ++ flat_map (entries_of ws we) raw /\
    (forall b, In b raw ->
               expand_occurrences (as_row b) ws we
               = Ok (occurrences_in (as_row b) ws we)).
Proof.
  induction raw as [| b rest IH]; intros entries l H; simpl in *.
  - inversion H. rewrite app_nil_r. split; [reflexivity | intros b []].
  - apply bind_Ok_inv in H. destruct H as [occs [Ho H]].
    apply IH in H. destruct H as [Hl Hall].
    assert (Hocc : occurrences_in (as_row b) ws we = occs)
      by (unfold occurrences_in; rewrite Ho; reflexivity).
    split.
    + rewrite Hl, append_entries_spec, <- app_assoc.
      unfold entries_of at 2. rewrite Hocc. reflexivity.
    + intros b' [E | Hin].
      * subst b'. rewrite Hocc. exact Ho.
      * apply Hall. exact Hin.
Qed.

Lemma collect_entries_success (ws we : date) (raw : list booking) :
  forall entries,
    (forall b, In b raw -> exists occs, expand_occurrences (as_row b) ws we = Ok occs) ->
    collect_entries ws we raw entries
    = Ok (entries ++ flat_map (entries_of ws we) raw).
Proof.
  induction raw as [| b rest IH]; intros entries Hall; simpl.
  - rewrite app_nil_r. reflexivity.
  - destruct (Hall b (or_introl eq_refl)) as [occs Ho].
    rewrite Ho. simpl.
    rewrite IH by (intros b' Hin; apply Hall; right; exact Hin).
    rewrite append_entries_spec, <- app_assoc.
    unfold entries_of at 2, occurrences_in. rewrite Ho. reflexivity.
Qed.

Lemma get_room_schedule_not_OutOfFuel (db : database) (room_id : Z)
      (ws we : date) :
  get_room_schedule db room_id ws we <> OutOfFuel.
Proof.
  unfold get_room_schedule. apply bind_not_OutOfFuel; [| discriminate].
  generalize (@nil schedule_entry).
  induction (get_room_bookings_raw db room_id) as [| b rest IH]; intros entries; simpl.
  - discriminate.
  - apply bind_not_OutOfFuel.
    + apply expand_occurrences_not_OutOfFuel.
    + intros occs _. apply IH.
Qed.

(** C4, as the code has it. The rows come from the store in ascending order
    of the text of [start_dt], compared as text, rows of equal text in table
    order. When every expansion completes the builder returns; what it
    returns is the concatenation of the entries of the room's non-cancelled
    rows, taken in that order, sorted by start: a rearrangement of the
    concatenation, ascending in start, in which the entries of one start
    keep the order they have in the concatenation. *)
Theorem get_room_schedule_stable (db : database) (room_id : Z) (ws we : date) :
  let stored := filter (fun b => (b_room_id b =? room_id) && negb (b_is_cancelled b))
                       (bookings db) in
  let raw := get_room_bookings_raw db room_id in
  let all := flat_map (entries_of ws we) raw in
  (Permutation raw stored /\
   StronglySorted (fun x y => PyStr.leb (b_start_text x) (b_start_text y) = true)
                  raw /\
   (forall t, filter (at_text b_start_text t) raw
              = filter (at_text b_start_text t) stored)) /\
  ((forall b, In b raw ->
              exists occs, expand_occurrences (as_row b) ws we = Ok occs) ->
   exists l, get_room_schedule db room_id ws we = Ok l) /\
  (forall l,
      get_room_schedule db room_id ws we = Ok l ->
      (forall b, In b raw ->
                 expand_occurrences (as_row b) ws we
                 = Ok (occurrences_in (as_row b) ws we)) /\
      l = stable_sort (le_by s_start_dt) all /\
      Permutation l all /\
      StronglySorted (fun x y => s_start_dt x <= s_start_dt y) l /\
      (forall t, filter (fun x => s_start_dt x =? t) l
                 = filter (fun x => s_start_dt x =? t) all)).
Proof.
  intros stored raw all. subst stored raw all. split; [| split].
  - unfold get_room_bookings_raw, active_in_room. split; [| split].
    + apply stable_sort_Permutation.
    + apply (stable_sort_text_sorted b_start_text).
    + intros t. apply (stable_sort_at_text b_start_text).
  - intros Hall. unfold get_room_schedule.
    rewrite (collect_entries_success ws we _ [] Hall). simpl.
    eexists. reflexivity.
  - intros l H. unfold get_room_schedule in H.
    apply bind_Ok_inv in H. destruct H as [entries [Hc H]].
    apply collect_entries_Ok in Hc. destruct Hc as [He Hall].
    simpl in He. subst entries. inversion H as [Hl].
    split; [exact Hall | split; [reflexivity | split; [| split]]].
    + apply (stable_sort_perm s_start_dt).
    + apply (stable_sort_sorted s_start_dt).
    + intros t. apply (stable_sort_at_key s_start_dt).
Qed.

(** The order of the rows is that of the texts: a start stored as [9:00]
    comes after one stored as [10:00] on the same day. The sort of the
    builder then puts the entries in the order of their starts. *)
Example get_room_bookings_raw_run :
  map b_id (get_room_bookings_raw db_unpadded 1) = [2; 1] /\
  match get_room_schedule db_unpadded 1 (ymd2ord 2024 1 1) (ymd2ord 2024 1 7) with
  | Ok l => map s_booking_id l = [1; 2]
  | _ => False
  end.
Proof. vm_compute. split; reflexivity. Qed.

Lemma get_room_schedule_stable_witness :
  let ws := ymd2ord 2024 1 1 in
  let we := ymd2ord 2024 1 7 in
  let raw := get_room_bookings_raw db_daily_and_single 1 in
  let all := flat_map (entries_of ws we) raw in
  (forall b, In b raw ->
             exists occs, expand_occurrences (as_row b) ws we = Ok occs) /\
  exists l,
    get_room_schedule db_daily_and_single 1 ws we = Ok l /\
    Permutation l all /\
    StronglySorted (fun x y => s_start_dt x <= s_start_dt y) l /\
    (forall t, filter (fun x => s_start_dt x =? t) l
               = filter (fun x => s_start_dt x =? t) all).
Proof.
  intros ws we raw all.
  destruct (get_room_schedule_stable db_daily_and_single 1 ws we) as [_ [Hs Hl]].
  assert (Hall : forall b, In b raw ->
             exists occs, expand_occurrences (as_row b) ws we = Ok occs).
  { intros b Hb. vm_compute in Hb.
    destruct Hb as [E | [E | []]]; subst b; eexists; vm_compute; reflexivity. }
  split; [exact Hall |].
  destruct (Hs Hall) as [l H]. exists l.
  destruct (Hl l H) as [_ [_ [Hp [Hsorted Hstable]]]].
  split; [exact H | split; [exact Hp | split; [exact Hsorted | exact Hstable]]].
Defined.

(** C4 as stated fails: on January 3 the daily booking with id 2, anchored
    on January 1, comes before the booking with id 1 of the same start. The
    texts of the two starts are padded, so the store returns the daily
    booking first. *)
Lemma get_room_schedule_stable_counterexample :
  let daily := stored_slot 2 (ymd2ord 2024 1 1) (Some "daily"%string)
                           (Some (ymd2ord 2024 1 5)) in
  let single := stored_slot 1 (ymd2ord 2024 1 3) None None in
  let slot d := (mk_datetime 2024 1 d 10 0, mk_datetime 2024 1 d 11 0) in
  let l := [entry_of daily (slot 1); entry_of daily (slot 2);
            entry_of daily (slot 3); entry_of single (slot 3);
            entry_of daily (slot 4); entry_of daily (slot 5)] in
  b_start_text daily = PyStr.of_string "2024-01-01 10:00" /\
  b_start_text single = PyStr.of_string "2024-01-03 10:00" /\
  get_room_bookings_raw db_daily_and_single 1 = [daily; single] /\
  get_room_schedule db_daily_and_single 1 (ymd2ord 2024 1 1) (ymd2ord 2024 1 7)
  = Ok l /\
  ~ Sorted entry_le l.
Proof.
  intros daily single slot l.
  split; [vm_compute; reflexivity |].
  split; [vm_compute; reflexivity |].
  split; [vm_compute; reflexivity |].
  split; [vm_compute; reflexivity |].
  intros H.
  apply Sorted_inv in H. destruct H as [H _].
  apply Sorted_inv in H. destruct H as [H _].
  apply Sorted_inv in H. destruct H as [_ H].
  inversion H as [| e rest Hle]. subst.
  vm_compute in Hle. destruct Hle as [Hle | [_ Hle]]; [discriminate |].
  apply Hle. reflexivity.
Qed.

(** * More properties of the module and of its callers *)

(** ** What the expander returns *)

(** X1. Whatever the expander returns for a row and a window, each
    occurrence starts on a date of the window that is not before the anchor
    date and, for a recurring row with an [until], not after it; it starts
    at the anchor's time of day and lasts as long as the anchor. *)
Theorem expand_occurrences_sound (b : row) (ws we : date) (l : list occurrence)
        (o : occurrence) :
  expand_occurrences b ws we = Ok l ->
  In o l ->
  ws <= date_of (fst o) <= we /\
  date_of (start_dt b) <= date_of (fst o) /\
  (recurrence_type b <> None ->
   forall u, recurrence_until b = Some u -> date_of (fst o) <= u) /\
  time_of (fst o) = time_of (start_dt b) /\
  snd o - fst o = end_dt b - start_dt b.
Proof.
  intros H Ho.
  split; [exact (expand_occurrences_in_window b ws we l H o Ho) |].
  destruct (recurrence_type b) as [rec_type |] eqn:Hk.
  - apply (expand_recurring_Ok b rec_type ws we l Hk) in H. subst l.
    apply in_map_iff in Ho. destruct Ho as [d [Ho Hd]]. subst o.
    apply filter_In in Hd. destruct Hd as [Hd _].
    apply In_dates_between in Hd.
    destruct (occurrence_on_shape b d) as [E1 [E2 E3]].
    rewrite E1, E2, E3. repeat split; try lia.
    intros _ u Hu. unfold until_or in Hd. rewrite Hu in Hd. lia.
  - unfold expand_occurrences in H. rewrite Hk in H.
    destruct ((ws <=? date_of (start_dt b)) && (date_of (start_dt b) <=? we));
      inversion H; subst l; [| destruct Ho].
    destruct Ho as [Ho | []]. subst o. simpl.
    repeat split; try lia. intros Hn. contradiction.
Qed.

Lemma expand_occurrences_sound_witness :
  let b := slot_10_to_11 (ymd2ord 2024 1 1) (Some "weekly"%string)
                         (Some (PyStr.of_string "0,2")) (Some (ymd2ord 2024 1 14)) in
  let l := [(mk_datetime 2024 1 1 10 0, mk_datetime 2024 1 1 11 0);
            (mk_datetime 2024 1 3 10 0, mk_datetime 2024 1 3 11 0);
            (mk_datetime 2024 1 8 10 0, mk_datetime 2024 1 8 11 0);
            (mk_datetime 2024 1 10 10 0, mk_datetime 2024 1 10 11 0)] in
  let o := (mk_datetime 2024 1 8 10 0, mk_datetime 2024 1 8 11 0) in
  expand_occurrences b (ymd2ord 2024 1 1) (ymd2ord 2024 1 31) = Ok l /\
  In o l /\
  ymd2ord 2024 1 1 <= date_of (fst o) <= ymd2ord 2024 1 31 /\
  date_of (fst o) <= ymd2ord 2024 1 14.
Proof.
  intros b l o.
  assert (H : expand_occurrences b (ymd2ord 2024 1 1) (ymd2ord 2024 1 31) = Ok l)
    by (vm_compute; reflexivity).
  assert (Ho : In o l) by (right; right; left; reflexivity).
  split; [exact H | split; [exact Ho |]].
  destruct (expand_occurrences_sound b _ _ l o H Ho) as [Hw [_ [Hu _]]].
  split; [exact Hw |].
  apply Hu; [discriminate | reflexivity].
Defined.

(** ** What the schedule builder shows *)

Lemma In_stable_sort {A : Type} (le : A -> A -> bool) (x : A) (l : list A) :
  In x (stable_sort le l) <-> In x l.
Proof.
  assert (Hins : forall y l', In x (insert_sorted le y l') <-> x = y \/ In x l').
  { intros y l'. induction l' as [| z l' IH]; simpl.
    - intuition.
    - destruct (le y z); simpl; [intuition | rewrite IH; intuition]. }
  induction l as [| y l IH]; simpl; [reflexivity |].
  rewrite Hins, IH. intuition.
Qed.

(** X2. Every entry of a schedule that the builder returns is an occurrence,
    in the window, of a stored row of that room that is not cancelled; the
    builder never shows a cancelled booking, a booking of another room or an
    occurrence outside the window. *)
Theorem get_room_schedule_sound (db : database) (room_id : Z) (ws we : date)
        (l : list schedule_entry) (e : schedule_entry) :
  get_room_schedule db room_id ws we = Ok l ->
  In e l ->
  exists (b : booking) (occ : occurrence),
    In b (bookings db) /\
    b_room_id b = room_id /\
    b_is_cancelled b = false /\
    expand_occurrences (as_row b) ws we = Ok (occurrences_in (as_row b) ws we) /\
    In occ (occurrences_in (as_row b) ws we) /\
    e = entry_of b occ /\
    s_booking_id e = b_id b /\
    ws <= date_of (s_start_dt e) <= we.
Proof.
  intros H He. unfold get_room_schedule in H.
  apply bind_Ok_inv in H. destruct H as [entries [Hc H]].
  apply collect_entries_Ok in Hc. destruct Hc as [Hl Hall].
  simpl in Hl. subst entries. inversion H as [E]. subst l. clear H.
  apply In_stable_sort in He. apply in_flat_map in He.
  destruct He as [b [Hb He]].
  unfold entries_of in He. apply in_map_iff in He. destruct He as [occ [He Ho]].
  exists b, occ.
  pose proof (Hall b Hb) as Hexp.
  unfold get_room_bookings_raw in Hb. apply In_stable_sort in Hb.
  apply filter_In in Hb. destruct Hb as [Hb Ha].
  unfold active_in_room in Ha. apply andb_true_iff in Ha. destruct Ha as [Hr Hn].
  apply Z.eqb_eq in Hr. apply negb_true_iff in Hn.
  split; [exact Hb | split; [exact Hr | split; [exact Hn | split; [exact Hexp |]]]].
  split; [exact Ho | split; [symmetry; exact He | subst e; split; [reflexivity |]]].
  simpl. apply (occurrences_in_window _ _ _ _ Ho).
Qed.

Lemma get_room_schedule_sound_witness :
  let ws := ymd2ord 2024 1 1 in
  let we := ymd2ord 2024 1 7 in
  let single := stored_slot 1 (ymd2ord 2024 1 3) None None in
  let e := entry_of single (mk_datetime 2024 1 3 10 0, mk_datetime 2024 1 3 11 0) in
  exists l,
    get_room_schedule db_daily_and_single 1 ws we = Ok l /\
    In e l /\
    exists b, In b (bookings db_daily_and_single) /\
              b_room_id b = 1 /\ b_is_cancelled b = false /\
              s_booking_id e = b_id b.
Proof.
  intros ws we single e.
  destruct (get_room_schedule db_daily_and_single 1 ws we) as [l | x |] eqn:H;
    try (exfalso; vm_compute in H; discriminate).
  exists l.
  assert (He : In e l).
  { vm_compute in H. inversion H. right. right. right. left. reflexivity. }
  split; [reflexivity | split; [exact He |]].
  destruct (get_room_schedule_sound _ _ _ _ l e H He)
    as [b [occ [Hb [Hr [Hn [_ [_ [_ [Hi _]]]]]]]]].
  exists b. auto.
Defined.

(** ** Lists in ascending order *)

(** Two strictly ascending lists with the same elements are equal. *)
Lemma ascending_ext (l1 l2 : list Z) :
  StronglySorted Z.lt l1 -> StronglySorted Z.lt l2 ->
  (forall x, In x l1 <-> In x l2) -> l1 = l2.
Proof.
  intros H1. revert l2.
  induction H1 as [| x l1 Hs1 IH Hx]; intros l2 H2 Hin.
  - destruct l2 as [| y l2]; [reflexivity |].
    exfalso. apply (proj2 (Hin y)). left. reflexivity.
  - destruct H2 as [| y l2 Hs2 Hy].
    + exfalso. apply (proj1 (Hin x)). left. reflexivity.
    + rewrite Forall_forall in Hx, Hy.
      assert (E : x = y).
      { destruct (proj1 (Hin x) (or_introl eq_refl)) as [E | Hxin];
          [symmetry; exact E |].
        destruct (proj2 (Hin y) (or_introl eq_refl)) as [E | Hyin];
          [exact E |].
        specialize (Hx y Hyin). specialize (Hy x Hxin). lia. }
      subst y. f_equal. apply IH; [exact Hs2 |].
      intros z. split; intros Hz.
      * destruct (proj1 (Hin z) (or_intror Hz)) as [E | Hz2]; [| exact Hz2].
        specialize (Hx z Hz). lia.
      * destruct (proj2 (Hin z) (or_intror Hz)) as [E | Hz1]; [| exact Hz1].
        specialize (Hy z Hz). lia.
Qed.

Lemma filter_and {A : Type} (f g : A -> bool) (l : list A) :
  filter f (filter g l) = filter (fun x => f x && g x) l.
Proof.
  induction l as [| x l IH]; simpl; [reflexivity |].
  destruct (g x); simpl.
  - destruct (f x); simpl; rewrite IH; reflexivity.
  - rewrite andb_false_r. exact IH.
Qed.

Lemma filter_flat_map {A B : Type} (p : B -> bool) (f : A -> list B) (l : list A) :
  filter p (flat_map f l) = flat_map (fun x => filter p (f x)) l.
Proof.
  induction l as [| x l IH]; simpl; [reflexivity |].
  rewrite filter_app, IH. reflexivity.
Qed.

(** X3. A narrower window gives the occurrences of the wider window that
    start in it: when the expander returns for a window, it returns for
    every window inside it, with exactly the occurrences whose start date
    lies in the narrower window, in the same order. *)
Theorem expand_occurrences_subwindow (b : row) (ws we ws' we' : date)
        (l : list occurrence) :
  expand_occurrences b ws we = Ok l ->
  ws <= ws' -> we' <= we ->
  expand_occurrences b ws' we'
  = Ok (filter (fun o => (ws' <=? date_of (fst o)) && (date_of (fst o) <=? we')) l).
Proof.
  intros H Hws Hwe.
  destruct (recurrence_type b) as [rec_type |] eqn:Hk.
  - pose proof (expand_recurring_Ok_inv b rec_type ws we l Hk H) as [Hb Hv].
    pose proof (expand_recurring_days b rec_type ws we l Hk H) as Hn.
    apply (expand_recurring_Ok b rec_type ws we l Hk) in H. subst l.
    assert (Hu : Z.min (until_or b we') we' <= Z.min (until_or b we) we)
      by (unfold until_or; destruct (recurrence_until b); lia).
    rewrite (expand_recurring_success b rec_type (parsed_days b) ws' we' Hk Hn).
    + f_equal. rewrite filter_map_swap. f_equal.
      rewrite filter_and.
      apply ascending_ext.
      * apply filter_sorted, dates_between_sorted.
      * apply filter_sorted, dates_between_sorted.
      * intros d. rewrite !filter_In, !In_dates_between.
        destruct (occurrence_on_shape b d) as [E _]. rewrite E.
        rewrite !andb_true_iff, !Z.leb_le.
        unfold until_or in *. destruct (recurrence_until b); split; intros; lia || intuition lia.
    + intros Ha. assert (Ha' : date_of (start_dt b) <= Z.min (until_or b we) we) by lia.
      destruct (Hb Ha') as [H0 Hm]. split; [exact H0 | lia].
    + intros d Hd Hi. apply Hv; [lia | exact Hi].
  - unfold expand_occurrences in *. rewrite Hk in *.
    destruct ((ws <=? date_of (start_dt b)) && (date_of (start_dt b) <=? we)) eqn:E;
      inversion H; subst l; simpl.
    + destruct ((ws' <=? date_of (start_dt b)) && (date_of (start_dt b) <=? we'));
        reflexivity.
    + replace ((ws' <=? date_of (start_dt b)) && (date_of (start_dt b) <=? we'))
        with false; [reflexivity |].
      symmetry. apply andb_false_iff. apply andb_false_iff in E.
      rewrite !Z.leb_gt in *. lia.
Qed.

Lemma expand_occurrences_subwindow_witness :
  let b := slot_10_to_11 (ymd2ord 2024 1 1) (Some "weekly"%string)
                         (Some (PyStr.of_string "0,2")) (Some (ymd2ord 2024 1 14)) in
  let l := [(mk_datetime 2024 1 1 10 0, mk_datetime 2024 1 1 11 0);
            (mk_datetime 2024 1 3 10 0, mk_datetime 2024 1 3 11 0);
            (mk_datetime 2024 1 8 10 0, mk_datetime 2024 1 8 11 0);
            (mk_datetime 2024 1 10 10 0, mk_datetime 2024 1 10 11 0)] in
  expand_occurrences b (ymd2ord 2024 1 1) (ymd2ord 2024 1 31) = Ok l /\
  ymd2ord 2024 1 1 <= ymd2ord 2024 1 5 /\
  ymd2ord 2024 1 9 <= ymd2ord 2024 1 31 /\
  expand_occurrences b (ymd2ord 2024 1 5) (ymd2ord 2024 1 9)
  = Ok [(mk_datetime 2024 1 8 10 0, mk_datetime 2024 1 8 11 0)].
Proof.
  intros b l.
  assert (H : expand_occurrences b (ymd2ord 2024 1 1) (ymd2ord 2024 1 31) = Ok l)
    by (vm_compute; reflexivity).
  assert (H1 : ymd2ord 2024 1 1 <= ymd2ord 2024 1 5) by (vm_compute; discriminate).
  assert (H2 : ymd2ord 2024 1 9 <= ymd2ord 2024 1 31) by (vm_compute; discriminate).
  split; [exact H | split; [exact H1 | split; [exact H2 |]]].
  rewrite (expand_occurrences_subwindow b _ _ _ _ l H H1 H2).
  vm_compute. reflexivity.
Defined.

(** ** More on the conflict detector *)

Lemma scan_bookings_considered (exclude_booking_id : option Z) (ws we : date)
      (proposed_occurrences : list occurrence) (existing : list booking) :
  forall conflicts,
    scan_bookings exclude_booking_id ws we proposed_occurrences existing conflicts
    = scan_bookings None ws we proposed_occurrences
                    (considered exclude_booking_id existing) conflicts.
Proof.
  induction existing as [| ex rest IH]; intros conflicts; [reflexivity |].
  unfold considered in *. cbn [scan_bookings filter].
  destruct (is_excluded exclude_booking_id ex); cbn [negb].
  - apply IH.
  - cbn [scan_bookings is_excluded].
    destruct (expand_occurrences (as_row ex) ws we); cbn [bind];
      [apply IH | reflexivity | reflexivity].
Qed.

Lemma active_after_cancel (booking_id room_id : Z) (table : list booking) :
  filter (active_in_room room_id)
         (map (fun b => if b_id b =? booking_id then set_cancelled b else b) table)
  = filter (fun b => negb (b_id b =? booking_id))
           (filter (active_in_room room_id) table).
Proof.
  induction table as [| b rest IH]; [reflexivity |].
  cbn [map filter].
  destruct (b_id b =? booking_id) eqn:E.
  - replace (active_in_room room_id (set_cancelled b)) with false
      by (unfold active_in_room; simpl; rewrite andb_false_r; reflexivity).
    destruct (active_in_room room_id b); [| exact IH].
    cbn [filter]. rewrite E. exact IH.
  - destruct (active_in_room room_id b); [| exact IH].
    cbn [filter]. rewrite E. cbn [negb]. f_equal. exact IH.
Qed.

Lemma existing_after_cancel (db : database) (booking_id room_id : Z) :
  booking_id <> 0 ->
  existing_bookings (cancel_booking db booking_id) room_id
  = considered (Some booking_id) (existing_bookings db room_id).
Proof.
  intros Hid. unfold existing_bookings, considered, cancel_booking.
  cbn [bookings]. rewrite active_after_cancel.
  apply filter_ext. intros ex. cbn [is_excluded].
  apply Z.eqb_neq in Hid. rewrite Hid. reflexivity.
Qed.

(** X4. Cancelling a booking has the effect on the detector that excluding
    its id has: for a booking id other than 0, a check against the store
    after [cancel_booking] gives what the check against the store before it
    gives with that id as [exclude_booking_id]. *)
Theorem cancel_booking_excludes (db : database) (booking_id room_id : Z)
        (start end_ : datetime) (rec_type : option string)
      (rec_days : option PyStr.text)
        (until : option date) :
  booking_id <> 0 ->
  check_conflicts (cancel_booking db booking_id) room_id start end_
                  rec_type rec_days until None
  = check_conflicts db room_id start end_ rec_type rec_days until (Some booking_id).
Proof.
  intros Hid. unfold check_conflicts.
  destruct (check_window start until) as [[ws we] | e |]; cbn [bind];
    [| reflexivity | reflexivity].
  destruct (expand_occurrences (mk_row start end_ rec_type rec_days until) ws we)
    as [[| p pocc] | e |]; cbn [bind]; try reflexivity.
  rewrite (existing_after_cancel db booking_id room_id Hid).
  symmetry. apply scan_bookings_considered.
Qed.

Lemma cancel_booking_excludes_witness :
  let start := mk_datetime 2024 1 2 10 30 in
  let end_ := mk_datetime 2024 1 2 11 30 in
  1 <> 0 /\
  check_conflicts db_three_rooms 2 start end_ None None None None
  = Ok [mk_conflict 1 "review" (mk_datetime 2024 1 2 10 0)
                    (mk_datetime 2024 1 2 11 0) (Some "bob"%string) "Bob"] /\
  check_conflicts (cancel_booking db_three_rooms 1) 2 start end_ None None None None
  = Ok [].
Proof.
  intros start end_.
  assert (H : 1 <> 0) by discriminate.
  split; [exact H | split; [vm_compute; reflexivity |]].
  rewrite (cancel_booking_excludes db_three_rooms 1 2 start end_ None None None H).
  vm_compute. reflexivity.
Defined.

(** The records of a slot without recurrence that ends earlier. *)
Lemma check_conflicts_cut_end (db : database) (room_id : Z)
      (start end_ end' : datetime) (rec_days : option PyStr.text)
      (until : option date) (exclude_booking_id : option Z) (l : list conflict) :
  check_conflicts db room_id start end_ None rec_days until exclude_booking_id = Ok l ->
  end' <= end_ ->
  check_conflicts db room_id start end' None rec_days until exclude_booking_id
  = Ok (filter (fun c => c_start_dt c <? end') l).
Proof.
  intros H Hend. apply check_conflicts_Ok in H.
  destruct H as [ws [we [pocc [Hw [Hp [Hl Hall]]]]]].
  unfold check_conflicts. rewrite Hw. cbn [bind].
  unfold expand_occurrences in *. cbn [recurrence_type start_dt end_dt] in *.
  destruct ((ws <=? date_of start) && (date_of start <=? we));
    inversion Hp; subst pocc; cbn [bind].
  - rewrite scan_bookings_success.
    + subst l. cbn [app]. f_equal. rewrite filter_flat_map.
      apply flat_map_ext. intros ex. unfold conflicts_with. cbn [flat_map].
      rewrite !app_nil_r, filter_map_swap. f_equal.
      rewrite filter_and. apply filter_ext. intros o.
      unfold overlaps, conflict_of. cbn [fst snd c_start_dt].
      destruct (Z.ltb_spec (fst o) end'); destruct (Z.ltb_spec (fst o) end_);
        destruct (start <? snd o); try reflexivity; lia.
    + intros ex Hex. eexists. apply Hall; [discriminate | exact Hex].
  - subst l. rewrite flat_map_nil by (intros ex _; reflexivity). reflexivity.
Qed.

(** X5. Narrowing the proposed slot never adds a conflict: for a proposed
    slot without recurrence, if the detector returns for the slot from
    [start] to [end_], it returns for every slot inside it that starts on
    the same date, with the records of the first call whose occurrence
    overlaps the narrower slot, in the same order. In particular a slot that
    is free stays free when it is narrowed. *)
Theorem check_conflicts_narrower_slot (db : database) (room_id : Z)
        (start end_ start' end' : datetime) (rec_days : option PyStr.text)
        (until : option date) (exclude_booking_id : option Z) (l : list conflict) :
  check_conflicts db room_id start end_ None rec_days until exclude_booking_id = Ok l ->
  date_of start' = date_of start ->
  start <= start' ->
  end' <= end_ ->
  check_conflicts db room_id start' end' None rec_days until exclude_booking_id
  = Ok (filter (fun c => (start' <? c_end_dt c) && (c_start_dt c <? end')) l).
Proof.
  intros H Hdate Hstart Hend. apply check_conflicts_Ok in H.
  destruct H as [ws [we [pocc [Hw [Hp [Hl Hall]]]]]].
  unfold check_conflicts.
  assert (Hw' : check_window start' until = Ok (ws, we)).
  { unfold check_window in *. rewrite Hdate. exact Hw. }
  rewrite Hw'. cbn [bind].
  unfold expand_occurrences in *. cbn [recurrence_type start_dt end_dt] in *.
  rewrite Hdate.
  destruct ((ws <=? date_of start) && (date_of start <=? we));
    inversion Hp; subst pocc; cbn [bind].
  - rewrite scan_bookings_success.
    + subst l. cbn [app]. f_equal. rewrite filter_flat_map.
      apply flat_map_ext. intros ex. unfold conflicts_with. cbn [flat_map].
      rewrite !app_nil_r, filter_map_swap. f_equal.
      rewrite filter_and. apply filter_ext. intros o.
      unfold overlaps, conflict_of. cbn [fst snd c_start_dt c_end_dt].
      destruct (Z.ltb_spec start' (snd o)); destruct (Z.ltb_spec start (snd o));
        destruct (Z.ltb_spec (fst o) end'); destruct (Z.ltb_spec (fst o) end_);
        try reflexivity; lia.
    + intros ex Hex. eexists. apply Hall; [discriminate | exact Hex].
  - subst l. rewrite flat_map_nil by (intros ex _; reflexivity). reflexivity.
Qed.

Lemma check_conflicts_narrower_slot_witness :
  let start := mk_datetime 2024 1 2 9 30 in
  let end_ := mk_datetime 2024 1 2 12 0 in
  let start' := mk_datetime 2024 1 2 11 0 in
  let end' := mk_datetime 2024 1 2 11 30 in
  check_conflicts db_three_rooms 2 start end_ None None None None
  = Ok [mk_conflict 1 "review" (mk_datetime 2024 1 2 10 0)
                    (mk_datetime 2024 1 2 11 0) (Some "bob"%string) "Bob"] /\
  date_of start' = date_of start /\
  start <= start' /\
  end' <= end_ /\
  check_conflicts db_three_rooms 2 start' end' None None None None = Ok [].
Proof.
  intros start end_ start' end'.
  assert (H : check_conflicts db_three_rooms 2 start end_ None None None None
              = Ok [mk_conflict 1 "review" (mk_datetime 2024 1 2 10 0)
                                (mk_datetime 2024 1 2 11 0) (Some "bob"%string) "Bob"])
    by (vm_compute; reflexivity).
  assert (Hd : date_of start' = date_of start) by (vm_compute; reflexivity).
  assert (Hs : start <= start') by (vm_compute; discriminate).
  assert (He : end' <= end_) by (vm_compute; discriminate).
  split; [exact H | split; [exact Hd | split; [exact Hs | split; [exact He |]]]].
  rewrite (check_conflicts_narrower_slot _ _ _ _ _ _ _ _ _ _ H Hd Hs He).
  vm_compute. reflexivity.
Defined.

(** ** Cancelling a booking and the schedule *)

Section SortFilter.

Context {A : Type}.
Variable key : A -> Z.
Variable p : A -> bool.

Local Abbreviation le := (le_by key).

Lemma insert_sorted_first (x : A) (l : list A) :
  Forall (fun z => key x <= key z) l -> insert_sorted le x l = x :: l.
Proof.
  intros H. destruct l as [| y l]; [reflexivity |].
  cbn [insert_sorted]. unfold le_by at 1.
  inversion H as [| ? ? Hy _]. subst.
  apply Z.leb_le in Hy. rewrite Hy. reflexivity.
Qed.

Lemma insert_sorted_filter (x : A) (l : list A) :
  StronglySorted (fun a b => key a <= key b) l ->
  filter p (insert_sorted le x l)
  = if p x then insert_sorted le x (filter p l) else filter p l.
Proof.
  induction 1 as [| y l Hs IH Hy].
  - cbn [insert_sorted filter]. destruct (p x); reflexivity.
  - cbn [insert_sorted]. unfold le_by at 1.
    destruct (Z.leb_spec (key x) (key y)) as [Hle | Hgt].
    + cbn [filter]. destruct (p x) eqn:Hx; [| reflexivity].
      symmetry. apply insert_sorted_first.
      apply Forall_forall. intros z Hz.
      assert (Hin : In z (y :: l)).
      { destruct (p y); [destruct Hz as [E | Hz]; [left; exact E | right] | right];
          apply filter_In in Hz; tauto. }
      destruct Hin as [E | Hin]; [subst z; exact Hle |].
      rewrite Forall_forall in Hy. specialize (Hy z Hin). lia.
    + cbn [filter]. rewrite IH.
      destruct (p x); destruct (p y); try reflexivity.
      cbn [insert_sorted].
      replace (le_by key x y) with false; [reflexivity |].
      symmetry. apply Z.leb_gt. exact Hgt.
Qed.

(** Sorting and then dropping elements is dropping them and then sorting. *)
Lemma stable_sort_filter (l : list A) :
  filter p (stable_sort le l) = stable_sort le (filter p l).
Proof.
  induction l as [| x l IH]; [reflexivity |].
  cbn [stable_sort filter].
  rewrite insert_sorted_filter by apply stable_sort_sorted.
  rewrite IH. destruct (p x); reflexivity.
Qed.

End SortFilter.

Lemma entries_of_filter (booking_id : Z) (ws we : date) (raw : list booking) :
  flat_map (entries_of ws we) (filter (fun b => negb (b_id b =? booking_id)) raw)
  = filter (fun e => negb (s_booking_id e =? booking_id))
           (flat_map (entries_of ws we) raw).
Proof.
  induction raw as [| b rest IH]; [reflexivity |].
  cbn [filter flat_map]. rewrite filter_app, <- IH.
  assert (Hb : filter (fun e => negb (s_booking_id e =? booking_id))
                      (entries_of ws we b)
               = if negb (b_id b =? booking_id) then entries_of ws we b else []).
  { unfold entries_of.
    induction (occurrences_in (as_row b) ws we) as [| o occs IHo];
      [destruct (negb (b_id b =? booking_id)); reflexivity |].
    cbn [map filter entry_of s_booking_id]. rewrite IHo.
    destruct (negb (b_id b =? booking_id)); reflexivity. }
  rewrite Hb. destruct (negb (b_id b =? booking_id)); reflexivity.
Qed.

(** X6. Cancelling a booking takes its entries, and nothing else, out of
    the schedule: if the schedule builder returns [l] for a room and a
    window, then after [cancel_booking] of an id it returns the entries of
    [l] that belong to other bookings, in the same order. *)
Theorem cancel_booking_schedule (db : database) (booking_id room_id : Z)
        (ws we : date) (l : list schedule_entry) :
  get_room_schedule db room_id ws we = Ok l ->
  get_room_schedule (cancel_booking db booking_id) room_id ws we
  = Ok (filter (fun e => negb (s_booking_id e =? booking_id)) l).
Proof.
  intros H. unfold get_room_schedule in *.
  apply bind_Ok_inv in H. destruct H as [entries [Hc H]].
  inversion H as [E]. clear H.
  apply collect_entries_Ok in Hc. destruct Hc as [Hl Hall].
  cbn [app] in Hl. subst entries.
  assert (Hraw : get_room_bookings_raw (cancel_booking db booking_id) room_id
                 = filter (fun b => negb (b_id b =? booking_id))
                          (get_room_bookings_raw db room_id)).
  { unfold get_room_bookings_raw, cancel_booking. cbn [bookings].
    rewrite active_after_cancel. symmetry. apply stable_sort_text_filter. }
  rewrite Hraw, collect_entries_success.
  - cbn [bind app]. rewrite entries_of_filter, stable_sort_filter. reflexivity.
  - intros b Hb. apply filter_In in Hb. destruct Hb as [Hb _].
    eexists. exact (Hall b Hb).
Qed.

Lemma cancel_booking_schedule_witness :
  let ws := ymd2ord 2024 1 2 in
  let we := ymd2ord 2024 1 4 in
  let daily d :=
    mk_entry 2 "standup" (mk_datetime 2024 1 d 10 0) (mk_datetime 2024 1 d 11 0)
             (Some "ann"%string) "Ann" (Some "daily"%string) in
  let single :=
    mk_entry 1 "standup" (mk_datetime 2024 1 3 10 0) (mk_datetime 2024 1 3 11 0)
             (Some "ann"%string) "Ann" None in
  get_room_schedule db_daily_and_single 1 ws we
  = Ok [daily 2; daily 3; single; daily 4] /\
  get_room_schedule (cancel_booking db_daily_and_single 2) 1 ws we = Ok [single].
Proof.
  intros ws we daily single.
  assert (H : get_room_schedule db_daily_and_single 1 ws we
              = Ok [daily 2; daily 3; single; daily 4]) by (vm_compute; reflexivity).
  split; [exact H |].
  rewrite (cancel_booking_schedule db_daily_and_single 2 1 ws we _ H).
  vm_compute. reflexivity.
Defined.

(** ** The rooms that the finder returns *)

(** X7. Whatever the finder returns, each room of it is a row of the
    [rooms] table that belongs to the company and is active: the finder
    never offers a room of another company or a room that is switched
    off. *)
Theorem find_free_rooms_of_company (db : database) (company_id : Z)
        (start end_ : datetime) (l : list room) (r : room) :
  find_free_rooms db company_id start end_ = Ok l ->
  In r l ->
  In r (rooms db) /\ r_company_id r = company_id /\ r_is_active r = true.
Proof.
  intros H Hr. unfold find_free_rooms in H.
  pose proof (scan_rooms_Ok db start end_ _ _ _ H) as Hall.
  rewrite (scan_rooms_success db start end_ _ [] Hall) in H.
  inversion H as [E]. cbn [app] in E. subst l. clear H.
  apply filter_In in Hr. destruct Hr as [Hr _].
  unfold active_rooms in Hr. apply In_stable_sort in Hr.
  apply filter_In in Hr. destruct Hr as [Hr Hc].
  apply andb_true_iff in Hc. destruct Hc as [Hc Ha].
  apply Z.eqb_eq in Hc. split; [exact Hr | split; [exact Hc | exact Ha]].
Qed.

Lemma find_free_rooms_of_company_witness :
  let start := mk_datetime 2024 1 2 10 30 in
  let end_ := mk_datetime 2024 1 2 11 30 in
  let l := [mk_room 1 7 "A" true; mk_room 3 7 "C" true] in
  let r := mk_room 3 7 "C" true in
  find_free_rooms db_three_rooms 7 start end_ = Ok l /\
  In r l /\
  In r (rooms db_three_rooms) /\ r_company_id r = 7 /\ r_is_active r = true.
Proof.
  intros start end_ l r.
  assert (H : find_free_rooms db_three_rooms 7 start end_ = Ok l)
    by (vm_compute; reflexivity).
  assert (Hr : In r l) by (right; left; reflexivity).
  split; [exact H | split; [exact Hr |]].
  exact (find_free_rooms_of_company db_three_rooms 7 start end_ l r H Hr).
Defined.

(** ** The weekday picker *)

Lemma remove_first_In (day x : Z) (selected : list Z) :
  In x (remove_first day selected) -> In x selected.
Proof.
  induction selected as [| y rest IH]; simpl; [tauto |].
  destruct (y =? day); simpl; intuition.
Qed.

Lemma remove_first_other (day x : Z) (selected : list Z) :
  x <> day -> In x selected -> In x (remove_first day selected).
Proof.
  intros Hx. induction selected as [| y rest IH]; simpl; [tauto |].
  destruct (Z.eqb_spec y day); simpl; intuition congruence.
Qed.

Lemma remove_first_NoDup (day : Z) (selected : list Z) :
  NoDup selected ->
  NoDup (remove_first day selected) /\ ~ In day (remove_first day selected).
Proof.
  induction 1 as [| y rest Hy Hnd IH]; simpl.
  - split; [constructor | tauto].
  - destruct (Z.eqb_spec y day) as [E | N].
    + subst y. split; assumption.
    + destruct IH as [IH1 IH2]. split.
      * constructor; [| exact IH1].
        intros Hin. apply Hy. exact (remove_first_In day y rest Hin).
      * simpl. intros [E | Hin]; [congruence | exact (IH2 Hin)].
Qed.

(** X8. A press on a weekday button flips that day and no other: on a
    selection without repetitions (the picker starts from the empty one),
    the new selection has no repetitions, contains the pressed day exactly
    when the old one did not, and contains any other day exactly when the
    old one did. *)
Theorem weekday_toggle_flips (day : Z) (selected : list Z) :
  NoDup selected ->
  NoDup (weekday_toggle day selected) /\
  (In day (weekday_toggle day selected) <-> ~ In day selected) /\
  (forall x, x <> day ->
             (In x (weekday_toggle day selected) <-> In x selected)).
Proof.
  intros Hnd. unfold weekday_toggle.
  destruct (mem day selected) eqn:Hm.
  - apply mem_In in Hm.
    destruct (remove_first_NoDup day selected Hnd) as [H1 H2].
    split; [exact H1 | split].
    + tauto.
    + intros x Hx. split;
        [apply remove_first_In | apply remove_first_other; exact Hx].
  - assert (Hn : ~ In day selected).
    { intros Hin. apply mem_In in Hin. congruence. }
    split; [| split].
    + apply NoDup_app; [exact Hnd | repeat constructor; simpl; tauto |].
      intros x Hx [E | []]. subst x. exact (Hn Hx).
    + rewrite in_app_iff. simpl. tauto.
    + intros x Hx. rewrite in_app_iff. simpl. intuition congruence.
Qed.

Lemma weekday_toggle_flips_witness :
  NoDup [0; 2; 4] /\
  weekday_toggle 2 [0; 2; 4] = [0; 4] /\
  NoDup (weekday_toggle 2 [0; 2; 4]) /\
  ~ In 2 (weekday_toggle 2 [0; 2; 4]).
Proof.
  assert (H : NoDup [0; 2; 4]).
  { repeat constructor; simpl; intuition discriminate. }
  split; [exact H | split; [reflexivity |]].
  destruct (weekday_toggle_flips 2 [0; 2; 4] H) as [Hnd [Hday _]].
  split; [exact Hnd |].
  intros Hin. apply Hday in Hin. apply Hin. simpl. tauto.
Defined.

(** ** The text of [recurrence_days] that the wizard writes *)






















(** ** One year ahead *)

Lemma is_leap_succ (year : Z) : is_leap year = true -> is_leap (year + 1) = false.
Proof.
  unfold is_leap. intros H. apply andb_true_iff in H. destruct H as [H _].
  apply Z.eqb_eq in H.
  replace ((year + 1) mod 4 =? 0) with false; [reflexivity |].
  symmetry. apply Z.eqb_neq. Z.to_euclidean_division_equations. lia.
Qed.

Lemma days_before_year_succ (year : Z) :
  days_before_year (year + 1) = days_before_year year + 365 + b2z (is_leap year).
Proof.
  unfold days_before_year, is_leap, b2z. cbv zeta.
  replace (year + 1 - 1) with year by lia.
  destruct (Z.eqb_spec (year mod 4) 0); destruct (Z.eqb_spec (year mod 100) 0);
    destruct (Z.eqb_spec (year mod 400) 0); cbn [andb orb negb];
    Z.to_euclidean_division_equations; lia.
Qed.

(** X11. The button for an end of the recurrence one year ahead: for the
    fields of a date that exists, [start_date.replace(year=year + 1)] fails
    exactly when the year is 9999 or the date is February 29; otherwise it is
    the same day and month of the next year, 365 days later, or 366 when a
    February 29 lies in between. *)
Theorem until_1year_spec (year month day : Z) :
  check_date_fields year month day = true ->
  (until_1year (year, month, day) = None <->
   year = 9999 \/ (month = 2 /\ day = 29)) /\
  (until_1year (year, month, day) <> None ->
   until_1year (year, month, day) = Some (year + 1, month, day) /\
   ymd2ord (year + 1) month day
   = ymd2ord year month day
     + (if is_leap (if 2 <? month then year + 1 else year) then 366 else 365)).
Proof.
  intros H. unfold check_date_fields in H.
  repeat (apply andb_true_iff in H; destruct H as [H ?]).
  repeat match goal with
         | Hx : (_ <=? _) = true |- _ => apply Z.leb_le in Hx
         end.
  assert (Hm : month = 1 \/ month = 2 \/ month = 3 \/ month = 4 \/ month = 5
               \/ month = 6 \/ month = 7 \/ month = 8 \/ month = 9
               \/ month = 10 \/ month = 11 \/ month = 12) by lia.
  unfold until_1year, check_date_fields.
  assert (Hdim : day <= days_in_month (year + 1) month <->
                 ~ (month = 2 /\ day = 29)).
  { unfold days_in_month in *.
    pose proof (is_leap_succ year) as Hl.
    destruct (is_leap year); destruct (is_leap (year + 1));
      try (specialize (Hl eq_refl); discriminate);
      repeat (destruct Hm as [Hm | Hm]; [subst month; simpl in *; lia |]);
      subst month; simpl in *; lia. }
  split.
  - destruct (Z.leb_spec 1 (year + 1)); [| lia].
    destruct (Z.leb_spec (year + 1) 9999);
      destruct (Z.leb_spec 1 month); try lia;
      destruct (Z.leb_spec month 12); try lia;
      destruct (Z.leb_spec 1 day); try lia;
      destruct (Z.leb_spec day (days_in_month (year + 1) month));
      cbn [andb]; split; intros; try discriminate; try tauto; try lia.
  - intros Hn. split.
    + destruct ((1 <=? year + 1) && (year + 1 <=? 9999) && (1 <=? month)
                && (month <=? 12) && (1 <=? day)
                && (day <=? days_in_month (year + 1) month));
        [reflexivity | contradiction].
    + unfold ymd2ord, days_before_month. rewrite days_before_year_succ.
      pose proof (is_leap_succ year) as Hl.
      destruct (Z.ltb_spec 2 month); cbn [andb];
        destruct (is_leap year); destruct (is_leap (year + 1));
        try (specialize (Hl eq_refl); discriminate);
        unfold b2z; lia.
Qed.

Lemma until_1year_spec_witness :
  check_date_fields 2024 2 29 = true /\ until_1year (2024, 2, 29) = None.
Proof.
  assert (H : check_date_fields 2024 2 29 = true) by reflexivity.
  split; [exact H |].
  apply (proj1 (until_1year_spec 2024 2 29 H)). right. split; reflexivity.
Defined.

(** ** The preset durations *)

Lemma available_durations_Ok (db : database) (room_id : option Z)
      (start_dt : datetime) (presets : list Z) :
  forall available_minutes l,
    available_durations db room_id start_dt presets available_minutes = Ok l ->
    l = available_minutes ++ filter (duration_free db room_id start_dt) presets /\
    (forall minutes r,
        In minutes presets -> room_given room_id = Some r ->
        exists c, check_conflicts db r start_dt (start_dt + minutes)
                                  None None None None = Ok c).
Proof.
  induction presets as [| minutes rest IH]; intros available_minutes l H.
  - cbn [available_durations] in H. inversion H. cbn [filter].
    rewrite app_nil_r. split; [reflexivity | intros m r []].
  - cbn [available_durations] in H.
    apply bind_Ok_inv in H. destruct H as [end_dt [He H]].
    apply datetime_add_Ok in He. destruct He as [He _]. subst end_dt.
    cbn [filter]. unfold duration_free at 1.
    destruct (room_given room_id) as [r |].
    + apply bind_Ok_inv in H. destruct H as [conflicts [Hc H]]. rewrite Hc.
      assert (Hhead : forall m r', In m (minutes :: rest) -> Some r = Some r' ->
                (forall m' r'', In m' rest -> Some r = Some r'' ->
                   exists c, check_conflicts db r'' start_dt (start_dt + m')
                                             None None None None = Ok c) ->
                exists c, check_conflicts db r' start_dt (start_dt + m)
                                          None None None None = Ok c).
      { intros m r' [E | Hin] Er Hrest.
        - inversion Er. subst. exists conflicts. exact Hc.
        - exact (Hrest m r' Hin Er). }
      destruct conflicts as [| c cs]; apply IH in H; destruct H as [Hl Hrest];
        subst l; (split; [| intros m r' Hin Er; exact (Hhead m r' Hin Er Hrest)]);
        [rewrite <- app_assoc |]; reflexivity.
    + apply IH in H. destruct H as [Hl _]. subst l.
      split; [rewrite <- app_assoc; reflexivity | discriminate].
Qed.

(** X12. The durations that [_proceed_to_duration] offers are the first
    presets: whenever the loop completes, its list is an initial part of
    30, 60, 90, 120 (a longer preset is never offered when a shorter one is
    not), it is all four when no room is chosen, and each offered duration
    gives a slot without conflict in the chosen room. *)
Theorem proceed_to_duration_prefix (db : database) (room_id : option Z)
        (start_dt : datetime) (l : list Z) :
  proceed_to_duration db room_id start_dt = Ok l ->
  (exists k, l = firstn k PRESET_MINUTES) /\
  (room_given room_id = None -> l = PRESET_MINUTES) /\
  (forall minutes r,
      In minutes l -> room_given room_id = Some r ->
      check_conflicts db r start_dt (start_dt + minutes) None None None None = Ok []).
Proof.
  intros H. unfold proceed_to_duration in H.
  apply available_durations_Ok in H. destruct H as [Hl Hall].
  cbn [app] in Hl.
  assert (Hfree : forall minutes r,
             room_given room_id = Some r ->
             duration_free db room_id start_dt minutes = true ->
             check_conflicts db r start_dt (start_dt + minutes) None None None None
             = Ok []).
  { intros m r Er Hf. unfold duration_free in Hf. rewrite Er in Hf.
    destruct (check_conflicts db r start_dt (start_dt + m) None None None None)
      as [[| c cs] | e |]; try discriminate. reflexivity. }
  assert (Hmono : forall m m', m' <= m ->
                    duration_free db room_id start_dt m = true ->
                    duration_free db room_id start_dt m' = true).
  { intros m m' Hle Hf.
    destruct (room_given room_id) as [r |] eqn:Er;
      [| unfold duration_free; rewrite Er; reflexivity].
    pose proof (Hfree m r eq_refl Hf) as Hc.
    apply (check_conflicts_cut_end _ _ _ _ (start_dt + m')) in Hc; [| lia].
    unfold duration_free. rewrite Er, Hc. reflexivity. }
  split; [| split].
  - subst l. unfold PRESET_MINUTES in *. cbn [filter].
    pose proof (Hmono 60 30 ltac:(lia)) as H1.
    pose proof (Hmono 90 60 ltac:(lia)) as H2.
    pose proof (Hmono 120 90 ltac:(lia)) as H3.
    destruct (duration_free db room_id start_dt 120);
      [rewrite (H3 eq_refl) in *; rewrite (H2 eq_refl) in *;
       rewrite (H1 eq_refl); exists 4%nat; reflexivity |].
    destruct (duration_free db room_id start_dt 90);
      [rewrite (H2 eq_refl) in *; rewrite (H1 eq_refl); exists 3%nat; reflexivity |].
    destruct (duration_free db room_id start_dt 60);
      [rewrite (H1 eq_refl); exists 2%nat; reflexivity |].
    destruct (duration_free db room_id start_dt 30);
      [exists 1%nat | exists 0%nat]; reflexivity.
  - intros Er. subst l. unfold PRESET_MINUTES, duration_free. rewrite Er.
    reflexivity.
  - intros m r Hin Er. subst l. apply filter_In in Hin.
    exact (Hfree m r Er (proj2 Hin)).
Qed.

Lemma proceed_to_duration_prefix_witness :
  let start_dt := mk_datetime 2024 1 2 9 0 in
  proceed_to_duration db_three_rooms (Some 2) start_dt = Ok [30; 60] /\
  check_conflicts db_three_rooms 2 start_dt (start_dt + 60) None None None None
  = Ok [].
Proof.
  intros start_dt.
  assert (H : proceed_to_duration db_three_rooms (Some 2) start_dt = Ok [30; 60])
    by (vm_compute; reflexivity).
  split; [exact H |].
  destruct (proceed_to_duration_prefix db_three_rooms (Some 2) start_dt _ H)
    as [_ [_ Hfree]].
  apply (Hfree 60 2); [simpl; tauto | reflexivity].
Defined.

(** X13. A preset that runs past midnight is turned down: the end that
    [cb_duration_slot] hands to [_apply_duration] is a time of day that is
    read on the booking date, so for a duration of at most a day the check
    [e <= s] of [_apply_duration] fires exactly when the start time plus the
    duration reaches 24:00; when it does not fire, the end is the start plus
    the duration. *)
Theorem duration_end_dt_same_day (start_dt : datetime) (minutes : Z) (e : datetime) :
  0 < minutes <= 1440 ->
  duration_end_dt start_dt minutes = Ok e ->
  end_not_after_start start_dt e = negb (time_of start_dt + minutes <? 1440) /\
  (time_of start_dt + minutes < 1440 -> e = start_dt + minutes).
Proof.
  intros Hm H. unfold duration_end_dt in H.
  apply bind_Ok_inv in H. destruct H as [end_dt [He H]].
  apply datetime_add_Ok in He. destruct He as [He _]. subst end_dt.
  inversion H as [E]. clear H.
  unfold end_not_after_start, combine, date_of, time_of, MINUTES_PER_DAY in *.
  pose proof (Z.div_mod start_dt 1440 ltac:(lia)) as Hd.
  pose proof (Z.mod_pos_bound start_dt 1440 ltac:(lia)) as Hb.
  destruct (Z.ltb_spec (start_dt mod 1440 + minutes) 1440) as [Hlt | Hge];
    cbn [negb].
  - assert (Et : (start_dt + minutes) mod 1440 = start_dt mod 1440 + minutes).
    { symmetry. apply (Z.mod_unique _ _ (start_dt / 1440)); lia. }
    rewrite Et. split; [apply Z.leb_gt; lia | lia].
  - assert (Et : (start_dt + minutes) mod 1440 = start_dt mod 1440 + minutes - 1440).
    { symmetry. apply (Z.mod_unique _ _ (start_dt / 1440 + 1)); lia. }
    rewrite Et. split; [apply Z.leb_le; lia | lia].
Qed.

Lemma duration_end_dt_same_day_witness :
  let start_dt := mk_datetime 2024 1 2 23 30 in
  0 < 60 <= 1440 /\
  proceed_to_duration db_three_rooms (Some 2) start_dt = Ok [30; 60; 90; 120] /\
  duration_end_dt start_dt 60 = Ok (mk_datetime 2024 1 2 0 30) /\
  end_not_after_start start_dt (mk_datetime 2024 1 2 0 30) = true.
Proof.
  intros start_dt.
  assert (Hm : 0 < 60 <= 1440) by lia.
  assert (H : duration_end_dt start_dt 60 = Ok (mk_datetime 2024 1 2 0 30))
    by (vm_compute; reflexivity).
  split; [exact Hm | split; [vm_compute; reflexivity | split; [exact H |]]].
  rewrite (proj1 (duration_end_dt_same_day start_dt 60 _ Hm H)).
  vm_compute. reflexivity.
Defined.

(** ** The free half hours that the wizard offers *)

Lemma firstn_full {A : Type} (l tail : list A) (k : nat) :
  List.length l = k -> firstn k (l ++ tail) = l.
Proof.
  intros H. subst k. rewrite firstn_app, Nat.sub_diag, firstn_all. cbn [firstn].
  apply app_nil_r.
Qed.

Lemma In_firstn {A : Type} (x : A) (k : nat) (l : list A) :
  In x (firstn k l) -> In x l.
Proof.
  intros H. rewrite <- (firstn_skipn k l). apply in_or_app. left. exact H.
Qed.

Section Slots.

Variables (db : database) (booking_date : date) (room_id n : Z).
Variables (start_h start_m : Z).
Hypothesis Hn : 1 <= n.

Local Abbreviation N := (Z.to_nat n).
Local Abbreviation free_of := (filter (slot_free db booking_date room_id)).
Local Abbreviation wanted := (filter (slot_wanted start_h start_m)).
Local Abbreviation inner := (half_hours_of db booking_date room_id n start_h start_m).

(** One slot of the inner loop: the function returns with [n] slots, or the
    loop goes on (or is left by [break]) with fewer. *)
Lemma half_hours_of_cons (h m : Z) (rest : list Z) (free_slots : list (Z * Z))
      (c : control (list (Z * Z))) :
  m = 0 \/ m = 30 ->
  (List.length free_slots < N)%nat ->
  inner h (m :: rest) free_slots = Ok c ->
  let free_slots' := free_slots ++ free_of (wanted [(h, m)]) in
  (List.length free_slots' = N /\ c = Return free_slots')
  \/ ((List.length free_slots' < N)%nat /\
      (inner h rest free_slots' = Ok c
       \/ (1440 <= h * 60 + m + 30 /\ c = Next free_slots'))).
Proof.
  intros Hm Hlen H. cbn [half_hours_of] in H. cbv zeta in H. cbv zeta.
  cbn [filter]. unfold slot_wanted. cbn [fst snd].
  destruct ((h =? start_h) && (m <? start_m)) eqn:Hskip; cbn [negb andb].
  { cbn [filter]. rewrite app_nil_r. right. split; [exact Hlen | left; exact H]. }
  assert (Hend : (h + (m + 30) / 60 >=? 24) = negb (h * 60 + m + 30 <? 1440)).
  { destruct Hm; subst m.
    - change ((0 + 30) / 60) with 0.
      destruct (Z.geb_spec (h + 0) 24); destruct (Z.ltb_spec (h * 60 + 0 + 30) 1440);
        try reflexivity; lia.
    - change ((30 + 30) / 60) with 1.
      destruct (Z.geb_spec (h + 1) 24); destruct (Z.ltb_spec (h * 60 + 30 + 30) 1440);
        try reflexivity; lia. }
  rewrite Hend in H.
  destruct (Z.ltb_spec (h * 60 + m + 30) 1440) as [Hin | Hout]; cbn [negb] in H.
  2:{ cbn [filter]. rewrite app_nil_r. inversion H. right.
      split; [exact Hlen | right; split; [lia | reflexivity]]. }
  assert (Hslot : combine booking_date ((h + (m + 30) / 60) * 60 + (m + 30) mod 60)
                  = combine booking_date (h * 60 + m) + 30).
  { unfold combine. destruct Hm; subst m.
    - change ((0 + 30) / 60) with 0. change ((0 + 30) mod 60) with 30. lia.
    - change ((30 + 30) / 60) with 1. change ((30 + 30) mod 60) with 0. lia. }
  rewrite Hslot in H.
  assert (Hfree : slot_free db booking_date room_id (h, m)
                  = match check_conflicts db room_id
                                          (combine booking_date (h * 60 + m))
                                          (combine booking_date (h * 60 + m) + 30)
                                          None None None None with
                    | Ok [] => true
                    | _ => false
                    end) by reflexivity.
  destruct (check_conflicts db room_id (combine booking_date (h * 60 + m))
                            (combine booking_date (h * 60 + m) + 30)
                            None None None None) as [[| c0 cs] | e |];
    cbn [bind] in H; try discriminate; cbn [filter]; rewrite Hfree.
  - unfold len in H. rewrite length_app in *. cbn [List.length] in *.
    destruct (Z.geb_spec (Z.of_nat (List.length free_slots + 1)) n) as [Hge | Hlt].
    + inversion H. left. split; [lia | reflexivity].
    + right. split; [lia | left; exact H].
  - rewrite app_nil_r. unfold len in H.
    destruct (Z.geb_spec (Z.of_nat (List.length free_slots)) n) as [Hge | Hlt];
      [lia |].
    right. split; [exact Hlen | left; exact H].
Qed.

(** The two slots of one hour. *)
Lemma half_hours_of_hour (h : Z) (free_slots : list (Z * Z))
      (c : control (list (Z * Z))) :
  (List.length free_slots < N)%nat ->
  inner h [0; 30] free_slots = Ok c ->
  let free_slots' := free_slots ++ free_of (wanted [(h, 0); (h, 30)]) in
  match c with
  | Next l => l = free_slots' /\ (List.length l < N)%nat
  | Return l => l = firstn N free_slots' /\ List.length l = N
  end.
Proof.
  intros Hlen H. cbv zeta.
  change [(h, 0); (h, 30)] with ([(h, 0)] ++ [(h, 30)]).
  rewrite !filter_app, app_assoc.
  destruct (half_hours_of_cons h 0 [30] free_slots c (or_introl eq_refl) Hlen H)
    as [[Hl Hc] | [Hl [H' | [Hb Hc]]]].
  - subst c. split; [| exact Hl]. symmetry. apply firstn_full. exact Hl.
  - destruct (half_hours_of_cons h 30 [] _ c (or_intror eq_refl) Hl H')
      as [[Hl2 Hc] | [Hl2 [H2 | [Hb Hc]]]].
    + subst c. split; [| exact Hl2].
      rewrite <- (app_nil_r (_ ++ free_of (wanted [(h, 30)]))) at 2.
      symmetry. apply firstn_full. exact Hl2.
    + cbn [half_hours_of] in H2. inversion H2. split; [reflexivity | exact Hl2].
    + subst c. split; [reflexivity | exact Hl2].
  - subst c.
    assert (Hw : wanted [(h, 30)] = []).
    { cbn [filter]. unfold slot_wanted. cbn [fst snd].
      replace (h * 60 + 30 + 30 <? 1440) with false
        by (symmetry; apply Z.ltb_ge; lia).
      rewrite andb_false_r. reflexivity. }
    rewrite Hw. cbn [filter]. rewrite app_nil_r. split; [reflexivity | exact Hl].
Qed.

Lemma hours_from_spec (hs : list Z) :
  forall (free_slots l : list (Z * Z)),
    (List.length free_slots < N)%nat ->
    hours_from db booking_date room_id n start_h start_m hs free_slots = Ok l ->
    l = firstn N (free_slots
                  ++ free_of (wanted (flat_map (fun h => [(h, 0); (h, 30)]) hs))).
Proof.
  induction hs as [| h rest IH]; intros free_slots l Hlen H.
  - cbn [hours_from] in H. inversion H. subst l.
    cbn [flat_map filter]. rewrite app_nil_r.
    symmetry. apply firstn_all2. lia.
  - cbn [hours_from] in H. apply bind_Ok_inv in H. destruct H as [c [Hc H]].
    apply (half_hours_of_hour h free_slots c Hlen) in Hc.
    cbn [flat_map]. rewrite !filter_app, app_assoc.
    destruct c as [f | f]; destruct Hc as [Hf Hl].
    + rewrite <- Hf. exact (IH f l Hl H).
    + inversion H. subst l.
      rewrite Hf in Hl. rewrite length_firstn in Hl.
      rewrite Hf at 1. symmetry. rewrite firstn_app.
      match goal with
      | |- context [firstn ?k (free_of _)] => replace k with 0%nat by lia
      end.
      cbn [firstn]. apply app_nil_r.
Qed.

End Slots.

(** X14. The slots that [_next_half_hour_slots] returns for [n >= 1] are
    the first [n] free half hours of the day from the starting time on
    (fewer when the day has fewer): it looks at the half hours on the hour
    and at half past, from hour [start_h] and not before minute [start_m]
    within it, up to the one that starts at 23:00. So it returns at most
    [n] slots, each without conflict in the room, and never the half hour
    from 23:30 to midnight. *)
Theorem next_half_hour_slots_earliest (db : database) (now : datetime)
        (booking_date : date) (room_id n : Z) (l : list (Z * Z)) :
  1 <= n ->
  next_half_hour_slots db now booking_date room_id n = Ok l ->
  let '(start_h, start_m) :=
    if booking_date =? date_of now then (time_of now / 60, time_of now mod 60)
    else (11, 0) in
  l = firstn (Z.to_nat n)
             (filter (slot_free db booking_date room_id)
                     (slot_candidates start_h start_m)) /\
  len l <= n /\
  forall h m, In (h, m) l ->
              slot_free db booking_date room_id (h, m) = true /\
              start_h <= h <= 23 /\ (m = 0 \/ m = 30) /\
              ~ (h = start_h /\ m < start_m) /\ ~ (h = 23 /\ m = 30).
Proof.
  intros Hn H. unfold next_half_hour_slots in H. cbv zeta in H.
  destruct (if booking_date =? date_of now
            then (time_of now / 60, time_of now mod 60) else (11, 0))
    as [start_h start_m].
  apply (hours_from_spec db booking_date room_id n start_h start_m Hn) in H;
    [| cbn [List.length]; lia].
  cbn [app] in H. fold (slot_candidates start_h start_m) in H.
  split; [exact H | split].
  - subst l. unfold len. rewrite length_firstn. lia.
  - intros h m Hin. subst l. apply In_firstn in Hin.
    apply filter_In in Hin. destruct Hin as [Hin Hfree].
    unfold slot_candidates in Hin. apply filter_In in Hin.
    destruct Hin as [Hin Hw]. apply in_flat_map in Hin.
    destruct Hin as [h' [Hh' Hin]].
    unfold range in Hh'. apply in_map_iff in Hh'. destruct Hh' as [i [Ei Hi]].
    apply in_seq in Hi.
    unfold slot_wanted in Hw. cbn [fst snd] in Hw.
    apply andb_true_iff in Hw. destruct Hw as [Hskip Hend].
    apply negb_true_iff in Hskip. apply Z.ltb_lt in Hend.
    assert (Hm : m = 0 \/ m = 30).
    { destruct Hin as [E | [E | []]]; inversion E; [left | right]; reflexivity. }
    assert (Hh : h = h').
    { destruct Hin as [E | [E | []]]; inversion E; reflexivity. }
    split; [exact Hfree |].
    split; [lia |]. split; [exact Hm |]. split.
    + intros [E Hlt]. apply andb_false_iff in Hskip.
      destruct Hskip as [Hs | Hs];
        [apply Z.eqb_neq in Hs; lia | apply Z.ltb_ge in Hs; lia].
    + intros [E1 E2]. lia.
Qed.

Lemma next_half_hour_slots_earliest_witness :
  let now := mk_datetime 2024 1 2 9 10 in
  let booking_date := ymd2ord 2024 1 2 in
  1 <= 4 /\
  next_half_hour_slots db_three_rooms now booking_date 2 4
  = Ok [(9, 30); (11, 0); (11, 30); (12, 0)] /\
  slot_free db_three_rooms booking_date 2 (11, 0) = true.
Proof.
  intros now booking_date.
  assert (Hn : 1 <= 4) by lia.
  assert (H : next_half_hour_slots db_three_rooms now booking_date 2 4
              = Ok [(9, 30); (11, 0); (11, 30); (12, 0)])
    by (vm_compute; reflexivity).
  split; [exact Hn | split; [exact H |]].
  pose proof (next_half_hour_slots_earliest db_three_rooms now booking_date 2 4 _
                                            Hn H) as Hspec.
  change (if booking_date =? date_of now
          then (time_of now / 60, time_of now mod 60) else (11, 0))
    with (9, 10) in Hspec.
  destruct Hspec as [_ [_ Hall]].
  apply (Hall 11 0). simpl. tauto.
Defined.

(** ** The week of the schedule *)

(** X15. The week that [cb_room_schedule] shows runs from a Monday to the
    Sunday after it: whenever the date arithmetic stays within the calendar,
    [week_start] is the Monday of today's week moved by [week_offset] weeks,
    [week_end] is six days later, and for offset 0 the week contains
    today. *)
Theorem schedule_week_monday_to_sunday (today : date) (week_offset : Z)
        (week_start week_end : date) :
  schedule_week today week_offset = Ok (week_start, week_end) ->
  weekday week_start = 0 /\ weekday week_end = 6 /\
  week_end = week_start + 6 /\
  week_start = today - weekday today + 7 * week_offset /\
  (week_offset = 0 -> week_start <= today <= week_end).
Proof.
  unfold schedule_week. intros H.
  apply bind_Ok_inv in H. destruct H as [monday [Hm H]].
  apply bind_Ok_inv in H. destruct H as [ws [Hs H]].
  apply bind_Ok_inv in H. destruct H as [we [He H]].
  inversion H. subst ws we. clear H.
  apply date_add_days_Ok in Hm. apply date_add_days_Ok in Hs.
  apply date_add_days_Ok in He.
  destruct Hm as [Hm _]. destruct Hs as [Hs _]. destruct He as [He _].
  unfold weekday in *.
  pose proof (Z.mod_pos_bound (today + 6) 7 ltac:(lia)) as Hb.
  pose proof (Z.div_mod (today + 6) 7 ltac:(lia)) as Hd.
  assert (Hw : (week_start + 6) mod 7 = 0).
  { replace (week_start + 6)
      with (0 + ((today + 6) / 7 + week_offset) * 7) by lia.
    rewrite Z.mod_add by lia. reflexivity. }
  split; [exact Hw |].
  split; [| lia].
  replace (week_end + 6) with (6 + ((today + 6) / 7 + week_offset) * 7) by lia.
  rewrite Z.mod_add by lia. reflexivity.
Qed.

Lemma schedule_week_monday_to_sunday_witness :
  schedule_week (ymd2ord 2024 1 3) 1 = Ok (ymd2ord 2024 1 8, ymd2ord 2024 1 14) /\
  weekday (ymd2ord 2024 1 8) = 0 /\ weekday (ymd2ord 2024 1 14) = 6.
Proof.
  assert (H : schedule_week (ymd2ord 2024 1 3) 1
              = Ok (ymd2ord 2024 1 8, ymd2ord 2024 1 14))
    by (vm_compute; reflexivity).
  split; [exact H |].
  destruct (schedule_week_monday_to_sunday _ _ _ _ H) as [H0 [H6 _]].
  split; [exact H0 | exact H6].
Defined.

(** ** The week view *)

Lemma get_day_setdefault (d d' : date) (slot : schedule_entry)
      (by_day : list (date * list schedule_entry)) :
  get_day (setdefault_append d' slot by_day) d
  = get_day by_day d ++ (if d' =? d then [slot] else []).
Proof.
  induction by_day as [| [k v] rest IH]; cbn [setdefault_append get_day].
  - destruct (d' =? d); reflexivity.
  - destruct (Z.eqb_spec k d') as [E | N]; cbn [get_day].
    + subst k. destruct (d' =? d); [reflexivity | rewrite app_nil_r; reflexivity].
    + destruct (Z.eqb_spec k d) as [E' | N']; [| exact IH].
      subst k. replace (d' =? d) with false by (symmetry; apply Z.eqb_neq; congruence).
      rewrite app_nil_r. reflexivity.
Qed.

Lemma get_day_group (d : date) (schedule : list schedule_entry) :
  get_day (group_by_day schedule) d = filter (starts_on d) schedule.
Proof.
  unfold group_by_day.
  assert (H : forall by_day,
             get_day (fold_left
                        (fun by_day slot =>
                           setdefault_append (date_of (s_start_dt slot)) slot by_day)
                        schedule by_day) d
             = get_day by_day d ++ filter (starts_on d) schedule).
  { induction schedule as [| e rest IH]; intros by_day; cbn [fold_left filter].
    - rewrite app_nil_r. reflexivity.
    - rewrite IH, get_day_setdefault, <- app_assoc. f_equal.
      unfold starts_on at 2. destruct (date_of (s_start_dt e) =? d); reflexivity. }
  rewrite H. reflexivity.
Qed.

Lemma week_loop_success (by_day : list (date * list schedule_entry))
      (week_end : date) (fuel : nat) :
  forall (current : date) (days : list (date * list schedule_entry)),
    (Z.to_nat (week_end + 1 - current) < fuel)%nat ->
    (current <= week_end -> 0 <= current /\ week_end < MAXORD) ->
    week_loop fuel by_day week_end current days
    = Ok (days ++ map (fun d => (d, get_day by_day d))
                      (dates_between current week_end)).
Proof.
  induction fuel as [| fuel IH]; intros current days Hf Hb; [lia |].
  cbn [week_loop]. destruct (current <=? week_end) eqn:E.
  - apply Z.leb_le in E. destruct (Hb E) as [Hc Hm]. cbv zeta.
    rewrite date_add_days_in_range by (unfold MINORD; lia). cbn [bind].
    rewrite IH; [| lia | intros _; lia].
    rewrite (dates_between_cons current week_end E). cbn [map].
    rewrite <- app_assoc. reflexivity.
  - apply Z.leb_gt in E.
    rewrite dates_between_empty by lia. cbn [map]. rewrite app_nil_r. reflexivity.
Qed.

(** A list in ascending order of its dates, none before [lo], starts with
    its entries of [lo]. *)
Lemma ascending_first_day (lo : date) (l : list schedule_entry) :
  StronglySorted (fun a b => s_start_dt a <= s_start_dt b) l ->
  (forall e, In e l -> lo <= date_of (s_start_dt e)) ->
  l = filter (starts_on lo) l ++ filter (fun e => negb (starts_on lo e)) l.
Proof.
  induction 1 as [| x l Hs IH Hx]; intros Hlo; [reflexivity |].
  cbn [filter]. destruct (starts_on lo x) eqn:E; cbn [negb app].
  - f_equal. apply IH. intros e He. apply Hlo. right. exact He.
  - assert (Hnone : forall e, In e l -> starts_on lo e = false).
    { intros e He. rewrite Forall_forall in Hx. specialize (Hx e He).
      unfold starts_on in *. apply Z.eqb_neq in E. apply Z.eqb_neq.
      pose proof (Hlo x (or_introl eq_refl)) as H1.
      assert (date_of (s_start_dt x) <= date_of (s_start_dt e)).
      { unfold date_of, MINUTES_PER_DAY. apply Z.div_le_mono; lia. }
      lia. }
    replace (filter (starts_on lo) l) with (@nil schedule_entry).
    + cbn [app]. f_equal. clear IH Hs Hx Hlo E.
      induction l as [| y l IHl]; [reflexivity |].
      cbn [filter]. rewrite (Hnone y (or_introl eq_refl)). cbn [negb].
      f_equal. apply IHl. intros e He. apply Hnone. right. exact He.
    + symmetry. clear IH Hs Hx Hlo E.
      induction l as [| y l IHl]; [reflexivity |].
      cbn [filter]. rewrite (Hnone y (or_introl eq_refl)).
      apply IHl. intros e He. apply Hnone. right. exact He.
Qed.

Lemma flat_map_ext_In {A B : Type} (f g : A -> list B) (l : list A) :
  (forall x, In x l -> f x = g x) -> flat_map f l = flat_map g l.
Proof.
  induction l as [| x l IH]; intros H; [reflexivity |].
  cbn [flat_map]. rewrite (H x (or_introl eq_refl)), IH; [reflexivity |].
  intros y Hy. apply H. right. exact Hy.
Qed.

Lemma days_partition (n : nat) :
  forall (lo : date) (l : list schedule_entry),
    StronglySorted (fun a b => s_start_dt a <= s_start_dt b) l ->
    (forall e, In e l -> lo <= date_of (s_start_dt e) < lo + Z.of_nat n) ->
    flat_map (fun d => filter (starts_on d) l) (dates_from n lo) = l.
Proof.
  induction n as [| n IH]; intros lo l Hs Hin.
  - destruct l as [| e l]; [reflexivity |].
    specialize (Hin e (or_introl eq_refl)). lia.
  - cbn [dates_from flat_map].
    assert (Hsplit : l = filter (starts_on lo) l
                         ++ filter (fun e => negb (starts_on lo e)) l).
    { apply ascending_first_day; [exact Hs |].
      intros e He. specialize (Hin e He). lia. }
    etransitivity; [| symmetry; exact Hsplit]. f_equal.
    rewrite <- (IH (lo + 1) (filter (fun e => negb (starts_on lo e)) l)).
    + apply flat_map_ext_In. intros d Hd. apply In_dates_from in Hd.
      rewrite filter_and. apply filter_ext. intros e. unfold starts_on.
      destruct (Z.eqb_spec (date_of (s_start_dt e)) d);
        destruct (Z.eqb_spec (date_of (s_start_dt e)) lo);
        try reflexivity. lia.
    + apply filter_sorted. exact Hs.
    + intros e He. apply filter_In in He. destruct He as [He Hne].
      specialize (Hin e He). unfold starts_on in Hne.
      apply negb_true_iff in Hne. apply Z.eqb_neq in Hne. lia.
Qed.

Lemma get_room_schedule_shape (db : database) (room_id : Z) (ws we : date)
      (l : list schedule_entry) :
  get_room_schedule db room_id ws we = Ok l ->
  StronglySorted (fun a b => s_start_dt a <= s_start_dt b) l /\
  forall e, In e l -> ws <= date_of (s_start_dt e) <= we.
Proof.
  intros H. unfold get_room_schedule in H.
  apply bind_Ok_inv in H. destruct H as [entries [Hc H]].
  apply collect_entries_Ok in Hc. destruct Hc as [Hl Hall].
  cbn [app] in Hl. subst entries. inversion H as [E]. clear H. split.
  - apply stable_sort_sorted.
  - intros e He. apply In_stable_sort in He. apply in_flat_map in He.
    destruct He as [b [Hb He]]. unfold entries_of in He.
    apply in_map_iff in He. destruct He as [occ [He Ho]]. subst e.
    cbn [entry_of s_start_dt].
    exact (expand_occurrences_in_window (as_row b) ws we _ (Hall b Hb) occ Ho).
Qed.

(** X16. The week view shows every entry of the week once, under its day:
    for the week that [cb_room_schedule] computes and the schedule that
    [get_room_schedule] returns for it, the loop of [_build_schedule_text]
    completes, goes through the seven days from Monday to Sunday, lists
    under each day the entries that start on it, in the order of the
    schedule, and the days' lists, put one after the other, are the
    schedule. *)
Theorem build_schedule_days_week (db : database) (room_id : Z) (today : date)
        (week_offset : Z) (week_start week_end : date)
        (schedule : list schedule_entry) :
  schedule_week today week_offset = Ok (week_start, week_end) ->
  get_room_schedule db room_id week_start week_end = Ok schedule ->
  build_schedule_days week_start week_end schedule
  = Ok (map (fun d => (d, filter (starts_on d) schedule))
            (dates_between week_start week_end)) /\
  dates_between week_start week_end
  = [week_start; week_start + 1; week_start + 2; week_start + 3;
     week_start + 4; week_start + 5; week_start + 6] /\
  flat_map (fun d => filter (starts_on d) schedule)
           (dates_between week_start week_end) = schedule.
Proof.
  intros Hw Hs. unfold schedule_week in Hw.
  apply bind_Ok_inv in Hw. destruct Hw as [monday [Hm Hw]].
  apply bind_Ok_inv in Hw. destruct Hw as [ws [Hws Hw]].
  apply bind_Ok_inv in Hw. destruct Hw as [we [Hwe Hw]].
  inversion Hw. subst ws we. clear Hw.
  apply date_add_days_Ok in Hm. apply date_add_days_Ok in Hws.
  apply date_add_days_Ok in Hwe.
  destruct Hm as [Hm _]. destruct Hws as [Hws Hr1]. destruct Hwe as [Hwe Hr2].
  assert (Hsunday : (week_end + 6) mod 7 = 6).
  { unfold weekday in *.
    pose proof (Z.div_mod (today + 6) 7 ltac:(lia)) as Hd.
    replace (week_end + 6) with (6 + ((today + 6) / 7 + week_offset) * 7) by lia.
    rewrite Z.mod_add by lia. reflexivity. }
  assert (Hlt : week_end < MAXORD).
  { unfold MINORD, MAXORD in *.
    assert (week_end <> 3652059) by (intros E; rewrite E in Hsunday; discriminate).
    lia. }
  destruct (get_room_schedule_shape db room_id _ _ _ Hs) as [Hsorted Hin].
  split; [| split].
  - unfold build_schedule_days.
    rewrite week_loop_success.
    + cbn [app]. f_equal. apply map_ext. intros d.
      rewrite get_day_group. reflexivity.
    + unfold loop_fuel. lia.
    + intros _. split; [unfold MINORD in *; lia | exact Hlt].
  - subst week_end. unfold dates_between.
    replace (Z.to_nat (week_start + 6 + 1 - week_start)) with 7%nat by lia.
    cbn [dates_from]. repeat (apply f_equal2; [lia |]). reflexivity.
  - unfold dates_between. apply days_partition; [exact Hsorted |].
    intros e He. specialize (Hin e He). lia.
Qed.

Lemma build_schedule_days_week_witness :
  let today := ymd2ord 2024 1 3 in
  let week_start := ymd2ord 2024 1 1 in
  let week_end := ymd2ord 2024 1 7 in
  let entry id d :=
    mk_entry id "standup" (mk_datetime 2024 1 d 10 0) (mk_datetime 2024 1 d 11 0)
             (Some "ann"%string) "Ann" None in
  let schedule := [entry 2 2; entry 1 3] in
  schedule_week today 0 = Ok (week_start, week_end) /\
  get_room_schedule db_two_bookings 1 week_start week_end = Ok schedule /\
  build_schedule_days week_start week_end schedule
  = Ok [(week_start, []); (week_start + 1, [entry 2 2]);
        (week_start + 2, [entry 1 3]); (week_start + 3, []);
        (week_start + 4, []); (week_start + 5, []); (week_start + 6, [])].
Proof.
  intros today week_start week_end entry schedule.
  assert (Hw : schedule_week today 0 = Ok (week_start, week_end))
    by (vm_compute; reflexivity).
  assert (Hs : get_room_schedule db_two_bookings 1 week_start week_end = Ok schedule)
    by (vm_compute; reflexivity).
  split; [exact Hw | split; [exact Hs |]].
  destruct (build_schedule_days_week db_two_bookings 1 today 0 week_start week_end
                                     schedule Hw Hs) as [Hb [Hd _]].
  rewrite Hb, Hd. vm_compute. reflexivity.
Defined.

(** ** Occurrences of one definition *)

Lemma occurrences_apart (b : row) (ds : list date) :
  end_dt b - start_dt b <= 1440 ->
  StronglySorted Z.lt ds ->
  StronglySorted (fun x y : occurrence => snd x <= fst y) (map (occurrence_on b) ds).
Proof.
  intros Hdur. induction 1 as [| d ds Hs IH Hd]; cbn [map]; constructor.
  - exact IH.
  - apply Forall_forall. intros o Ho. apply in_map_iff in Ho.
    destruct Ho as [d' [Eo Hd']]. subst o.
    rewrite Forall_forall in Hd. specialize (Hd d' Hd').
    unfold occurrence_on, occurrence_at, combine, MINUTES_PER_DAY.
    cbn [fst snd]. lia.
Qed.

(** X17. The occurrences of one definition do not overlap each other when
    its slot is at most 24 hours long: in whatever the expander returns for
    such a row, every occurrence ends no later than each occurrence after
    it starts. *)
Theorem expand_occurrences_disjoint (b : row) (ws we : date) (l : list occurrence) :
  expand_occurrences b ws we = Ok l ->
  end_dt b - start_dt b <= 1440 ->
  StronglySorted (fun x y : occurrence => snd x <= fst y) l.
Proof.
  intros H Hdur. destruct (recurrence_type b) as [rec_type |] eqn:Hk.
  - apply (expand_recurring_Ok b rec_type ws we l Hk) in H. subst l.
    apply occurrences_apart; [exact Hdur |].
    apply filter_sorted. apply dates_between_sorted.
  - unfold expand_occurrences in H. rewrite Hk in H.
    destruct ((ws <=? date_of (start_dt b)) && (date_of (start_dt b) <=? we));
      inversion H; repeat constructor.
Qed.

Lemma expand_occurrences_disjoint_witness :
  let b := slot_10_to_11 (ymd2ord 2024 1 1) (Some "daily"%string) None
                         (Some (ymd2ord 2024 1 3)) in
  let l := [(mk_datetime 2024 1 1 10 0, mk_datetime 2024 1 1 11 0);
            (mk_datetime 2024 1 2 10 0, mk_datetime 2024 1 2 11 0);
            (mk_datetime 2024 1 3 10 0, mk_datetime 2024 1 3 11 0)] in
  expand_occurrences b (ymd2ord 2024 1 1) (ymd2ord 2024 1 31) = Ok l /\
  end_dt b - start_dt b <= 1440 /\
  StronglySorted (fun x y : occurrence => snd x <= fst y) l.
Proof.
  intros b l.
  assert (H : expand_occurrences b (ymd2ord 2024 1 1) (ymd2ord 2024 1 31) = Ok l)
    by (vm_compute; reflexivity).
  assert (Hd : end_dt b - start_dt b <= 1440) by (vm_compute; discriminate).
  split; [exact H | split; [exact Hd |]].
  exact (expand_occurrences_disjoint b _ _ l H Hd).
Defined.

(** ** Shorter slots and the finder *)

Lemma is_free_shorter (db : database) (start end_ end' : datetime) (r : room) :
  end' <= end_ ->
  is_free db start end_ r = true -> is_free db start end' r = true.
Proof.
  intros Hend H. unfold is_free in *.
  destruct (check_conflicts db (r_id r) start end_ None None None None)
    as [[| c cs] | e |] eqn:Hc; try discriminate.
  rewrite (check_conflicts_cut_end _ _ _ _ end' _ _ _ _ Hc Hend). reflexivity.
Qed.

(** X18. Asking for a shorter slot never loses a room: if the finder
    returns for the slot from [start] to [end_], it returns for every
    earlier end, and every room of the first answer is in the second. *)
Theorem find_free_rooms_shorter_slot (db : database) (company_id : Z)
        (start end_ end' : datetime) (l : list room) :
  find_free_rooms db company_id start end_ = Ok l ->
  end' <= end_ ->
  exists l', find_free_rooms db company_id start end' = Ok l' /\
             forall r, In r l -> In r l'.
Proof.
  intros H Hend. unfold find_free_rooms in *.
  pose proof (scan_rooms_Ok db start end_ _ _ _ H) as Hall.
  rewrite (scan_rooms_success db start end_ _ [] Hall) in H.
  inversion H as [E]. clear H. cbn [app].
  assert (Hall' : forall r, In r (active_rooms db company_id) ->
                    exists c, check_conflicts db (r_id r) start end'
                                              None None None None = Ok c).
  { intros r Hr. destruct (Hall r Hr) as [c Hc]. eexists.
    exact (check_conflicts_cut_end _ _ _ _ end' _ _ _ _ Hc Hend). }
  rewrite (scan_rooms_success db start end' _ [] Hall'). cbn [app].
  eexists. split; [reflexivity |].
  intros r Hr. apply filter_In in Hr. destruct Hr as [Hr Hf].
  apply filter_In. split; [exact Hr |].
  exact (is_free_shorter db start end_ end' r Hend Hf).
Qed.

Lemma find_free_rooms_shorter_slot_witness :
  let start := mk_datetime 2024 1 2 9 30 in
  find_free_rooms db_three_rooms 7 start (mk_datetime 2024 1 2 10 30)
  = Ok [mk_room 1 7 "A" true; mk_room 3 7 "C" true] /\
  mk_datetime 2024 1 2 10 0 <= mk_datetime 2024 1 2 10 30 /\
  find_free_rooms db_three_rooms 7 start (mk_datetime 2024 1 2 10 0)
  = Ok [mk_room 1 7 "A" true; mk_room 2 7 "B" true; mk_room 3 7 "C" true] /\
  exists l', find_free_rooms db_three_rooms 7 start (mk_datetime 2024 1 2 10 0)
             = Ok l' /\ In (mk_room 3 7 "C" true) l'.
Proof.
  intros start.
  assert (H : find_free_rooms db_three_rooms 7 start (mk_datetime 2024 1 2 10 30)
              = Ok [mk_room 1 7 "A" true; mk_room 3 7 "C" true])
    by (vm_compute; reflexivity).
  assert (Hle : mk_datetime 2024 1 2 10 0 <= mk_datetime 2024 1 2 10 30)
    by (vm_compute; discriminate).
  split; [exact H | split; [exact Hle | split; [vm_compute; reflexivity |]]].
  destruct (find_free_rooms_shorter_slot db_three_rooms 7 start _
                                         (mk_datetime 2024 1 2 10 0) _ H Hle)
    as [l' [Hl' Hin]].
  exists l'. split; [exact Hl' |]. apply Hin. simpl. tauto.
Defined.

(** ** From the offered start times to the offered durations *)

(** X19. A start time that the wizard offers can be booked for half an
    hour: for a slot that [_next_half_hour_slots] returns (with [n >= 1]),
    whenever the duration loop of [_proceed_to_duration] completes for that
    start time in the same room, the 30-minute preset is among the offered
    durations. *)
Theorem offered_slot_has_duration (db : database) (now : datetime)
        (booking_date : date) (room_id n : Z) (slots : list (Z * Z)) (h m : Z)
        (l : list Z) :
  1 <= n ->
  next_half_hour_slots db now booking_date room_id n = Ok slots ->
  In (h, m) slots ->
  proceed_to_duration db (Some room_id) (combine booking_date (h * 60 + m)) = Ok l ->
  In 30 l.
Proof.
  intros Hn Hslots Hin Hl. unfold next_half_hour_slots in Hslots.
  cbv zeta in Hslots.
  destruct (if booking_date =? date_of now
            then (time_of now / 60, time_of now mod 60) else (11, 0))
    as [start_h start_m].
  apply (hours_from_spec db booking_date room_id n start_h start_m Hn) in Hslots;
    [| cbn [List.length]; lia].
  subst slots. apply In_firstn in Hin. cbn [app] in Hin.
  apply filter_In in Hin. destruct Hin as [_ Hfree].
  unfold slot_free in Hfree. cbn [fst snd] in Hfree. cbv zeta in Hfree.
  unfold proceed_to_duration in Hl.
  apply available_durations_Ok in Hl. destruct Hl as [Hl _]. subst l.
  cbn [app]. apply filter_In. split; [left; reflexivity |].
  unfold duration_free. destruct (room_given (Some room_id)) as [r |] eqn:Er;
    [| reflexivity].
  cbn [room_given] in Er. destruct (room_id =? 0); inversion Er. subst r.
  exact Hfree.
Qed.

Lemma offered_slot_has_duration_witness :
  let now := mk_datetime 2024 1 2 9 10 in
  let booking_date := ymd2ord 2024 1 2 in
  1 <= 4 /\
  next_half_hour_slots db_three_rooms now booking_date 2 4
  = Ok [(9, 30); (11, 0); (11, 30); (12, 0)] /\
  proceed_to_duration db_three_rooms (Some 2) (combine booking_date (9 * 60 + 30))
  = Ok [30] /\
  In 30 [30].
Proof.
  intros now booking_date.
  assert (Hn : 1 <= 4) by lia.
  assert (Hs : next_half_hour_slots db_three_rooms now booking_date 2 4
               = Ok [(9, 30); (11, 0); (11, 30); (12, 0)])
    by (vm_compute; reflexivity).
  assert (Hin : In (9, 30) [(9, 30); (11, 0); (11, 30); (12, 0)])
    by (left; reflexivity).
  assert (Hl : proceed_to_duration db_three_rooms (Some 2)
                                   (combine booking_date (9 * 60 + 30)) = Ok [30])
    by (vm_compute; reflexivity).
  split; [exact Hn | split; [exact Hs | split; [exact Hl |]]].
  exact (offered_slot_has_duration db_three_rooms now booking_date 2 4 _ 9 30 _
                                   Hn Hs Hin Hl).
Defined.
